(** * e57 spherical image extractor: a shallow embedding of [extractor.py]

    The pipeline of [extractor.py] (index builder, image codec, scan
    processor, batch orchestrator) is embedded as functions over an explicit
    world: a file system, the progress bar and standard output.  Python
    exceptions are the [Raise] results of a state-and-error monad; the effects
    performed before an exception stay in the world, as they do in Python.

    The three libraries the script calls (numpy, pye57/libe57, Pillow) are not
    part of the repository; they enter as interfaces (type classes), and the
    module [Sample] gives small executable instances to run the embedding on
    concrete documents. *)

From stdpp Require Import base tactics option list strings pretty gmap vector.
From Stdlib Require Import Ascii.
From Stdlib Require String.

Local Open Scope stdpp_scope.

(** ** Python strings *)

Module PyStr.

(** [s.endswith(suf)]: some tail of [s] is [suf]. *)
Fixpoint endswith (s suf : string) : bool :=
  if String.eqb s suf then true
  else match s with
       | EmptyString => false
       | String _ s' => endswith s' suf
       end.

(** [s.split("/")]: the runs between slashes, never an empty list. *)
Fixpoint split_slash (s : string) : list string :=
  match s with
  | EmptyString => [EmptyString]
  | String c s' =>
      if Ascii.eqb c "/" then EmptyString :: split_slash s'
      else match split_slash s' with
           | x :: xs => String c x :: xs
           | [] => [String c EmptyString]
           end
  end.

(** [sep.join(l)]. *)
Fixpoint join (sep : string) (l : list string) : string :=
  match l with
  | [] => ""
  | [x] => x
  | x :: xs => x +:+ sep +:+ join sep xs
  end.

(** Truth value of a [str]: the empty string tests false. *)
Definition truthy (s : string) : bool := negb (String.eqb s "").

(** The last run of [split_slash]: what follows the last slash. *)
Definition basename (s : string) : string := List.last (split_slash s) "".

(** The last character of [s] (the zero byte for the empty string). *)
Fixpoint final (s : string) : ascii :=
  match s with
  | EmptyString => Ascii.zero
  | String c EmptyString => c
  | String _ s' => final s'
  end.

End PyStr.

(** ** pathlib

    A path is kept as pathlib keeps it, by its [parts] (POSIX flavour): the
    anchor ["/"] (or ["//"]) first when the path is absolute, then the
    components; empty components and ["."] are dropped on construction and
    [".."] is kept as written.  Two paths name the same file when their parts
    are equal: the file system below resolves neither [".."] nor symbolic
    links. *)

Abbreviation Path := (list string).

Module PyPath.

Definition anchor_of (s : string) : Path :=
  match s with
  | String "/" (String "/" (String "/" _)) => ["/"]
  | String "/" (String "/" _) => ["//"]
  | String "/" _ => ["/"]
  | _ => []
  end.

Definition is_part (x : string) : bool :=
  negb (String.eqb x "") && negb (String.eqb x ".").

Definition is_anchor (x : string) : bool :=
  String.eqb x "/" || String.eqb x "//".

(** [Path(s)] *)
Definition of_str (s : string) : Path :=
  anchor_of s ++ List.filter is_part (PyStr.split_slash s).

(** [p.parent] *)
Definition parent (p : Path) : Path :=
  match p with
  | [] => []
  | [x] => if is_anchor x then [x] else []
  | _ => removelast p
  end.

(** [p / q]: an absolute right operand replaces the left one. *)
Definition joinpath (p q : Path) : Path :=
  match q with
  | a :: _ => if is_anchor a then q else p ++ q
  | [] => p
  end.

(** [str(p)] *)
Definition to_str (p : Path) : string :=
  match p with
  | [] => "."
  | a :: tl => if is_anchor a then a +:+ PyStr.join "/" tl
               else PyStr.join "/" p
  end.

(** The path itself and the directories above it, outermost first. *)
Definition ancestors (p : Path) : list Path :=
  (λ n, take n p) <$> seq 1 (length p).

End PyPath.

(** ** Exceptions, the world and the state-and-error monad *)

Inductive PyExn :=
  | FileNotFoundError (msg : string)
  | NotADirectoryError (path : string)
  | IsADirectoryError (path : string)
  | FileExistsError (path : string)
  | KeyError (key : string)
  | UnidentifiedImageError
  | OSError (msg : string)
  | LibraryError (msg : string).

Inductive Result (A : Type) :=
  | Ok (a : A)
  | Raise (e : PyExn).
Arguments Ok {A} a.
Arguments Raise {A} e.

Definition is_ok {A} (r : Result A) : bool :=
  match r with Ok _ => true | Raise _ => false end.

(** The world the script acts on.  A file holds the characters written to it
    (a byte is a character), whether text or an encoded image. *)
Record World := mkWorld {
  dirs : gset Path;
  files : gmap Path string;
  stdout : list string;
  progress_maximum : nat;
  progress_value : nat;
}.

Definition M (A : Type) : Type := World → Result A * World.

Definition m_ret {A} (a : A) : M A := λ w, (Ok a, w).
Definition raise {A} (e : PyExn) : M A := λ w, (Raise e, w).
Definition m_bind {A B} (k : A → M B) (m : M A) : M B :=
  λ w, match m w with
       | (Ok a, w') => k a w'
       | (Raise e, w') => (Raise e, w')
       end.
(** A library call that has no effect on the world. *)
Definition lift {A} (r : Result A) : M A := λ w, (r, w).

Global Instance M_ret : MRet M := @m_ret.
Global Instance M_bind : MBind M := @m_bind.

(** Library results compose in the same way, without a world. *)
Global Instance Result_ret : MRet Result := @Ok.
Global Instance Result_bind : MBind Result := λ A B k r,
  match r with Ok a => k a | Raise e => Raise e end.

Definition set_dirs (f : gset Path → gset Path) (w : World) : World :=
  mkWorld (f (dirs w)) (files w) (stdout w) (progress_maximum w) (progress_value w).
Definition set_files (f : gmap Path string → gmap Path string) (w : World) : World :=
  mkWorld (dirs w) (f (files w)) (stdout w) (progress_maximum w) (progress_value w).
Definition set_progress_maximum (n : nat) : M unit := λ w,
  (Ok (), mkWorld (dirs w) (files w) (stdout w) n (progress_value w)).
Definition set_progress_value (n : nat) : M unit := λ w,
  (Ok (), mkWorld (dirs w) (files w) (stdout w) (progress_maximum w) n).

(** [print(s)] *)
Definition print (s : string) : M unit := λ w,
  (Ok (), mkWorld (dirs w) (files w) (stdout w ++ [s])
            (progress_maximum w) (progress_value w)).

(** ** The file system *)

(** The current directory and the root need not be created. *)
Definition is_root (p : Path) : bool :=
  match p with
  | [] => true
  | [a] => PyPath.is_anchor a
  | _ => false
  end.

Definition is_dir (w : World) (p : Path) : bool :=
  is_root p || bool_decide (p ∈ dirs w).
Definition is_file (w : World) (p : Path) : bool :=
  bool_decide (is_Some (files w !! p)).
(** [p.exists()] and [os.path.exists(str(p))] *)
Definition path_exists (w : World) (p : Path) : bool :=
  is_dir w p || is_file w p.

(** What [open(p, 'w')] and [open(p, 'a')] check before they create or open
    the file: the target is no directory and its parent is one. *)
Definition open_check (w : World) (p : Path) : Result unit :=
  if is_dir w p then Raise (IsADirectoryError (PyPath.to_str p))
  else if is_dir w (PyPath.parent p) then Ok ()
  else if is_file w (PyPath.parent p) then Raise (NotADirectoryError (PyPath.to_str p))
  else Raise (FileNotFoundError (PyPath.to_str p)).

(** [with open(p, 'w') as f: f.write(data)] *)
Definition write_file (p : Path) (data : string) : M unit := λ w,
  match open_check w p with
  | Ok _ => (Ok (), set_files (insert p data) w)
  | Raise e => (Raise e, w)
  end.

(** [with open(p, 'a') as f: f.write(data)]: the file is created when absent. *)
Definition append_file (p : Path) (data : string) : M unit := λ w,
  match open_check w p with
  | Ok _ => (Ok (), set_files (λ fs, <[p := default "" (fs !! p) +:+ data]> fs) w)
  | Raise e => (Raise e, w)
  end.

(** [p.mkdir(parents=True, exist_ok=True)]: refused, with nothing created,
    when [p] or a directory above it is a regular file. *)
Definition mkdir_parents (p : Path) : M unit := λ w,
  if existsb (is_file w) (PyPath.ancestors p) then
    (Raise (if is_file w p then FileExistsError (PyPath.to_str p)
            else NotADirectoryError (PyPath.to_str p)), w)
  else (Ok (), set_dirs (λ d, d ∪ list_to_set (PyPath.ancestors p)) w).

(** ** The libraries, as interfaces *)

(** numpy: the float components of a pose and how an f-string prints one. *)
Class Numpy := {
  float64 : Type;
  float64_str : float64 → string;
}.

(** What the script reads from a scan header: [header['guid'].value()],
    [header['name'].value()], [header.translation] (3 floats) and
    [header.rotation] (4 floats, stored w, x, y, z). *)
Record ScanHeader `{Numpy} := mkScanHeader {
  guid : string;
  name : string;
  translation : vec float64 3;
  rotation : vec float64 4;
}.

(** A scan header as pye57 hands it out, before anything is read from it:
    the node it wraps ([header[key]] is [node[key]]) and what its
    properties [translation] and [rotation] give, which pye57 computes from
    the pose of the scan and which raise when the pose cannot be read. *)
Record RawHeader `{Numpy} (Node : Type) := mkRawHeader {
  header_node : Node;
  header_translation : Result (vec float64 3);
  header_rotation : Result (vec float64 4);
}.
Arguments mkRawHeader {_ Node} _ _ _.
Arguments header_node {_ Node} r.
Arguments header_translation {_ Node} r.
Arguments header_rotation {_ Node} r.

(** An opened container: the root node of its image file and, scan by
    scan, what [get_header] gives: the header, or the exception pye57
    raises while it builds the header object. *)
Record E57File (Node : Type) `{Numpy} := mkE57File {
  image_root : Node;
  scan_headers : list (Result (RawHeader Node));
}.
Arguments image_root {Node _} e.
Arguments scan_headers {Node _} e.

(** libe57 nodes through the operations the script uses on them.  Each may
    raise, with an exception of the library's choice: what [node[key]]
    raises for a key the node does not define need not be the [KeyError]
    that the handler around the [sphericalRepresentation] lookup catches
    (pye57 raises its own [E57Exception], here a [LibraryError]). *)
Class LibE57 `{Numpy} := {
  Node : Type;
  (** [node[key]] *)
  node_getitem : Node → string → Result Node;
  (** the truth value [if node:] tests *)
  node_bool : Node → bool;
  (** the children [for child in node] visits, in document order *)
  node_iter : Node → Result (list Node);
  (** [node.value()] *)
  node_value : Node → Result string;
  (** [node.byteCount()] *)
  node_byteCount : Node → Result nat;
  (** the bytes [node.read(buf, start, count)] delivers *)
  node_read : Node → nat → nat → Result string;
  (** [E57(path)] on the bytes of the file at [path] *)
  E57_parse : string → Result (E57File Node);
}.

(** Pillow. *)
Inductive Resampling := NEAREST | BOX | BILINEAR | HAMMING | BICUBIC | LANCZOS.

(** What the encoder behind [img.save] does with the file it was given:
    it writes the bytes of the image, or it raises after it has written some
    bytes (none, when it refuses the image's mode at once). *)
Inductive Encoding :=
  | Encoded (data : string)
  | EncoderError (e : PyExn) (written : string).

Class Pillow := {
  Image : Type;
  (** [Image.open(io.BytesIO(buf))] *)
  Image_open : string → Result Image;
  (** [img.size], as (width, height) *)
  Image_size : Image → N * N;
  (** [img.resize(size, resample)]; an image opened lazily is decoded here *)
  Image_resize : Image → N * N → Resampling → Result Image;
  (** the encoder [img.save(fp, format, quality=q)] runs on the opened file *)
  Image_encode : Image → string → nat → Encoding;
  (** whether a save that fails removes the file it had created, as recent
      versions of Pillow do *)
  save_removes_created : bool;
  (** a resized image has the size asked for *)
  Image_resize_size : ∀ img size f img',
    Image_resize img size f = Ok img' → Image_size img' = size;
}.

(** ** The script *)

Definition newline : string := String "010"%char "".

(** [for x in l: body(x)] *)
Fixpoint for_each {A} (body : A → M unit) (l : list A) : M unit :=
  match l with
  | [] => mret ()
  | x :: l' => body x ;; for_each body l'
  end.

(** A left fold whose step may raise. *)
Fixpoint fold_result {A B} (f : B → A → Result B) (b : B) (l : list A) : Result B :=
  match l with
  | [] => Ok b
  | x :: l' => b' ← f b x; fold_result f b' l'
  end.

(** [buf = np.zeros(n, uint8)] overwritten from index 0 by the bytes read:
    the buffer keeps its [n] bytes whatever was delivered. *)
Fixpoint np_fill (n : nat) (data : string) : string :=
  match n with
  | 0 => ""
  | S n' =>
      match data with
      | EmptyString => String Ascii.zero (np_fill n' "")
      | String c data' => String c (np_fill n' data')
      end
  end.

Section Extractor.
Context {np : Numpy} {e57lib : LibE57} {pil : Pillow}.

Definition scan_count (e57_file : E57File Node) : nat :=
  length (scan_headers e57_file).

(** [e57_file.get_header(index)] *)
Definition get_header (e57_file : E57File Node) (index : nat)
    : Result (RawHeader Node) :=
  match scan_headers e57_file !! index with
  | Some r => r
  | None => Raise (LibraryError "scan index out of range")
  end.

(** Lines 43 to 47: the header of a scan and the four things the script
    reads from it before it looks at the index, in the order of the
    source.  The first read that raises ends the scan. *)
Definition read_header (e57_file : E57File Node) (scan_index : nat)
    : Result ScanHeader :=
  scan_header ← get_header e57_file scan_index;
  translation ← header_translation scan_header;
  rotation ← header_rotation scan_header;
  guid ← node_getitem (header_node scan_header) "guid" ≫= node_value;
  name ← node_getitem (header_node scan_header) "name" ≫= node_value;
  Ok (mkScanHeader _ guid name translation rotation).

(** [E57(str(file_path))] *)
Definition E57 (file_path : string) : M (E57File Node) := λ w,
  match files w !! PyPath.of_str file_path with
  | Some data => (E57_parse data, w)
  | None => (Raise (LibraryError "cannot open the container"), w)
  end.

Definition os_path_exists (file_path : string) : M bool := λ w,
  (Ok (path_exists w (PyPath.of_str file_path)), w).

(** *** process_image *)

(** [spherical_representation["jpegImage"] or spherical_representation["pngImage"]] *)
Definition select_image_ref (spherical_representation : Node) : Result Node :=
  jpeg ← node_getitem spherical_representation "jpegImage";
  if node_bool jpeg then Ok jpeg
  else node_getitem spherical_representation "pngImage".

(** The buffer handed to [Image.open]. *)
Definition load_image_data (image_ref : Node) : Result string :=
  count ← node_byteCount image_ref;
  data ← node_read image_ref 0 count;
  Ok (np_fill count data).

(** [img.save(fp, format, quality=q)] on a path.  Pillow opens the file for
    writing, which creates it or empties it, and then runs the encoder.
    When the encoder raises, Pillow closes the file and lets the exception
    through; the file is left with what the encoder had written, unless
    this call created it and Pillow removes such a file. *)
Definition Image_save (img : Image) (fp : Path) (format : string) (quality : nat)
    : M unit := λ w,
  match open_check w fp with
  | Raise e => (Raise e, w)
  | Ok _ =>
      match Image_encode img format quality with
      | Encoded data => (Ok (), set_files (insert fp data) w)
      | EncoderError e written =>
          (Raise e,
           if is_file w fp || negb save_removes_created
           then set_files (insert fp written) w else w)
      end
  end.

Definition process_image (spherical_representation : Node) (name : string)
    (output_path : Path) : M (string * Path) :=
  image_ref ← lift (select_image_ref spherical_representation);
  image_data ← lift (load_image_data image_ref);
  img ← lift (Image_open image_data);
  img_resized ← lift (Image_resize img (8192%N, 4096%N) LANCZOS);
  let image_file_name := name +:+ ".jpeg" in
  let image_full_path := PyPath.joinpath output_path (PyPath.of_str image_file_name) in
  Image_save img_resized image_full_path "JPEG" 50;;
  mret (image_file_name, image_full_path).

(** *** extract_spherical_representations *)

(** The [if ... elif ...] that picks the join key of an image node;
    [None] when neither field tests true. *)
Definition associated_guid_of (image2D : Node) : Result (option string) :=
  first ← node_getitem image2D "associatedData3DGuid";
  if node_bool first then v ← node_value first; Ok (Some v)
  else
    second ← node_getitem image2D "rlms:scanposGuid";
    if node_bool second then v ← node_value second; Ok (Some v)
    else Ok None.

(** One turn of the loop over [root['images2D']]. *)
Definition index_image2D (spherical_dict : gmap string Node) (image2D : Node)
    : Result (gmap string Node) :=
  match node_getitem image2D "sphericalRepresentation" with
  | Raise (KeyError _) => Ok spherical_dict
  | Raise e => Raise e
  | Ok spherical_representation =>
      if node_bool spherical_representation then
        associated_guid ← associated_guid_of image2D;
        match associated_guid with
        | Some g =>
            if PyStr.truthy g
            then Ok (<[g := spherical_representation]> spherical_dict)
            else Ok spherical_dict
        | None => Ok spherical_dict
        end
      else Ok spherical_dict
  end.

Definition extract_spherical_representations (e57_file : E57File Node)
    : Result (gmap string Node) :=
  let root := image_root e57_file in
  images2D ← node_getitem root "images2D";
  if node_bool images2D then
    children ← node_iter images2D;
    fold_result index_image2D ∅ children
  else Ok ∅.

(** *** process_e57_file *)

(** The cells of one ledger row, in the order the f-string writes them. *)
Definition row_cells (image_file_name : string) (image_full_path : Path)
    (translation : vec float64 3) (rotation : vec float64 4) : list string :=
  [ image_file_name; PyPath.to_str image_full_path;
    float64_str (translation !!! 0%fin);
    float64_str (translation !!! 1%fin);
    float64_str (translation !!! 2%fin);
    float64_str (rotation !!! 1%fin);
    float64_str (rotation !!! 2%fin);
    float64_str (rotation !!! 3%fin);
    float64_str (rotation !!! 0%fin) ].

Definition coords_row (image_file_name : string) (image_full_path : Path)
    (translation : vec float64 3) (rotation : vec float64 4) : string :=
  PyStr.join "," (row_cells image_file_name image_full_path translation rotation)
    +:+ newline.

(** The body of the loop over scan indices, once the header is read
    (lines 49 to 57). *)
Definition process_scan_header (spherical_representations : gmap string Node)
    (output_path coords_file_path : Path) (scan_header : ScanHeader) : M unit :=
  let translation := translation scan_header in
  let rotation := rotation scan_header in
  let guid := guid scan_header in
  let name := name scan_header in
  match spherical_representations !! guid with
  | Some spherical_representation =>
      if node_bool spherical_representation then
        '(image_file_name, image_full_path) ←
          process_image spherical_representation name output_path;
        append_file coords_file_path
          (coords_row image_file_name image_full_path translation rotation)
      else mret ()
  | None => mret ()
  end.

(** The body of the loop over scan indices. *)
Definition process_scan (e57_file : E57File Node)
    (spherical_representations : gmap string Node)
    (output_path coords_file_path : Path) (scan_index : nat) : M unit :=
  scan_header ← lift (read_header e57_file scan_index);
  process_scan_header spherical_representations output_path coords_file_path
    scan_header.

Definition not_found_message (file_path : string) : string :=
  "E57 file not found at path: " +:+ file_path.

(** [current_progress] is the one-element list the caller shares with this
    function; its content goes in and comes out. *)
Definition process_e57_file (file_path : string)
    (output_path coords_file_path : Path) (current_progress : nat) : M nat :=
  found ← os_path_exists file_path;
  if negb found then
    print (not_found_message file_path);;
    raise (FileNotFoundError (not_found_message file_path))
  else
    e57_file ← E57 file_path;
    spherical_representations ← lift (extract_spherical_representations e57_file);
    let num_scans := scan_count e57_file in
    for_each
      (process_scan e57_file spherical_representations output_path coords_file_path)
      (seq 0 num_scans);;
    let current_progress := current_progress + 1 in
    set_progress_value current_progress;;
    mret current_progress.

(** *** extract_spherical_images *)

Definition create_directory_if_not_exist (directory_path : Path) : M unit :=
  λ w,
    if negb (path_exists w directory_path) then
      (print ("Creating directory: " +:+ PyPath.to_str directory_path);;
       mkdir_parents directory_path) w
    else
      print ("Directory already exists: " +:+ PyPath.to_str directory_path) w.

Definition coords_header : string :=
  "image_file_name,image_path,translation_x,translation_y,translation_z,rotation_x,rotation_y,rotation_z,rotation_w"
    +:+ newline.

Definition output_path_of (file_paths : list string) : Path :=
  match file_paths with
  | first :: _ => PyPath.joinpath (PyPath.parent (PyPath.of_str first)) (PyPath.of_str "output")
  | [] => []
  end.

Definition coords_file_path_of (output_path : Path) : Path :=
  PyPath.joinpath output_path (PyPath.of_str "coords.csv").

(** The loop over [file_paths]. *)
Fixpoint process_files (file_paths : list string)
    (output_path coords_file_path : Path) (current_progress : nat) : M unit :=
  match file_paths with
  | [] => mret ()
  | file_path :: rest =>
      if negb (PyStr.endswith file_path ".e57") then
        print ("Skipping non-E57 file: " +:+ file_path);;
        process_files rest output_path coords_file_path current_progress
      else
        current_progress ←
          process_e57_file file_path output_path coords_file_path current_progress;
        process_files rest output_path coords_file_path current_progress
  end.

(** Everything before the loop: output directory, ledger, progress bar. *)
Definition prepare_output (file_paths : list string) : M (Path * Path) :=
  let output_path := output_path_of file_paths in
  create_directory_if_not_exist output_path;;
  let coords_file_path := coords_file_path_of output_path in
  (λ w,
     if negb (path_exists w coords_file_path) then
       (print ("Creating coords file: " +:+ PyPath.to_str coords_file_path);;
        write_file coords_file_path coords_header) w
     else (Ok (), w));;
  set_progress_maximum (length file_paths);;
  mret (output_path, coords_file_path).

Definition extract_spherical_images (file_paths : list string) : M unit :=
  match file_paths with
  | [] => print "No files selected."
  | _ =>
      '(output_path, coords_file_path) ← prepare_output file_paths;
      process_files file_paths output_path coords_file_path 0
  end.

End Extractor.

(** ** The ledger's columns *)

Definition coords_columns : list string :=
  [ "image_file_name"; "image_path";
    "translation_x"; "translation_y"; "translation_z";
    "rotation_x"; "rotation_y"; "rotation_z"; "rotation_w" ].


(** The text of the ledger, written out: a line feed ends a record, commas
    separate its cells, and the header row is the record of the column
    names. *)
Definition line_feed : string := String (Ascii.ascii_of_nat 10) "".

Definition record_text (cells : list string) : string :=
  PyStr.join "," cells +:+ line_feed.

Definition header_row : string := record_text coords_columns.

(** The lines of a text are counted by its line feeds. *)
Fixpoint line_count (s : string) : nat :=
  match s with
  | EmptyString => 0
  | String c s' => (if Ascii.eqb c (Ascii.ascii_of_nat 10) then 1 else 0) + line_count s'
  end.


(** ** The index builder, node by node *)

Section IndexEntries.
Context {np : Numpy} {e57lib : LibE57}.

(** The nodes the index builder visits, in document order. *)
Definition image_nodes (e57_file : E57File Node) : Result (list Node) :=
  images2D ← node_getitem (image_root e57_file) "images2D";
  if node_bool images2D then node_iter images2D else Ok [].

(** What one image node contributes to the index: the guid it resolves to
    with its payload, or nothing when the node is skipped. *)
Definition index_entry (image2D : Node) : Result (option (string * Node)) :=
  match node_getitem image2D "sphericalRepresentation" with
  | Raise (KeyError _) => Ok None
  | Raise e => Raise e
  | Ok spherical_representation =>
      if node_bool spherical_representation then
        associated_guid ← associated_guid_of image2D;
        match associated_guid with
        | Some g => if PyStr.truthy g then Ok (Some (g, spherical_representation))
                    else Ok None
        | None => Ok None
        end
      else Ok None
  end.

(** The node resolves to the guid [g]. *)
Definition resolves_to (g : string) (image2D : Node) : Prop :=
  ∃ payload, index_entry image2D = Ok (Some (g, payload)).

End IndexEntries.

(** ** The codec, up to the write *)

Section CodecPlan.
Context {np : Numpy} {e57lib : LibE57} {pil : Pillow}.

(** Everything [process_image] does before it writes: pick the payload,
    read it, decode it, resize it. *)
Definition resized_panorama (spherical_representation : Node) : Result Image :=
  image_ref ← select_image_ref spherical_representation;
  image_data ← load_image_data image_ref;
  img ← Image_open image_data;
  Image_resize img (8192%N, 4096%N) LANCZOS.

(** Where the image of a scan called [name] goes. *)
Definition image_path_of (output_path : Path) (name : string) : Path :=
  PyPath.joinpath output_path (PyPath.of_str (name +:+ ".jpeg")).

(** The bytes of the image file of a payload: the payload resized, then
    encoded as JPEG at quality 50; the encoder's exception when it fails. *)
Definition image_bytes (spherical_representation : Node) : Result string :=
  resized ← resized_panorama spherical_representation;
  match Image_encode resized "JPEG" 50 with
  | Encoded data => Ok data
  | EncoderError e _ => Raise e
  end.

End CodecPlan.

(** ** What a run reads and what it adds to the ledger *)

(** An input of the batch: a path whose last part ends in [.e57]. *)
Definition is_input_path (p : Path) : Prop :=
  PyStr.endswith (List.last p "") ".e57" = true.

(** Two worlds a run cannot tell apart: the same directories and the same
    content at every input path. *)
Definition same_inputs (w v : World) : Prop :=
  dirs w = dirs v ∧ ∀ p, is_input_path p → files w !! p = files v !! p.

(** Both results succeed with the same value, or both raise. *)
Definition same_outcome {A} (r r' : Result A) : Prop :=
  match r, r' with
  | Ok a, Ok a' => a = a'
  | Raise _, Raise _ => True
  | _, _ => False
  end.

Definition concat_rows (rows : list string) : string :=
  foldr String.append "" rows.

(** The content of a file opened in append mode (and created when absent)
    once for each of [rows]. *)
Definition ledger_plus (content : option string) (rows : list string) : option string :=
  match rows with
  | [] => content
  | _ => Some (default "" content +:+ concat_rows rows)
  end.

(** How many entries of a list the file loop hands to [process_e57_file]. *)
Definition e57_count (file_paths : list string) : nat :=
  length (List.filter (λ p, PyStr.endswith p ".e57") file_paths).

Section Rows.
Context {np : Numpy}.

(** The cells of the data row of a header: the image's file name and
    path, the translation, and the rotation as x, y, z, w, which the
    header stores at 1, 2, 3 and 0. *)
Definition cells_of (output_path : Path) (h : ScanHeader) : list string :=
  [ name h +:+ ".jpeg";
    PyPath.to_str (image_path_of output_path (name h));
    float64_str (translation h !!! 0%fin);
    float64_str (translation h !!! 1%fin);
    float64_str (translation h !!! 2%fin);
    float64_str (rotation h !!! 1%fin);
    float64_str (rotation h !!! 2%fin);
    float64_str (rotation h !!! 3%fin);
    float64_str (rotation h !!! 0%fin) ].

(** The data row of a header, as text. *)
Definition row_of (output_path : Path) (h : ScanHeader) : string :=
  record_text (cells_of output_path h).

(** The headers of a document whose guid has an entry in the index. *)
Definition joined_headers {Node : Type} (idx : gmap string Node)
    (headers : list ScanHeader) : list ScanHeader :=
  filter (λ h, is_Some (idx !! guid h)) headers.

(** A data row of the ledger. *)
Definition is_data_row (row : string) : Prop :=
  ∃ output_path h, row = row_of output_path h.

(** A computation that reads only what [same_inputs] keeps, leaves it in
    place, and otherwise at most appends data rows to the ledger: from two
    worlds with the same inputs it appends the same rows. *)
Definition frames {A} (coords_file_path : Path) (m : M A) : Prop :=
  ∀ w v, same_inputs w v →
    ∃ rows, Forall is_data_row rows ∧
      same_outcome (m w).1 (m v).1 ∧
      same_inputs w (m w).2 ∧ same_inputs v (m v).2 ∧
      files (m w).2 !! coords_file_path = ledger_plus (files w !! coords_file_path) rows ∧
      files (m v).2 !! coords_file_path = ledger_plus (files v !! coords_file_path) rows.

End Rows.

(** ** What lies under a directory *)

(** The path [p] is [dir] or lies below it. *)
Fixpoint starts_with (dir p : Path) : bool :=
  match dir, p with
  | [], _ => true
  | d :: dir', x :: p' => String.eqb d x && starts_with dir' p'
  | _ :: _, [] => false
  end.

(** The files at or below [dir]. *)
Definition files_under (dir : Path) (w : World) : list Path :=
  List.filter (starts_with dir) (map_to_list (files w)).*1.

(** ** What a step leaves alone *)

(** Every run of [m] relates the world before to the world after by [R],
    whether it returns or raises. *)
Definition keeps (R : World → World → Prop) {A} (m : M A) : Prop :=
  ∀ w, R w (m w).2.

(** Only files changed: directories, standard output and the progress bar
    are as before. *)
Definition only_files (w w' : World) : Prop :=
  dirs w' = dirs w ∧ stdout w' = stdout w ∧
  progress_maximum w' = progress_maximum w ∧ progress_value w' = progress_value w.

(** Nothing was removed and no input was touched: every directory and
    every file is still there, and the files at input paths hold what they
    held. *)
Definition inputs_safe (w w' : World) : Prop :=
  dirs w ⊆ dirs w' ∧
  (∀ p, is_Some (files w !! p) → is_Some (files w' !! p)) ∧
  (∀ p, is_input_path p → files w' !! p = files w !! p).

(** ** The window: select_files and start_processing *)

(** More of Python's [str]: [strip], [split] on a character, and the text
    [str()] gives for a tuple of strings.  Strings are read as ASCII: what
    [repr] prints for a character above 127 depends on whether Python
    counts it as printable, and nothing proved below is about such
    characters. *)
Module PyText.

(** [c in chars] *)
Definition char_in (c : ascii) (chars : string) : bool :=
  existsb (Ascii.eqb c) (String.list_ascii_of_string chars).

(** [s.lstrip(chars)] *)
Fixpoint lstrip (chars s : string) : string :=
  match s with
  | EmptyString => EmptyString
  | String c s' => if char_in c chars then lstrip chars s' else s
  end.

(** [s.rstrip(chars)] *)
Fixpoint rstrip (chars s : string) : string :=
  match s with
  | EmptyString => EmptyString
  | String c s' =>
      match rstrip chars s' with
      | EmptyString => if char_in c chars then EmptyString else String c EmptyString
      | r => String c r
      end
  end.

(** [s.strip(chars)] *)
Definition strip (chars s : string) : string := rstrip chars (lstrip chars s).

(** [s.split(sep)] for a separator of one character. *)
Fixpoint split (sep : ascii) (s : string) : list string :=
  match s with
  | EmptyString => [EmptyString]
  | String c s' =>
      if Ascii.eqb c sep then EmptyString :: split sep s'
      else match split sep s' with
           | x :: xs => String c x :: xs
           | [] => [String c EmptyString]
           end
  end.

Definition squote : ascii := "'"%char.
Definition dquote : ascii := Ascii.ascii_of_nat 34.
Definition backslash : ascii := Ascii.ascii_of_nat 92.

Definition hex_digit (n : nat) : ascii :=
  Ascii.ascii_of_nat (if n <? 10 then 48 + n else 87 + n).

(** One character inside [repr] of a string quoted with [quote]. *)
Definition repr_char (quote c : ascii) : string :=
  let n := Ascii.nat_of_ascii c in
  if Ascii.eqb c quote || Ascii.eqb c backslash then String backslash (String c "")
  else if n =? 9 then String backslash "t"
  else if n =? 10 then String backslash "n"
  else if n =? 13 then String backslash "r"
  else if (n <? 32) || (n =? 127) then
    String backslash (String "x" (String (hex_digit (n / 16))
                                    (String (hex_digit (n mod 16)) "")))
  else String c "".

Fixpoint repr_body (quote : ascii) (s : string) : string :=
  match s with
  | EmptyString => EmptyString
  | String c s' => repr_char quote c +:+ repr_body quote s'
  end.

(** [repr(s)]: single quotes, unless the string has a single quote and no
    double quote. *)
Definition repr (s : string) : string :=
  let quote := if char_in squote s && negb (char_in dquote s) then dquote
               else squote in
  String quote (repr_body quote s +:+ String quote "").

(** [str(t)] for a tuple [t] of strings. *)
Definition tuple_str (t : list string) : string :=
  match t with
  | [] => "()"
  | [x] => "(" +:+ repr x +:+ ",)"
  | _ => "(" +:+ PyStr.join ", " (repr <$> t) +:+ ")"
  end.

End PyText.

(** What the window holds: the two [StringVar]s, which of the two widgets
    that share a place is packed, and the message boxes shown so far. *)
Inductive Dialog :=
  | ShowError (title message : string)
  | ShowInfo (title message : string).

Record Gui := mkGui {
  selected_paths : string;
  input_path : string;
  entry_packed : bool;
  progress_bar_packed : bool;
  dialogs : list Dialog;
}.

(** [select_files], given the tuple the file dialog returned (empty when
    the dialog was cancelled).  A [StringVar] set to a tuple gives the
    tuple's text back. *)
Definition select_files (paths : list string) (g : Gui) : Gui :=
  match paths with
  | _ :: _ =>
      mkGui (PyText.tuple_str paths)
        (pretty (length paths) +:+ " file(s) selected")
        (entry_packed g) (progress_bar_packed g) (dialogs g)
  | [] =>
      mkGui (selected_paths g) "No files selected"
        (entry_packed g) (progress_bar_packed g) (dialogs g)
  end.

(** The list [start_processing] makes of the text of [selected_paths]. *)
Definition parse_paths (paths_str : string) : list string :=
  let paths_str := PyText.strip "[]" paths_str in
  (λ path, PyText.strip "')" (PyText.strip "('" (PyText.strip " '" path)))
    <$> PyText.split "," paths_str.

(** Paths the window hands on legibly.  An ordinary character is a
    printable ASCII character that [repr] prints as it is and that is no
    comma; an edge character is one the three [strip] calls leave alone. *)
Definition ordinary_char (c : ascii) : bool :=
  let n := Ascii.nat_of_ascii c in
  negb (Ascii.eqb c ",") && negb (Ascii.eqb c PyText.backslash)
  && negb (Ascii.eqb c PyText.dquote) && negb (n <? 32) && (n <? 127).

Definition edge_char (c : ascii) : bool := negb (PyText.char_in c " '()").

Definition ordinary (p : string) : bool :=
  forallb ordinary_char (String.list_ascii_of_string p).

(** A non-empty path of ordinary characters that either has an apostrophe
    or begins and ends with edge characters. *)
Definition selectable (p : string) : bool :=
  ordinary p &&
  (PyText.char_in PyText.squote p
   || match p with
      | EmptyString => false
      | String c _ => edge_char c && edge_char (PyStr.final p)
      end).

(** What [parse_paths] makes of a selectable path: itself, or itself in
    double quotes when it has an apostrophe. *)
Definition came_back (p : string) : string :=
  if PyText.char_in PyText.squote p
  then String PyText.dquote (p +:+ String PyText.dquote "")
  else p.

(** The three [strip] calls of [parse_paths] on one piece. *)
Definition clean (piece : string) : string :=
  PyText.strip "')" (PyText.strip "('" (PyText.strip " '" piece)).

(** A core: non-empty, with edge characters at both ends. *)
Definition core (b : string) : Prop :=
  b ≠ "" ∧ PyText.char_in (PyStr.final b) " '()" = false ∧
  ∃ c b', b = String c b' ∧ PyText.char_in c " '()" = false.

Section Window.
Context {np : Numpy} {e57lib : LibE57} {pil : Pillow}.

(** [start_processing].  The [try] around the parsing has nothing to catch:
    [strip] and [split] do not raise on a [str].  An exception of the batch
    leaves the function where it was raised. *)
Definition start_processing (g : Gui) (w : World) : Result unit * Gui * World :=
  let paths_str := selected_paths g in
  if negb (PyStr.truthy paths_str) then
    (Ok (),
     mkGui (selected_paths g) (input_path g) (entry_packed g) (progress_bar_packed g)
       (dialogs g ++ [ShowError "Error" "No files selected for processing!"]),
     w)
  else
    let paths_list := parse_paths paths_str in
    match extract_spherical_images paths_list w with
    | (Ok _, w') =>
        (Ok (),
         mkGui (selected_paths g) (input_path g) true false
           (dialogs g ++ [ShowInfo "Success" "Processing complete!"]),
         w')
    | (Raise e, w') =>
        (Raise e,
         mkGui (selected_paths g) (input_path g) false true (dialogs g),
         w')
    end.

End Window.

(** ** Executable instances

    Small stand-ins for the three libraries, to run the script on concrete
    containers.  As in pye57, a structure raises the library's own
    exception for a key it does not define, not [KeyError]; a structure or
    vector without children tests false, and string and blob nodes test
    true. *)

Module Sample.

(** A float is carried by the decimal text numpy prints for it. *)
#[export] Instance numpy : Numpy := {|
  float64 := string;
  float64_str := λ x, x;
|}.

#[warnings="-register-all"]
Inductive DNode :=
  | StringNode (v : string)
  | BlobNode (content : string)
  | StructureNode (children : list (string * DNode))
  | VectorNode (items : list DNode).

Fixpoint child (key : string) (children : list (string * DNode)) : option DNode :=
  match children with
  | [] => None
  | (k, v) :: rest => if String.eqb k key then Some v else child key rest
  end.

Definition d_getitem (n : DNode) (key : string) : Result DNode :=
  match n with
  | StructureNode children =>
      match child key children with
      | Some v => Ok v
      | None => Raise (LibraryError "E57_ERROR_PATH_UNDEFINED")
      end
  | _ => Raise (LibraryError "not a structure")
  end.

Definition d_bool (n : DNode) : bool :=
  match n with
  | StructureNode [] | VectorNode [] => false
  | _ => true
  end.

Definition d_iter (n : DNode) : Result (list DNode) :=
  match n with
  | VectorNode items => Ok items
  | StructureNode children => Ok (children.*2)
  | _ => Raise (LibraryError "not iterable")
  end.

Definition d_value (n : DNode) : Result string :=
  match n with
  | StringNode v => Ok v
  | _ => Raise (LibraryError "no value")
  end.

Definition d_byteCount (n : DNode) : Result nat :=
  match n with
  | BlobNode content => Ok (String.length content)
  | _ => Raise (LibraryError "not a blob")
  end.

Definition d_read (n : DNode) (start count : nat) : Result string :=
  match n with
  | BlobNode content => Ok (String.substring start count content)
  | _ => Raise (LibraryError "not a blob")
  end.

(** One scan with a 100x50 JPEG panorama (A) and one without (B). *)
Definition header_A : ScanHeader :=
  mkScanHeader _ "guid-A" "A" [# "1.5"; "2.0"; "0.25"] [# "1.0"; "0.0"; "0.0"; "0.0"].
Definition header_B : ScanHeader :=
  mkScanHeader _ "guid-B" "B" [# "4.0"; "5.0"; "6.0"] [# "0.5"; "0.5"; "0.5"; "0.5"].

(** Scan A under a name that is an absolute path. *)
Definition header_abs : ScanHeader :=
  mkScanHeader _ "guid-A" "/tmp/A" [# "1.5"; "2.0"; "0.25"] [# "1.0"; "0.0"; "0.0"; "0.0"].

(** The header object from which the four reads give [h]. *)
Definition raw_of (h : ScanHeader) : RawHeader DNode :=
  mkRawHeader
    (StructureNode [("guid", StringNode (guid h)); ("name", StringNode (name h))])
    (Ok (translation h)) (Ok (rotation h)).

(** A header without a [name] child, for a scan that has no panorama. *)
Definition raw_nameless : RawHeader DNode :=
  mkRawHeader (StructureNode [("guid", StringNode "guid-B")])
    (Ok (translation header_B)) (Ok (rotation header_B)).

Definition jpeg_100x50 : DNode := BlobNode "Jd2 pixels of A".
Definition png_20x10 : DNode := BlobNode ("P" +:+ String "020"%char (String "010"%char " pixels")).
(** An image with an alpha channel, which the JPEG encoder refuses. *)
Definition alpha_20x10 : DNode := BlobNode ("A" +:+ String "020"%char (String "010"%char " pixels")).
Definition not_an_image : DNode := BlobNode "garbage".

Definition panorama (payload : list (string * DNode)) (keys : list (string * DNode)) : DNode :=
  StructureNode (("sphericalRepresentation", StructureNode payload) :: keys).
Definition photo : DNode :=
  StructureNode [("pinholeRepresentation", StructureNode [("jpegImage", jpeg_100x50)])].

Definition container_raw (images : list DNode) (headers : list (RawHeader DNode))
    : E57File DNode :=
  mkE57File DNode _ (StructureNode [("images2D", VectorNode images)]) (Ok <$> headers).

Definition container (images : list DNode) (headers : list ScanHeader) : E57File DNode :=
  container_raw images (raw_of <$> headers).

Definition doc_two_scans : E57File DNode :=
  container
    [ panorama [("jpegImage", jpeg_100x50)] [("associatedData3DGuid", StringNode "guid-A")] ]
    [header_A; header_B].

(** Two panoramas that resolve to the same scan, the second through the
    fallback key (its first key is an empty structure, which tests false). *)
Definition doc_duplicate : E57File DNode :=
  container
    [ panorama [("jpegImage", jpeg_100x50)] [("associatedData3DGuid", StringNode "guid-A")];
      panorama [("jpegImage", BlobNode "J22 later")]
        [("associatedData3DGuid", StructureNode []); ("rlms:scanposGuid", StringNode "guid-A")] ]
    [header_A].

(** A panorama stored as PNG only. *)
Definition doc_png_only : E57File DNode :=
  container
    [ panorama [("pngImage", png_20x10)] [("associatedData3DGuid", StringNode "guid-A")] ]
    [header_A].

(** A panorama that names its scan by the fallback key only. *)
Definition doc_fallback_only : E57File DNode :=
  container
    [ panorama [("jpegImage", jpeg_100x50)] [("rlms:scanposGuid", StringNode "guid-A")] ]
    [header_A].

(** A panorama without any join key. *)
Definition doc_no_key : E57File DNode :=
  container [ panorama [("jpegImage", jpeg_100x50)] [] ] [header_A].

(** A panorama whose payload is no image; scan B comes first and is fine. *)
Definition doc_broken : E57File DNode :=
  container
    [ panorama [("jpegImage", jpeg_100x50)] [("associatedData3DGuid", StringNode "guid-B")];
      panorama [("jpegImage", not_an_image)] [("associatedData3DGuid", StringNode "guid-A")] ]
    [header_B; header_A].

(** Two scans and a panorama that belongs to neither. *)
Definition doc_no_panorama : E57File DNode :=
  container
    [ panorama [("jpegImage", jpeg_100x50)] [("associatedData3DGuid", StringNode "guid-C")] ]
    [header_A; header_B].

(** Scan A under its absolute name. *)
Definition doc_absolute_name : E57File DNode :=
  container
    [ panorama [("jpegImage", jpeg_100x50)] [("associatedData3DGuid", StringNode "guid-A")] ]
    [header_abs].

(** Scan A with a payload the encoder refuses. *)
Definition doc_alpha : E57File DNode :=
  container
    [ panorama [("jpegImage", alpha_20x10)] [("associatedData3DGuid", StringNode "guid-A")] ]
    [header_A].

(** Scan A with its panorama, then a scan without panorama whose header
    has no name. *)
Definition doc_nameless : E57File DNode :=
  container_raw
    [ panorama [("jpegImage", jpeg_100x50)] [("associatedData3DGuid", StringNode "guid-A")] ]
    [raw_of header_A; raw_nameless].

(** The reader knows these containers by the content of their files. *)
Definition d_parse (data : string) : Result (E57File DNode) :=
  if String.eqb data "two scans" then Ok doc_two_scans
  else if String.eqb data "duplicate" then Ok doc_duplicate
  else if String.eqb data "png only" then Ok doc_png_only
  else if String.eqb data "fallback only" then Ok doc_fallback_only
  else if String.eqb data "no key" then Ok doc_no_key
  else if String.eqb data "broken" then Ok doc_broken
  else if String.eqb data "no panorama" then Ok doc_no_panorama
  else if String.eqb data "absolute name" then Ok doc_absolute_name
  else if String.eqb data "alpha" then Ok doc_alpha
  else if String.eqb data "nameless" then Ok doc_nameless
  else Raise (LibraryError "not an E57 file").

#[export] Instance libe57 : LibE57 := {|
  Node := DNode;
  node_getitem := d_getitem;
  node_bool := d_bool;
  node_iter := d_iter;
  node_value := d_value;
  node_byteCount := d_byteCount;
  node_read := d_read;
  E57_parse := d_parse;
|}.

(** An image file starts with J (JPEG), P (PNG) or A (PNG with an alpha
    channel) and two bytes for its width and height. *)
Record SImage := mkSImage {
  s_size : N * N;
  s_pixels : string;
  s_resampled : option Resampling;
  s_alpha : bool;
}.

Definition s_open (buf : string) : Result SImage :=
  match buf with
  | String tag (String wd (String ht _)) =>
      if Ascii.eqb tag "J" || Ascii.eqb tag "P"
      then Ok (mkSImage (N_of_ascii wd, N_of_ascii ht) buf None false)
      else if Ascii.eqb tag "A"
      then Ok (mkSImage (N_of_ascii wd, N_of_ascii ht) buf None true)
      else Raise UnidentifiedImageError
  | _ => Raise UnidentifiedImageError
  end.

Definition s_resize (img : SImage) (size : N * N) (f : Resampling) : Result SImage :=
  Ok (mkSImage size (s_pixels img) (Some f) (s_alpha img)).

(** The JPEG encoder refuses an image with an alpha channel before it
    writes anything. *)
Definition s_encode (img : SImage) (format : string) (quality : nat) : Encoding :=
  if s_alpha img then EncoderError (OSError "cannot write mode RGBA as JPEG") ""
  else Encoded
         (format +:+ " q" +:+ pretty quality +:+ " "
            +:+ pretty (s_size img).1 +:+ "x" +:+ pretty (s_size img).2
            +:+ " of " +:+ s_pixels img).

#[export, refine] Instance pillow : Pillow := {|
  Image := SImage;
  Image_open := s_open;
  Image_size := s_size;
  Image_resize := s_resize;
  Image_encode := s_encode;
  save_removes_created := true;
|}.
Proof. intros img size f img' [= <-]. reflexivity. Defined.

(** A world with the sample containers in the directory [scans], beside
    the directory [/tmp]. *)
Definition world0 : World :=
  mkWorld {[ ["scans"]; ["/"; "tmp"] ]}
    (list_to_map
       [ (["scans"; "site.e57"], "two scans");
         (["scans"; "dup.e57"], "duplicate");
         (["scans"; "png.e57"], "png only");
         (["scans"; "broken.e57"], "broken");
         (["scans"; "fallback.e57"], "fallback only");
         (["scans"; "nokey.e57"], "no key");
         (["scans"; "plain.e57"], "no panorama");
         (["scans"; "abs.e57"], "absolute name");
         (["scans"; "alpha.e57"], "alpha");
         (["scans"; "nameless.e57"], "nameless");
         (["scans"; "notes.txt"], "field notes") ])
    [] 0 0.

(** Worlds, payloads and batches of the concrete runs. *)

(** The sample run behind the concrete checks: scan A of the two-scan
    container, after the output directory and the ledger were prepared. *)
Definition sample_prepared : World :=
  (prepare_output ["scans/site.e57"] world0).2.
Definition sample_output_path : Path := ["scans"; "output"].
Definition sample_coords_path : Path := ["scans"; "output"; "coords.csv"].
Definition sample_payload_A : DNode :=
  StructureNode [("jpegImage", jpeg_100x50)].
Definition sample_index : gmap string DNode := {[ "guid-A" := sample_payload_A ]}.

Definition sample_payload_later : DNode :=
  StructureNode [("jpegImage", BlobNode "J22 later")].

Definition sample_payload_broken : DNode :=
  StructureNode [("jpegImage", not_an_image)].
Definition sample_index_broken : gmap string DNode :=
  {[ "guid-B" := sample_payload_A; "guid-A" := sample_payload_broken ]}.

Definition sample_row_A : string :=
  "A.jpeg,scans/output/A.jpeg,1.5,2.0,0.25,0.0,0.0,0.0,1.0" +:+ line_feed.
Definition sample_row_abs : string :=
  "/tmp/A.jpeg,/tmp/A.jpeg,1.5,2.0,0.25,0.0,0.0,0.0,1.0" +:+ line_feed.

Definition sample_batch_before : list string := ["scans/notes.txt"; "scans/site.e57"].
Definition sample_batch : list string :=
  sample_batch_before ++ "scans/missing.e57" :: ["scans/png.e57"].
Definition sample_batch_prepared : World := (prepare_output sample_batch world0).2.
Definition sample_batch_reached : World :=
  (process_files (e57lib:=libe57) sample_batch_before sample_output_path
     sample_coords_path 0 sample_batch_prepared).2.

Definition sample_payload_png : DNode := StructureNode [("pngImage", png_20x10)].

(** A panorama whose first key holds the empty string, beside a fallback
    key that names scan A. *)
Definition sample_empty_guid : DNode :=
  panorama [("jpegImage", jpeg_100x50)]
    [("associatedData3DGuid", StringNode ""); ("rlms:scanposGuid", StringNode "guid-A")].

(** A document whose second image node has no join key. *)
Definition sample_keyless : DNode := panorama [("jpegImage", jpeg_100x50)] [].
Definition doc_late_error : E57File DNode :=
  container
    [ panorama [("jpegImage", jpeg_100x50)] [("associatedData3DGuid", StringNode "guid-A")];
      sample_keyless;
      photo ]
    [header_A].

(** The payload the encoder refuses, and a prepared world in which the
    image of scan A is there from an earlier run. *)
Definition sample_payload_alpha : DNode :=
  StructureNode [("jpegImage", alpha_20x10)].
Definition sample_index_alpha : gmap string DNode :=
  {[ "guid-A" := sample_payload_alpha ]}.
Definition sample_rerun : World :=
  (write_file ["scans"; "output"; "A.jpeg"] "an earlier image" sample_prepared).2.

(** A world where [scans/output] is a regular file. *)
Definition world_output_taken : World :=
  (write_file ["scans"; "output"] "a file" world0).2.

(** The window as it opens. *)
Definition gui0 : Gui := mkGui "" "" true false [].

End Sample.

(** * Facts *)

(** ** Strings and paths *)

Module PyStrFacts.
Import PyStr.

Lemma append_cons (c : ascii) (a b : string) :
String c a +:+ b = String c (a +:+ b).
Proof. reflexivity. Qed.

Lemma append_nil_l (a : string) : "" +:+ a = a.
Proof. reflexivity. Qed.

Lemma append_assoc (a b c : string) : (a +:+ b) +:+ c = a +:+ (b +:+ c).
Proof.
induction a as [|x a IH]; [done|]. by rewrite !append_cons, IH.
Qed.

Lemma append_nil_r (a : string) : a +:+ "" = a.
Proof.
induction a as [|x a IH]; [done|]. by rewrite append_cons, IH.
Qed.

Lemma length_append (a b : string) :
String.length (a +:+ b) = String.length a + String.length b.
Proof.
induction a as [|x a IH]; [done|]. rewrite append_cons. simpl. by rewrite IH.
Qed.

Lemma endswith_spec (s suf : string) :
endswith s suf = true ↔ ∃ pre, s = pre +:+ suf.
Proof.
induction s as [|c s IH].
- destruct suf as [|d suf]; simpl.
  + split; [by exists "" | done].
  + split; [done | intros [pre Hpre]].
    destruct pre; [by rewrite append_nil_l in Hpre | by rewrite append_cons in Hpre].
- cbn [endswith]. destruct (String.eqb_spec (String c s) suf) as [<-|Hne].
  + split; [by exists "" | done].
  + rewrite IH. split.
    * intros [pre ->]. by exists (String c pre).
    * intros [[|c' pre] Hpre].
      -- by rewrite append_nil_l in Hpre.
      -- rewrite append_cons in Hpre. simplify_eq. by exists pre.
Qed.

Lemma endswith_append (pre suf : string) : endswith (pre +:+ suf) suf = true.
Proof. apply endswith_spec. by exists pre. Qed.

Lemma split_slash_nonempty (s : string) : split_slash s ≠ [].
Proof.
induction s as [|c s IH]; simpl; [done|].
destruct (Ascii.eqb c "/"); [done|]. by destruct (split_slash s).
Qed.

Lemma basename_cons (c : ascii) (s : string) :
basename (String c s) =
  if Ascii.eqb c "/" then basename s
  else match split_slash s with
       | [_] => String c (basename s)
       | _ => basename s
       end.
Proof.
unfold basename. simpl. pose proof (split_slash_nonempty s) as Hne.
destruct (Ascii.eqb c "/").
- by destruct (split_slash s).
- destruct (split_slash s) as [|x [|y xs]]; done.
Qed.

(** A non-empty suffix without a slash ends the last run as well. *)
Lemma basename_endswith (s suf : string) :
suf ≠ "" → split_slash suf = [suf] →
endswith s suf = true → endswith (basename s) suf = true.
Proof.
intros Hne Hsuf. induction s as [|c s IH].
- destruct suf; [done | simpl; done].
- cbn [endswith]. destruct (String.eqb_spec (String c s) suf) as [<-|Hns].
  + intros _. unfold basename. rewrite Hsuf. cbn [List.last].
    apply endswith_spec. by exists "".
  + intros Hs. specialize (IH Hs). rewrite basename_cons.
    destruct (Ascii.eqb c "/"); [done|].
    destruct (split_slash s) as [|x [|y xs]]; [done| |done].
    apply endswith_spec in IH as [pre Hpre]. apply endswith_spec.
    exists (String c pre). rewrite append_cons. by rewrite Hpre.
Qed.

Lemma final_append (pre suf : string) : suf ≠ "" → final (pre +:+ suf) = final suf.
Proof.
  intros Hsuf. induction pre as [|c pre IH]; [done|].
  rewrite append_cons. cbn [final]. rewrite IH.
  destruct (pre +:+ suf) eqn:Happ; [|done].
  destruct pre; [by rewrite append_nil_l in Happ | by rewrite append_cons in Happ].
Qed.

(** Two suffixes with different last characters never end the same string. *)
Lemma endswith_final (s suf : string) :
  suf ≠ "" → endswith s suf = true → final s = final suf.
Proof. intros Hsuf [pre ->]%endswith_spec. by apply final_append. Qed.

End PyStrFacts.

Module PyPathFacts.
Import PyPath.

Lemma last_In {A} (l : list A) (d : A) : l ≠ [] → List.In (List.last l d) l.
Proof.
intros Hl. destruct (exists_last Hl) as (k & a & ->).
rewrite last_last. apply in_app_iff. right. by left.
Qed.

Lemma last_filter {A} (f : A → bool) (l : list A) (d : A) :
l ≠ [] → f (List.last l d) = true →
List.last (List.filter f l) d = List.last l d.
Proof.
induction l as [|x l IH]; intros Hl Hf; [done|].
destruct l as [|y l].
- simpl in *. by rewrite Hf.
- change (List.last (x :: y :: l) d) with (List.last (y :: l) d) in *.
  specialize (IH ltac:(done) Hf).
  assert (List.filter f (y :: l) ≠ []) as Hk.
  { intros Hnil.
    assert (List.In (List.last (y :: l) d) (List.filter f (y :: l))) as Hin
      by (apply filter_In; split; [by apply last_In | done]).
    by rewrite Hnil in Hin. }
  change (List.filter f (x :: y :: l))
    with (if f x then x :: List.filter f (y :: l) else List.filter f (y :: l)).
  destruct (f x); [|done].
  rewrite <- IH. by destruct (List.filter f (y :: l)).
Qed.

Lemma last_app_ne {A} (l k : list A) (d : A) :
k ≠ [] → List.last (l ++ k) d = List.last k d.
Proof.
intros Hk. destruct (exists_last Hk) as (k' & a & ->).
by rewrite app_assoc, !last_last.
Qed.

(** The last part of [Path(s)] is what follows the last slash of [s],
  whenever [s] ends in a proper file-name suffix. *)
Lemma of_str_last (s suf : string) :
PyStr.split_slash suf = [suf] → is_part suf = true →
String.length suf ≥ 2 →
PyStr.endswith s suf = true →
∃ b, List.last (of_str s) "" = b ∧ PyStr.endswith b suf = true ∧
     List.filter is_part (PyStr.split_slash s) ≠ [].
Proof.
intros Hsplit Hpart Hlen Hs.
assert (suf ≠ "") as Hne by (by destruct suf).
pose proof (PyStrFacts.basename_endswith s suf Hne Hsplit Hs) as Hb.
assert (is_part (PyStr.basename s) = true) as Hbp.
{ apply PyStrFacts.endswith_spec in Hb as [pre Hpre]. rewrite Hpre.
  unfold is_part.
  assert (2 ≤ String.length (pre +:+ suf)) as Hl
    by (rewrite PyStrFacts.length_append; lia).
  destruct (pre +:+ suf) as [|c1 [|c2 r]]; simpl in Hl; [lia|lia|].
  apply andb_true_iff; split; apply negb_true_iff, String.eqb_neq; done. }
assert (List.filter is_part (PyStr.split_slash s) ≠ []) as Hf.
{ intros Hnil.
  assert (List.In (PyStr.basename s) (List.filter is_part (PyStr.split_slash s))) as Hin.
  { apply filter_In. split; [|done].
    apply last_In, PyStrFacts.split_slash_nonempty. }
  by rewrite Hnil in Hin. }
exists (PyStr.basename s). split; [|done].
unfold of_str. rewrite last_app_ne by done.
apply last_filter; [apply PyStrFacts.split_slash_nonempty | done].
Qed.

Lemma joinpath_last (p q : Path) :
q ≠ [] → List.last (joinpath p q) "" = List.last q "".
Proof.
intros Hq. unfold joinpath. destruct q as [|a q]; [done|].
destruct (is_anchor a); [done|]. by rewrite last_app_ne.
Qed.

(** The file a scan's image goes to has a name that ends in [.jpeg]. *)
Lemma of_str_jpeg_last (out : Path) (name : string) :
  PyStr.endswith (List.last (joinpath out (of_str (name +:+ ".jpeg"))) "") ".jpeg" = true.
Proof.
  destruct (of_str_last (name +:+ ".jpeg") ".jpeg") as (b & Hb & Hend & Hne);
    [done | done | simpl; lia | apply PyStrFacts.endswith_append |].
  rewrite joinpath_last; [by rewrite Hb|].
  unfold of_str. intros [_ ?]%app_eq_nil. done.
Qed.

(** A path given as a string that ends in [.e57] has a last part that does. *)
Lemma of_str_e57_last (file_path : string) :
  PyStr.endswith file_path ".e57" = true →
  PyStr.endswith (List.last (of_str file_path) "") ".e57" = true.
Proof.
  intros Hend.
  destruct (of_str_last file_path ".e57") as (b & Hb & Hbend & _);
    [done | done | simpl; lia | done |].
  by rewrite Hb.
Qed.

Lemma joinpath_name (out : Path) : joinpath out (of_str "coords.csv") = out ++ ["coords.csv"].
Proof. reflexivity. Qed.

Lemma joinpath_output (p : Path) : joinpath p (of_str "output") = p ++ ["output"].
Proof. reflexivity. Qed.

Lemma ancestors_length (p q : Path) : q ∈ ancestors p → length q ≤ length p.
Proof.
  unfold ancestors. intros (n & -> & _)%list_elem_of_fmap.
  rewrite length_take. lia.
Qed.

Lemma ancestors_prefix (p q : Path) : q ∈ ancestors p → ∃ n, q = take n p.
Proof. unfold ancestors. intros (n & -> & _)%list_elem_of_fmap. by exists n. Qed.

Lemma ancestors_self (p : Path) : p ≠ [] → p ∈ ancestors p.
Proof.
  intros Hp. unfold ancestors. apply list_elem_of_fmap.
  exists (length p). split; [by rewrite firstn_all|].
  apply elem_of_seq. destruct p; [done|]. simpl. lia.
Qed.

Lemma parent_snoc (p : Path) (x : string) :
  is_anchor x = false → parent (p ++ [x]) = p.
Proof.
  intros Hx. destruct p as [|a p]; simpl; [by rewrite Hx|].
  destruct (p ++ [x]) eqn:Hp; [by destruct p|].
  rewrite <- Hp. change (a :: p ++ [x]) with ((a :: p) ++ [x]).
  by rewrite removelast_last.
Qed.

(** A path whose last part is no anchor is its parent followed by that part. *)
Lemma parent_last (p : Path) :
  p ≠ [] → is_anchor (List.last p "") = false → p = parent p ++ [List.last p ""].
Proof.
  intros Hp Hlast. destruct (exists_last Hp) as (q & x & ->).
  rewrite last_last in *. by rewrite parent_snoc.
Qed.

End PyPathFacts.

(** [strip], [split] and membership of a character *)
Module PyTextFacts.
Import PyText.

Lemma char_in_cons (c d : ascii) (chars : string) :
  char_in c (String d chars) = Ascii.eqb c d || char_in c chars.
Proof. reflexivity. Qed.

Lemma lstrip_skip (chars : string) (c : ascii) (s : string) :
  char_in c chars = true → lstrip chars (String c s) = lstrip chars s.
Proof. intros Hc. cbn [lstrip]. by rewrite Hc. Qed.

Lemma lstrip_stop (chars : string) (c : ascii) (s : string) :
  char_in c chars = false → lstrip chars (String c s) = String c s.
Proof. intros Hc. cbn [lstrip]. by rewrite Hc. Qed.

Lemma rstrip_stop (chars s : string) :
  s ≠ "" → char_in (PyStr.final s) chars = false → rstrip chars s = s.
Proof.
  induction s as [|c s IH]; [done|]. intros _ Hfinal.
  destruct s as [|d s].
  - cbn [rstrip PyStr.final] in *. by rewrite Hfinal.
  - change (PyStr.final (String c (String d s))) with (PyStr.final (String d s)) in Hfinal.
    specialize (IH ltac:(done) Hfinal).
    change (rstrip chars (String c (String d s)))
      with (match rstrip chars (String d s) with
            | EmptyString => if char_in c chars then EmptyString else String c EmptyString
            | r => String c r
            end).
    by rewrite IH.
Qed.

Lemma rstrip_snoc_in (chars s : string) (c : ascii) :
  char_in c chars = true → rstrip chars (s +:+ String c "") = rstrip chars s.
Proof.
  intros Hc. induction s as [|d s IH].
  - rewrite PyStrFacts.append_nil_l. cbn [rstrip]. by rewrite Hc.
  - rewrite PyStrFacts.append_cons. cbn [rstrip]. by rewrite IH.
Qed.

Lemma final_snoc (s : string) (c : ascii) : PyStr.final (s +:+ String c "") = c.
Proof. by rewrite PyStrFacts.final_append. Qed.

Lemma snoc_nonempty (s : string) (c : ascii) : s +:+ String c "" ≠ "".
Proof. by destruct s. Qed.

(** A string without the separator is one piece; a separator after such a
    string ends the first piece. *)
Lemma split_one (sep : ascii) (s : string) :
  char_in sep s = false → split sep s = [s].
Proof.
  induction s as [|c s IH]; [done|]. rewrite char_in_cons.
  intros [Hc Hs]%orb_false_iff. cbn [split].
  rewrite Ascii.eqb_sym, Hc. by rewrite (IH Hs).
Qed.

Lemma split_app (sep : ascii) (a b : string) :
  char_in sep a = false →
  split sep (a +:+ String sep b) = a :: split sep b.
Proof.
  induction a as [|c a IH].
  - intros _. rewrite PyStrFacts.append_nil_l. cbn [split].
    by rewrite Ascii.eqb_refl.
  - rewrite char_in_cons. intros [Hc Ha]%orb_false_iff.
    rewrite PyStrFacts.append_cons. cbn [split].
    rewrite Ascii.eqb_sym, Hc. by rewrite (IH Ha).
Qed.

Lemma char_in_app (c : ascii) (a b : string) :
  char_in c (a +:+ b) = char_in c a || char_in c b.
Proof.
  induction a as [|d a IH]; [done|].
  rewrite PyStrFacts.append_cons, !char_in_cons, IH. by rewrite orb_assoc.
Qed.

End PyTextFacts.

(** ** Running the monad *)

Lemma bind_run {A B} (m : M A) (k : A → M B) (w : World) :
  (m ≫= k) w = match m w with
               | (Ok a, w') => k a w'
               | (Raise e, w') => (Raise e, w')
               end.
Proof. reflexivity. Qed.

Lemma bind_run_ok {A B} (m : M A) (k : A → M B) (w w' : World) (a : A) :
  m w = (Ok a, w') → (m ≫= k) w = k a w'.
Proof. intros Hm. by rewrite bind_run, Hm. Qed.

Lemma bind_run_raise {A B} (m : M A) (k : A → M B) (w w' : World) (e : PyExn) :
  m w = (Raise e, w') → (m ≫= k) w = (Raise e, w').
Proof. intros Hm. by rewrite bind_run, Hm. Qed.

Lemma bind_print {B} (msg : string) (k : M B) (w : World) :
  (print msg ≫= λ _, k) w = k (print msg w).2.
Proof. reflexivity. Qed.

Lemma lift_run {A} (r : Result A) (w : World) : lift r w = (r, w).
Proof. reflexivity. Qed.

Lemma ret_run {A} (a : A) (w : World) : (mret a : M A) w = (Ok a, w).
Proof. reflexivity. Qed.

Section Ledger.
Context {np : Numpy} {e57lib : LibE57} {pil : Pillow}.

Lemma coords_header_columns :
  coords_header = PyStr.join "," coords_columns +:+ newline.
Proof. reflexivity. Qed.

(** The header the script writes is the header row, and the row it
    appends for a header is that header's data row. *)
Lemma coords_header_text : coords_header = header_row.
Proof. reflexivity. Qed.

Lemma coords_row_text (out : Path) (h : ScanHeader) :
  coords_row (name h +:+ ".jpeg") (image_path_of out (name h))
    (translation h) (rotation h) = row_of out h.
Proof. reflexivity. Qed.

(** What [process_scan] does for a header that is joined to a payload,
    given what the codec did. *)
Lemma process_scan_joined e57_file idx out coords i h sr w :
  read_header e57_file i = Ok h →
  idx !! guid h = Some sr → node_bool sr = true →
  process_scan e57_file idx out coords i w =
    match process_image sr (name h) out w with
    | (Ok (fn, fp), w1) =>
        append_file coords (coords_row fn fp (translation h) (rotation h)) w1
    | (Raise e, w1) => (Raise e, w1)
    end.
Proof.
  intros Hh Hidx Hsr. unfold process_scan.
  rewrite (bind_run_ok _ _ w w h) by (by rewrite lift_run, Hh).
  unfold process_scan_header. rewrite Hidx, Hsr, bind_run.
  by destruct (process_image sr (name h) out w) as [[[fn fp]|e] w1].
Qed.


End Ledger.

(** ** The spherical index *)

Section Index.
Context {np : Numpy} {e57lib : LibE57}.

Lemma index_image2D_entry (d : gmap string Node) (image2D : Node) :
  index_image2D d image2D =
    match index_entry image2D with
    | Ok (Some (g, payload)) => Ok (<[g := payload]> d)
    | Ok None => Ok d
    | Raise e => Raise e
    end.
Proof.
  unfold index_image2D, index_entry.
  destruct (node_getitem image2D "sphericalRepresentation") as [sr|[]]; try done.
  destruct (node_bool sr); [|done].
  destruct (associated_guid_of image2D) as [[g|]|e]; simpl; try done.
  by destruct (PyStr.truthy g).
Qed.

Lemma extract_image_nodes (e57_file : E57File Node) :
  extract_spherical_representations e57_file =
    (children ← image_nodes e57_file; fold_result index_image2D ∅ children).
Proof.
  unfold extract_spherical_representations, image_nodes.
  destruct (node_getitem (image_root e57_file) "images2D") as [images2D|e]; simpl; [|done].
  destruct (node_bool images2D); [|done].
  by destruct (node_iter images2D).
Qed.

Lemma fold_result_app {A B} (f : B → A → Result B) (b : B) (l k : list A) :
  fold_result f b (l ++ k) = (b' ← fold_result f b l; fold_result f b' k).
Proof.
  revert b. induction l as [|x l IH]; intros b; simpl; [done|].
  destruct (f b x) as [b'|e]; simpl; [apply IH | done].
Qed.

(** Nodes that do not resolve to [g] leave the entry of [g] as it is. *)
Lemma fold_index_other (g : string) (l : list Node) (d idx : gmap string Node) :
  Forall (λ m, ¬ resolves_to g m) l →
  fold_result index_image2D d l = Ok idx → idx !! g = d !! g.
Proof.
  revert d. induction l as [|m l IH]; intros d Hl Hfold; simpl in Hfold.
  - by simplify_eq.
  - apply Forall_cons in Hl as [Hm Hl].
    rewrite index_image2D_entry in Hfold.
    destruct (index_entry m) as [[[g' payload]|]|e] eqn:Hentry; simpl in Hfold;
      [|by apply IH|done].
    rewrite (IH _ Hl Hfold). apply lookup_insert_ne.
    intros ->. apply Hm. by exists payload.
Qed.

(** C3: when several image nodes resolve to the same guid, the index holds
    the payload of the last of them in document order. *)
Theorem C3_last_write_wins (e57_file : E57File Node) (idx : gmap string Node)
    (before after : list Node) (image2D : Node) (g : string) (payload : Node) :
  image_nodes e57_file = Ok (before ++ image2D :: after) →
  index_entry image2D = Ok (Some (g, payload)) →
  Forall (λ m, ¬ resolves_to g m) after →
  extract_spherical_representations e57_file = Ok idx →
  idx !! g = Some payload.
Proof.
  intros Hnodes Hentry Hafter. rewrite extract_image_nodes, Hnodes. simpl.
  rewrite fold_result_app.
  destruct (fold_result index_image2D ∅ before) as [d|e]; simpl; [|done].
  rewrite index_image2D_entry, Hentry. simpl. intros Hfold.
  rewrite (fold_index_other g after _ idx Hafter Hfold).
  apply lookup_insert_eq.
Qed.

(** Every payload in the index tests true. *)
Lemma fold_index_truthy (l : list Node) (d idx : gmap string Node) :
  map_Forall (λ _ payload, node_bool payload = true) d →
  fold_result index_image2D d l = Ok idx →
  map_Forall (λ _ payload, node_bool payload = true) idx.
Proof.
  revert d. induction l as [|m l IH]; intros d Hd Hfold; simpl in Hfold.
  - by simplify_eq.
  - unfold index_image2D in Hfold.
    destruct (node_getitem m "sphericalRepresentation") as [sr|[]]; simpl in Hfold;
      try done; try (by eapply IH).
    destruct (node_bool sr) eqn:Hsr; [|by eapply IH].
    destruct (associated_guid_of m) as [[g|]|e]; simpl in Hfold;
      try done; try (by eapply IH).
    destruct (PyStr.truthy g); [|by eapply IH].
    eapply IH; [|done]. by apply map_Forall_insert_2.
Qed.

Lemma index_truthy (e57_file : E57File Node) (idx : gmap string Node) (g : string)
    (payload : Node) :
  extract_spherical_representations e57_file = Ok idx →
  idx !! g = Some payload → node_bool payload = true.
Proof.
  rewrite extract_image_nodes. destruct (image_nodes e57_file) as [l|e]; simpl; [|done].
  intros Hfold Hg. eapply (fold_index_truthy l ∅ idx); [|done..].
  apply map_Forall_empty.
Qed.

(** A lookup that raises anything but the [KeyError] of the guarded
    [sphericalRepresentation] lookup ends the index builder. *)
Lemma index_image2D_join_key_raises (d : gmap string Node) (image2D payload : Node)
    (e : PyExn) :
  node_getitem image2D "sphericalRepresentation" = Ok payload →
  node_bool payload = true →
  node_getitem image2D "associatedData3DGuid" = Raise e →
  index_image2D d image2D = Raise e.
Proof.
  intros Hsr Hbool Hkey. unfold index_image2D, associated_guid_of.
  rewrite Hsr, Hbool, Hkey. done.
Qed.

Lemma fold_result_raise {A B} (f : B → A → Result B) (b : B) (x : A) (l : list A)
    (e : PyExn) :
  f b x = Raise e → fold_result f b (x :: l) = Raise e.
Proof. intros Hf. simpl. by rewrite Hf. Qed.

(** What the [if ... elif ...] does when neither lookup raises. *)
Lemma associated_guid_of_first (image2D first : Node) :
  node_getitem image2D "associatedData3DGuid" = Ok first →
  node_bool first = true →
  associated_guid_of image2D = (v ← node_value first; Ok (Some v)).
Proof.
  intros Hfirst Hbool. unfold associated_guid_of.
  rewrite Hfirst. simpl. by rewrite Hbool.
Qed.

Lemma associated_guid_of_second (image2D first second : Node) :
  node_getitem image2D "associatedData3DGuid" = Ok first →
  node_bool first = false →
  node_getitem image2D "rlms:scanposGuid" = Ok second →
  associated_guid_of image2D =
    if node_bool second then v ← node_value second; Ok (Some v) else Ok None.
Proof.
  intros Hfirst Hbool Hsecond. unfold associated_guid_of.
  rewrite Hfirst. simpl. rewrite Hbool, Hsecond. done.
Qed.

End Index.

(** ** The image codec *)

Section Codec.
Context {np : Numpy} {e57lib : LibE57} {pil : Pillow}.

(** What a save leaves behind: the world as it was, or the world with
    some content at the path of the save; directories are not touched, and
    a file is never removed. *)
Lemma Image_save_world (img : Image) (fp : Path) (format : string) (quality : nat)
    (w : World) :
  (Image_save img fp format quality w).2 = w ∨
  ∃ data, (Image_save img fp format quality w).2 = set_files (insert fp data) w.
Proof.
  unfold Image_save. destruct (open_check w fp); [|by left].
  destruct (Image_encode img format quality) as [data|e written]; [by right; exists data|].
  destruct (is_file w fp || negb save_removes_created);
    [by right; exists written | by left].
Qed.

Lemma Image_save_ok (img : Image) (fp : Path) (format : string) (quality : nat)
    (w w' : World) :
  Image_save img fp format quality w = (Ok (), w') →
  open_check w fp = Ok () ∧
  ∃ data, Image_encode img format quality = Encoded data ∧
          w' = set_files (insert fp data) w.
Proof.
  unfold Image_save. destruct (open_check w fp) as [[]|]; [|done].
  destruct (Image_encode img format quality) as [data|e written]; [|done].
  intros [= <-]. split; [done|]. by exists data.
Qed.

(** The outcome of a save depends on the directories and on the image
    alone. *)
Lemma Image_save_outcome (img : Image) (fp : Path) (format : string) (quality : nat)
    (w : World) :
  is_ok (Image_save img fp format quality w).1 =
    is_ok (open_check w fp) &&
    match Image_encode img format quality with
    | Encoded _ => true
    | EncoderError _ _ => false
    end.
Proof.
  unfold Image_save. destruct (open_check w fp); [|done].
  by destruct (Image_encode img format quality).
Qed.

Lemma process_image_run (sr : Node) (name : string) (out : Path) (w : World) :
  process_image sr name out w =
    match resized_panorama sr with
    | Raise e => (Raise e, w)
    | Ok resized =>
        match Image_save resized (image_path_of out name) "JPEG" 50 w with
        | (Ok _, w') => (Ok (name +:+ ".jpeg", image_path_of out name), w')
        | (Raise e, w') => (Raise e, w')
        end
    end.
Proof.
  unfold process_image, resized_panorama, image_path_of.
  rewrite bind_run, lift_run.
  destruct (select_image_ref sr) as [ref|e]; simpl; [|done].
  rewrite bind_run, lift_run.
  destruct (load_image_data ref) as [buf|e]; simpl; [|done].
  rewrite bind_run, lift_run.
  destruct (Image_open buf) as [img|e]; simpl; [|done].
  rewrite bind_run, lift_run.
  destruct (Image_resize img (8192%N, 4096%N) LANCZOS) as [resized|e]; simpl; [|done].
  rewrite bind_run.
  by destruct (Image_save resized _ "JPEG" 50 w) as [[[]|] w'].
Qed.

(** The codec leaves the world as it was, or with some content at the
    image's path. *)
Lemma process_image_world (sr : Node) (name : string) (out : Path) (w : World) :
  (process_image sr name out w).2 = w ∨
  ∃ data, (process_image sr name out w).2
            = set_files (insert (image_path_of out name) data) w.
Proof.
  rewrite process_image_run. destruct (resized_panorama sr) as [resized|]; [|by left].
  pose proof (Image_save_world resized (image_path_of out name) "JPEG" 50 w) as Hsave.
  by destruct (Image_save resized _ "JPEG" 50 w) as [[[]|] w'].
Qed.

(** Every file but the image's is as the codec found it. *)
Lemma files_outside_image_path (sr : Node) (name : string) (out : Path)
    (w : World) (p : Path) :
  p ≠ image_path_of out name →
  files (process_image sr name out w).2 !! p = files w !! p.
Proof.
  intros Hp. destruct (process_image_world sr name out w) as [->|[data ->]]; [done|].
  simpl. by rewrite lookup_insert_ne.
Qed.

Lemma np_fill_length (n : nat) (data : string) : String.length (np_fill n data) = n.
Proof.
  revert data. induction n as [|n IH]; intros data; [done|].
  destruct data; simpl; by rewrite IH.
Qed.

(** The buffer that is decoded has the byte count the payload declares. *)
Lemma load_image_data_length (image_ref : Node) (buf : string) (n : nat) :
  node_byteCount image_ref = Ok n →
  load_image_data image_ref = Ok buf → String.length buf = n.
Proof.
  unfold load_image_data. intros ->. simpl.
  destruct (node_read image_ref 0 n); simpl; [|done].
  intros [= <-]. apply np_fill_length.
Qed.

(** The JPEG payload is taken when its lookup gives a node that tests true;
    the PNG lookup is made only after a JPEG node that tests false. *)
Lemma select_image_ref_jpeg (sr jpeg : Node) :
  node_getitem sr "jpegImage" = Ok jpeg → node_bool jpeg = true →
  select_image_ref sr = Ok jpeg.
Proof. intros Hj Hb. unfold select_image_ref. rewrite Hj. simpl. by rewrite Hb. Qed.

Lemma select_image_ref_raise (sr : Node) (e : PyExn) :
  node_getitem sr "jpegImage" = Raise e → select_image_ref sr = Raise e.
Proof. intros Hj. unfold select_image_ref. by rewrite Hj. Qed.

(** What a successful [process_image] has written, and where. *)
Lemma process_image_output (sr : Node) (name : string) (out : Path) (w w' : World)
    (image_file_name : string) (image_full_path : Path) :
  process_image sr name out w = (Ok (image_file_name, image_full_path), w') →
  image_file_name = name +:+ ".jpeg" ∧
  image_full_path = PyPath.joinpath out (PyPath.of_str (name +:+ ".jpeg")) ∧
  ∃ image_ref image_data img resized data,
    select_image_ref sr = Ok image_ref ∧
    load_image_data image_ref = Ok image_data ∧
    Image_open image_data = Ok img ∧
    Image_resize img (8192%N, 4096%N) LANCZOS = Ok resized ∧
    Image_size resized = (8192%N, 4096%N) ∧
    Image_encode resized "JPEG" 50 = Encoded data ∧
    files w' !! image_full_path = Some data.
Proof.
  rewrite process_image_run. unfold resized_panorama, image_path_of.
  destruct (select_image_ref sr) as [ref|e] eqn:Hsel; simpl; [|done].
  destruct (load_image_data ref) as [buf|e] eqn:Hload; simpl; [|done].
  destruct (Image_open buf) as [img|e] eqn:Hopen; simpl; [|done].
  destruct (Image_resize img (8192%N, 4096%N) LANCZOS) as [resized|e] eqn:Hr;
    simpl; [|done].
  destruct (Image_save resized _ "JPEG" 50 w) as [[[]|] w1] eqn:Hsave; [|done].
  apply Image_save_ok in Hsave as (_ & data & Henc & ->).
  intros [= <- <- <-]. split; [done|]. split; [done|].
  exists ref, buf, img, resized, data.
  split; [done|]. split; [done|]. split; [done|]. split; [done|].
  split; [by eapply Image_resize_size|]. split; [done|].
  simpl. apply lookup_insert_eq.
Qed.

(** X2: the buffer handed to the decoder has exactly the byte count the
    selected payload declares, whatever the read delivered. *)
Theorem decoded_buffer_has_declared_length (image_ref : Node) (buf : string) (n : nat) :
  node_byteCount image_ref = Ok n →
  load_image_data image_ref = Ok buf →
  String.length buf = n.
Proof. apply load_image_data_length. Qed.

End Codec.

(** ** What a run reads and what it leaves in place *)

Section Frames.
Context {np : Numpy} {e57lib : LibE57} {pil : Pillow}.

Lemma same_inputs_refl (w : World) : same_inputs w w.
Proof. by split. Qed.

Lemma same_inputs_sym (w v : World) : same_inputs w v → same_inputs v w.
Proof. intros [Hd Hf]. split; [done|]. intros p Hp. by rewrite Hf. Qed.

Lemma same_inputs_trans (w v u : World) :
  same_inputs w v → same_inputs v u → same_inputs w u.
Proof.
  intros [Hd Hf] [Hd' Hf']. split; [congruence|].
  intros p Hp. by rewrite Hf, Hf'.
Qed.

Lemma same_inputs_is_dir (w v : World) (p : Path) :
  same_inputs w v → is_dir w p = is_dir v p.
Proof. intros [Hd _]. unfold is_dir. by rewrite Hd. Qed.

Lemma same_inputs_exists (w v : World) (p : Path) :
  same_inputs w v → is_input_path p → path_exists w p = path_exists v p.
Proof.
  intros Hwv Hp. unfold path_exists, is_file.
  rewrite (same_inputs_is_dir w v p Hwv). destruct Hwv as [_ Hf]. by rewrite Hf.
Qed.

Lemma same_inputs_open_check (w v : World) (p : Path) :
  same_inputs w v → is_ok (open_check w p) = is_ok (open_check v p).
Proof.
  intros Hwv. unfold open_check.
  rewrite (same_inputs_is_dir w v p Hwv), (same_inputs_is_dir w v (PyPath.parent p) Hwv).
  destruct (is_dir v p); [done|]. destruct (is_dir v (PyPath.parent p)); [done|].
  by destruct (is_file w _), (is_file v _).
Qed.

Lemma concat_rows_app (r1 r2 : list string) :
  concat_rows (r1 ++ r2) = concat_rows r1 +:+ concat_rows r2.
Proof.
  induction r1 as [|x r1 IH]; [done|].
  simpl. by rewrite IH, PyStrFacts.append_assoc.
Qed.

Lemma ledger_plus_app (content : option string) (r1 r2 : list string) :
  ledger_plus (ledger_plus content r1) r2 = ledger_plus content (r1 ++ r2).
Proof.
  destruct r1 as [|x r1]; [done|]. destruct r2 as [|y r2].
  - by rewrite app_nil_r.
  - cbn [ledger_plus app default]. unfold id. f_equal.
    rewrite PyStrFacts.append_assoc. f_equal.
    by rewrite <- concat_rows_app.
Qed.

Lemma ledger_plus_one (content : option string) (row : string) :
  ledger_plus content [row] = Some (default "" content +:+ row).
Proof. simpl. by rewrite PyStrFacts.append_nil_r. Qed.

Section Steps.
Variable coords : Path.

(** A step that touches neither the directories nor the files frames the
    ledger trivially. *)
Lemma frames_pure {A} (m : M A) :
  (∀ w, dirs (m w).2 = dirs w ∧ files (m w).2 = files w) →
  (∀ w v, same_inputs w v → same_outcome (m w).1 (m v).1) →
  frames coords m.
Proof.
  intros Hkeep Hout w v Hwv. exists [].
  destruct (Hkeep w) as [Hdw Hfw], (Hkeep v) as [Hdv Hfv].
  split; [done|]. split; [by apply Hout|].
  split; [split; [done | by intros; rewrite Hfw]|].
  split; [split; [done | by intros; rewrite Hfv]|].
  simpl. by rewrite Hfw, Hfv.
Qed.

Lemma frames_ret {A} (a : A) : frames coords (mret a).
Proof. by apply frames_pure. Qed.

Lemma frames_raise {A} (e : PyExn) : frames coords (raise e : M A).
Proof. by apply frames_pure. Qed.

Lemma frames_lift {A} (r : Result A) : frames coords (lift r).
Proof. apply frames_pure; [done|]. intros w v _. simpl. by destruct r. Qed.

Lemma frames_print (msg : string) : frames coords (print msg).
Proof. by apply frames_pure. Qed.

Lemma frames_set_progress_value (n : nat) : frames coords (set_progress_value n).
Proof. by apply frames_pure. Qed.

Lemma frames_bind {A B} (m : M A) (k : A → M B) :
  frames coords m → (∀ a, frames coords (k a)) → frames coords (m ≫= k).
Proof.
  intros Hm Hk w v Hwv.
  destruct (Hm w v Hwv) as (rows1 & Hrows1 & Hout & Hw & Hv & Hlw & Hlv).
  rewrite !bind_run.
  destruct (m w) as [[a|e] w1], (m v) as [[a'|e'] v1]; simpl in *; try done.
  - subst a'.
    assert (same_inputs w1 v1) as Hwv1.
    { apply (same_inputs_trans w1 w v1); [by apply same_inputs_sym|].
      by apply (same_inputs_trans w v v1). }
    destruct (Hk a w1 v1 Hwv1) as (rows2 & Hrows2 & Hout2 & Hw2 & Hv2 & Hlw2 & Hlv2).
    exists (rows1 ++ rows2).
    split; [by apply Forall_app|]. split; [done|].
    split; [by apply (same_inputs_trans w w1)|].
    split; [by apply (same_inputs_trans v v1)|].
    rewrite Hlw2, Hlv2, Hlw, Hlv. by rewrite !ledger_plus_app.
  - by exists rows1.
Qed.

Lemma frames_for_each {A} (body : A → M unit) (l : list A) :
  (∀ x, frames coords (body x)) → frames coords (for_each body l).
Proof.
  intros Hbody. induction l as [|x l IH]; simpl.
  - apply frames_ret.
  - apply frames_bind; [apply Hbody | by intros _].
Qed.

(** Writing a file that is neither an input nor the ledger. *)
Lemma frames_write_file (p : Path) (data : string) :
  ¬ is_input_path p → p ≠ coords → frames coords (write_file p data).
Proof.
  intros Hp Hne w v Hwv. exists []. split; [done|].
  pose proof (same_inputs_open_check w v p Hwv) as Hcheck.
  unfold write_file.
  destruct (open_check w p), (open_check v p); simpl in *; try done.
  split; [done|].
  split; [split; [done|]; intros q Hq; simpl;
          rewrite lookup_insert_ne; [done | by intros ->]|].
  split; [split; [done|]; intros q Hq; simpl;
          rewrite lookup_insert_ne; [done | by intros ->]|].
  by rewrite !lookup_insert_ne.
Qed.

(** Saving an image at a path that is neither an input nor the ledger. *)
Lemma frames_Image_save (img : Image) (p : Path) (format : string) (quality : nat) :
  ¬ is_input_path p → p ≠ coords → frames coords (Image_save img p format quality).
Proof.
  intros Hp Hne w v Hwv. exists []. split; [done|].
  pose proof (same_inputs_open_check w v p Hwv) as Hcheck.
  assert (∀ x, same_inputs x (Image_save img p format quality x).2 ∧
               files (Image_save img p format quality x).2 !! coords
                 = files x !! coords) as Hkeep.
  { intros x. destruct (Image_save_world img p format quality x) as [->|[data ->]];
      [done|].
    split; [|simpl; by rewrite lookup_insert_ne].
    split; [done|]. intros q Hq. simpl.
    rewrite lookup_insert_ne; [done | by intros ->]. }
  split.
  - unfold Image_save.
    destruct (open_check w p), (open_check v p); simpl in *; try done.
    by destruct (Image_encode img format quality).
  - destruct (Hkeep w) as [Hw Hlw], (Hkeep v) as [Hv Hlv].
    split; [exact Hw|]. split; [exact Hv|]. split; [exact Hlw | exact Hlv].
Qed.

(** Appending a data row to the ledger. *)
Lemma frames_append_file (row : string) :
  ¬ is_input_path coords → is_data_row row → frames coords (append_file coords row).
Proof.
  intros Hp Hrow w v Hwv.
  pose proof (same_inputs_open_check w v coords Hwv) as Hcheck.
  unfold append_file.
  destruct (open_check w coords), (open_check v coords); simpl in *; try done.
  - exists [row]. split; [by apply Forall_singleton|]. split; [done|].
    split; [split; [done|]; intros q Hq; simpl;
            rewrite lookup_insert_ne; [done | by intros ->]|].
    split; [split; [done|]; intros q Hq; simpl;
            rewrite lookup_insert_ne; [done | by intros ->]|].
    by rewrite !lookup_insert_eq, !ledger_plus_one.
  - by exists [].
Qed.

End Steps.

End Frames.

(** ** The scan processor and the file loop keep the frame *)

Section FramedRun.
Context {np : Numpy} {e57lib : LibE57} {pil : Pillow}.
Variable coords : Path.
Hypothesis coords_name : List.last coords "" = "coords.csv".

Lemma coords_not_input : ¬ is_input_path coords.
Proof. unfold is_input_path. by rewrite coords_name. Qed.

Lemma image_path_not_input (out : Path) (name : string) :
  ¬ is_input_path (image_path_of out name).
Proof.
  unfold is_input_path, image_path_of. intros He57.
  pose proof (PyPathFacts.of_str_jpeg_last out name) as Hjpeg.
  apply PyStrFacts.endswith_final in He57; [|done].
  apply PyStrFacts.endswith_final in Hjpeg; [|done].
  by rewrite Hjpeg in He57.
Qed.

Lemma image_path_not_coords (out : Path) (name : string) :
  image_path_of out name ≠ coords.
Proof.
  unfold image_path_of. intros Heq.
  pose proof (PyPathFacts.of_str_jpeg_last out name) as Hjpeg.
  rewrite Heq, coords_name in Hjpeg. done.
Qed.

Lemma same_outcome_refl {A} (r : Result A) : same_outcome r r.
Proof. by destruct r. Qed.

Lemma frames_process_image (sr : Node) (name : string) (out : Path) :
  frames coords (process_image sr name out).
Proof.
  unfold process_image.
  apply frames_bind; [apply frames_lift | intros image_ref].
  apply frames_bind; [apply frames_lift | intros image_data].
  apply frames_bind; [apply frames_lift | intros img].
  apply frames_bind; [apply frames_lift | intros img_resized].
  apply frames_bind; [|intros _; apply frames_ret].
  apply frames_Image_save;
    [apply image_path_not_input | apply image_path_not_coords].
Qed.

Lemma process_image_names (sr : Node) (name : string) (out : Path) (w w' : World)
    (fn : string) (fp : Path) :
  process_image sr name out w = (Ok (fn, fp), w') →
  fn = name +:+ ".jpeg" ∧ fp = image_path_of out name.
Proof.
  rewrite process_image_run. destruct (resized_panorama sr) as [resized|]; [|done].
  destruct (Image_save resized _ "JPEG" 50 w) as [[[]|] w1]; [|done].
  by intros [= <- <- _].
Qed.

Lemma frames_process_scan_header (idx : gmap string Node) (out : Path)
    (h : ScanHeader) :
  frames coords (process_scan_header idx out coords h).
Proof.
  unfold process_scan_header.
  destruct (idx !! guid h) as [sr|]; [|apply frames_ret].
  destruct (node_bool sr); [|apply frames_ret].
  intros w v Hwv.
  destruct (frames_process_image sr (name h) out w v Hwv)
    as (rows1 & Hrows1 & Hout & Hw & Hv & Hlw & Hlv).
  rewrite !bind_run.
  destruct (process_image sr (name h) out w) as [[[fn fp]|e] w1] eqn:Hiw,
           (process_image sr (name h) out v) as [[[fn' fp']|e'] v1] eqn:Hiv;
    simpl in *; try done; [|by exists rows1].
  simplify_eq.
  destruct (process_image_names _ _ _ _ _ _ _ Hiw) as [-> ->].
  assert (same_inputs w1 v1) as Hwv1.
  { apply (same_inputs_trans w1 w v1); [by apply same_inputs_sym|].
    by apply (same_inputs_trans w v v1). }
  destruct (frames_append_file coords (row_of out h) coords_not_input
              ltac:(by exists out, h) w1 v1 Hwv1)
    as (rows2 & Hrows2 & Hout2 & Hw2 & Hv2 & Hlw2 & Hlv2).
  exists (rows1 ++ rows2).
  split; [by apply Forall_app|]. split; [done|].
  split; [by apply (same_inputs_trans w w1)|].
  split; [by apply (same_inputs_trans v v1)|].
  rewrite coords_row_text, Hlw2, Hlv2, Hlw, Hlv. by rewrite !ledger_plus_app.
Qed.

Lemma frames_process_scan (e57_file : E57File Node) (idx : gmap string Node)
    (out : Path) (i : nat) :
  frames coords (process_scan e57_file idx out coords i).
Proof.
  unfold process_scan. apply frames_bind; [apply frames_lift|].
  intros h. apply frames_process_scan_header.
Qed.

Lemma frames_process_e57_file (file_path : string) (out : Path) (cp : nat) :
  PyStr.endswith file_path ".e57" = true →
  frames coords (process_e57_file file_path out coords cp).
Proof.
  intros Hend. pose proof (PyPathFacts.of_str_e57_last file_path Hend) as Hin.
  unfold process_e57_file. apply frames_bind.
  { apply frames_pure; [done|]. intros w v Hwv. simpl.
    by apply same_inputs_exists. }
  intros [|]; simpl.
  - apply frames_bind.
    { apply frames_pure.
      - intros w. unfold E57. by destruct (files w !! _).
      - intros w v [_ Hf]. unfold E57. rewrite (Hf _ Hin).
        destruct (files v !! _); simpl; [apply same_outcome_refl | done]. }
    intros e57_file. apply frames_bind; [apply frames_lift | intros idx].
    apply frames_bind.
    { apply frames_for_each. intros i. apply frames_process_scan. }
    intros _. apply frames_bind; [apply frames_set_progress_value|].
    intros _. apply frames_ret.
  - apply frames_bind; [apply frames_print | intros _; apply frames_raise].
Qed.

Lemma frames_process_files (file_paths : list string) (out : Path) (cp : nat) :
  frames coords (process_files file_paths out coords cp).
Proof.
  revert cp. induction file_paths as [|file_path rest IH]; intros cp; simpl.
  - apply frames_ret.
  - destruct (PyStr.endswith file_path ".e57") eqn:Hend; simpl.
    + apply frames_bind; [by apply frames_process_e57_file | intros cp'; apply IH].
    + apply frames_bind; [apply frames_print | intros _; apply IH].
Qed.

End FramedRun.

(** ** The scan processor *)

Section ScanProcessor.
Context {np : Numpy} {e57lib : LibE57} {pil : Pillow}.

Lemma coords_file_path_last (out : Path) :
  List.last (coords_file_path_of out) "" = "coords.csv".
Proof.
  unfold coords_file_path_of. rewrite PyPathFacts.joinpath_name.
  apply last_last.
Qed.

Lemma is_dir_dirs (w v : World) (p : Path) :
  dirs w = dirs v → is_dir w p = is_dir v p.
Proof. intros Hd. unfold is_dir. by rewrite Hd. Qed.

Lemma open_check_dirs (w v : World) (p : Path) :
  dirs w = dirs v → is_ok (open_check w p) = is_ok (open_check v p).
Proof.
  intros Hd. unfold open_check, is_dir. rewrite Hd.
  destruct (is_root p || bool_decide (p ∈ dirs v)); [done|].
  destruct (is_root (PyPath.parent p) || bool_decide (PyPath.parent p ∈ dirs v)); [done|].
  by destruct (is_file w _), (is_file v _).
Qed.

(** Reading the headers by their indices and then running the body is the
    loop over the headers read. *)
Lemma for_each_scan_indices (e57_file : E57File Node) (idx : gmap string Node)
    (out coords : Path) (headers : list ScanHeader) (start : nat) (w : World) :
  (∀ k h, headers !! k = Some h → read_header e57_file (start + k) = Ok h) →
  for_each (process_scan e57_file idx out coords) (seq start (length headers)) w =
    for_each (process_scan_header idx out coords) headers w.
Proof.
  revert start w. induction headers as [|h headers IH]; intros start w Hread; [done|].
  cbn [length seq for_each]. rewrite !bind_run.
  assert (process_scan e57_file idx out coords start w =
          process_scan_header idx out coords h w) as ->.
  { unfold process_scan. rewrite bind_run, lift_run.
    specialize (Hread 0 h eq_refl). rewrite Nat.add_0_r in Hread. by rewrite Hread. }
  destruct (process_scan_header idx out coords h w) as [[[]|e] w1]; [|done].
  apply IH. intros k h' Hk. specialize (Hread (S k) h' Hk).
  by rewrite Nat.add_succ_r in Hread.
Qed.

(** A header without an entry in the index is passed over: no image, no
    row, no message. *)
Lemma process_scan_header_skipped (idx : gmap string Node) (out coords : Path)
    (h : ScanHeader) (w : World) :
  idx !! guid h = None → process_scan_header idx out coords h w = (Ok (), w).
Proof. intros Hidx. unfold process_scan_header. by rewrite Hidx. Qed.

(** A joined header whose image can be produced adds its image and its row. *)
Lemma process_scan_header_joined (idx : gmap string Node) (out coords : Path)
    (h : ScanHeader) (sr : Node) (w : World) :
  List.last coords "" = "coords.csv" →
  idx !! guid h = Some sr → node_bool sr = true →
  is_ok (image_bytes sr) = true →
  is_ok (open_check w (image_path_of out (name h))) = true →
  is_ok (open_check w coords) = true →
  ∃ w', process_scan_header idx out coords h w = (Ok (), w') ∧
        dirs w' = dirs w ∧
        files w' !! coords = ledger_plus (files w !! coords) [row_of out h].
Proof.
  intros Hcoords Hidx Hbool Hres Himg Hledger. unfold process_scan_header.
  rewrite Hidx, Hbool, bind_run, process_image_run.
  unfold image_bytes in Hres.
  destruct (resized_panorama sr) as [resized|]; [|done]. simpl in Hres.
  unfold Image_save.
  destruct (open_check w (image_path_of out (name h))); [|done].
  destruct (Image_encode resized "JPEG" 50) as [data|]; [|done].
  set (w1 := set_files _ w). rewrite coords_row_text. unfold append_file.
  assert (is_ok (open_check w1 coords) = true) as Hledger1
    by (by rewrite (open_check_dirs w1 w)).
  destruct (open_check w1 coords); [|done].
  eexists. split; [done|]. split; [done|].
  simpl. rewrite lookup_insert_eq, PyStrFacts.append_nil_r.
  rewrite lookup_insert_ne; [done|].
  by apply image_path_not_coords.
Qed.

(** The parts of a path written without a leading slash hold no anchor. *)
Lemma split_slash_no_anchor (s x : string) :
  x ∈ PyStr.split_slash s → PyPath.is_anchor x = false.
Proof.
  revert x. induction s as [|c s IH]; intros x.
  - cbn [PyStr.split_slash]. by intros ->%list_elem_of_singleton.
  - cbn [PyStr.split_slash]. destruct (Ascii.eqb_spec c "/") as [->|Hc].
    + intros [->|Hx]%elem_of_cons; [done | by apply IH].
    + destruct (PyStr.split_slash s) as [|y ys] eqn:Hsplit.
      * by destruct (PyStrFacts.split_slash_nonempty s).
      * intros [->|Hx]%elem_of_cons; [|apply IH; by right].
        unfold PyPath.is_anchor. apply orb_false_iff.
        split; apply String.eqb_neq; intros [= ? _]; done.
Qed.

Lemma joinpath_relative (out : Path) (s : string) :
  PyPath.anchor_of s = [] → PyPath.joinpath out (PyPath.of_str s) = out ++ PyPath.of_str s.
Proof.
  intros Hanchor. unfold PyPath.of_str. rewrite Hanchor. cbn [app].
  destruct (List.filter PyPath.is_part (PyStr.split_slash s)) as [|a q] eqn:Hq.
  - by rewrite app_nil_r.
  - unfold PyPath.joinpath.
    assert (a ∈ PyStr.split_slash s) as Ha.
    { apply list_elem_of_In. eapply (proj1 (List.filter_In _ _ _)).
      rewrite Hq. by left. }
    by rewrite (split_slash_no_anchor s a Ha).
Qed.

(** X3: for every joined scan that is processed, the file at pathlib's
    [output_path / (header.name + ".jpeg")] holds the selected payload,
    decoded, resized to 8192 x 4096 with the Lanczos filter and encoded as
    JPEG at quality 50, whatever the size of the decoded payload; for a
    name that does not begin with a slash that path is the output
    directory followed by the parts of the file name. *)
Theorem joined_scan_image (idx : gmap string Node) (out : Path) (h : ScanHeader)
    (sr : Node) (w w' : World) :
  idx !! guid h = Some sr → node_bool sr = true →
  process_scan_header idx out (coords_file_path_of out) h w = (Ok (), w') →
  ∃ image_ref image_data img resized data,
    select_image_ref sr = Ok image_ref ∧
    load_image_data image_ref = Ok image_data ∧
    Image_open image_data = Ok img ∧
    Image_resize img (8192%N, 4096%N) LANCZOS = Ok resized ∧
    Image_size resized = (8192%N, 4096%N) ∧
    Image_encode resized "JPEG" 50 = Encoded data ∧
    files w' !! PyPath.joinpath out (PyPath.of_str (name h +:+ ".jpeg")) = Some data ∧
    (PyPath.anchor_of (name h +:+ ".jpeg") = [] →
     PyPath.joinpath out (PyPath.of_str (name h +:+ ".jpeg"))
       = out ++ PyPath.of_str (name h +:+ ".jpeg")).
Proof.
  intros Hidx Hbool. unfold process_scan_header. rewrite Hidx, Hbool, bind_run.
  destruct (process_image sr (name h) out w) as [[[fn fp]|e] w1] eqn:Himg; [|done].
  destruct (process_image_output _ _ _ _ _ _ _ Himg)
    as (-> & -> & ref & buf & img & resized & data
        & Hsel & Hload & Hopen & Hres & Hsize & Henc & Hfile).
  unfold append_file. destruct (open_check w1 _); [|done].
  intros [= <-]. exists ref, buf, img, resized, data.
  split; [done|]. split; [done|]. split; [done|]. split; [done|]. split; [done|].
  split; [done|]. split; [|apply joinpath_relative].
  simpl. rewrite lookup_insert_ne; [done|].
  intros Heq. symmetry in Heq. revert Heq.
  apply (image_path_not_coords _ (coords_file_path_last out)).
Qed.

(** C7: when the codec fails for a joined scan -- the payload cannot be
    selected, read, decoded or resized, the image file cannot be opened, or
    the encoder raises after the file was opened -- the scan ends with
    that error and no row is appended: the ledger holds what it held
    before the scan, and no later scan of the loop runs. *)
Theorem C7_no_row_on_codec_failure (e57_file : E57File Node)
    (idx : gmap string Node) (out : Path) (i : nat) (rest : list nat)
    (h : ScanHeader) (sr : Node) (w w1 : World) (e : PyExn) :
  let coords := coords_file_path_of out in
  read_header e57_file i = Ok h →
  idx !! guid h = Some sr → node_bool sr = true →
  process_image sr (name h) out w = (Raise e, w1) →
  process_scan e57_file idx out coords i w = (Raise e, w1) ∧
  files w1 !! coords = files w !! coords ∧
  for_each (process_scan e57_file idx out coords) (i :: rest) w = (Raise e, w1).
Proof.
  intros coords Hh Hidx Hsr Himg.
  assert (process_scan e57_file idx out coords i w = (Raise e, w1)) as Hscan.
  { rewrite (process_scan_joined _ _ _ _ _ h sr) by done. by rewrite Himg. }
  split; [done|]. split.
  - pose proof (files_outside_image_path sr (name h) out w coords) as Hfiles.
    rewrite Himg in Hfiles. apply Hfiles. intros Heq. symmetry in Heq. revert Heq.
    apply (image_path_not_coords _ (coords_file_path_last out)).
  - simpl. by rewrite bind_run, Hscan.
Qed.

Lemma headers_loop_rows (idx : gmap string Node) (out coords : Path)
    (headers : list ScanHeader) (w : World) :
  List.last coords "" = "coords.csv" →
  (∀ h sr, h ∈ headers → idx !! guid h = Some sr →
     node_bool sr = true ∧ is_ok (image_bytes sr) = true ∧
     is_ok (open_check w (image_path_of out (name h))) = true) →
  is_ok (open_check w coords) = true →
  ∃ w', for_each (process_scan_header idx out coords) headers w = (Ok (), w') ∧
        dirs w' = dirs w ∧
        files w' !! coords =
          ledger_plus (files w !! coords) (row_of out <$> joined_headers idx headers).
Proof.
  intros Hcoords. revert w.
  induction headers as [|h headers IH]; intros w Hcodec Hledger.
  - by exists w.
  - cbn [for_each]. rewrite bind_run. unfold joined_headers.
    destruct (idx !! guid h) as [sr|] eqn:Hidx.
    + destruct (Hcodec h sr ltac:(by left) Hidx) as (Hbool & Hres & Himg).
      destruct (process_scan_header_joined idx out coords h sr w)
        as (w1 & -> & Hd1 & Hl1); try done.
      destruct (IH w1) as (w2 & -> & Hd2 & Hl2).
      { intros h' sr' Hin Hidx'.
        destruct (Hcodec h' sr' ltac:(by right) Hidx') as (? & ? & ?).
        by rewrite (open_check_dirs w1 w). }
      { by rewrite (open_check_dirs w1 w). }
      exists w2. split; [done|]. split; [congruence|].
      rewrite filter_cons_True by (by rewrite Hidx).
      rewrite Hl2, Hl1. fold (joined_headers idx headers).
      by rewrite ledger_plus_app.
    + rewrite process_scan_header_skipped by done.
      destruct (IH w) as (w2 & -> & Hd2 & Hl2).
      { intros h' sr' Hin. apply Hcodec. by right. }
      { done. }
      exists w2. split; [done|]. split; [done|].
      rewrite filter_cons_False; [done|].
      rewrite Hidx. by intros [? ?].
Qed.

Lemma line_count_append (a b : string) :
  line_count (a +:+ b) = line_count a + line_count b.
Proof.
  induction a as [|c a IH]; [done|].
  rewrite PyStrFacts.append_cons. cbn [line_count]. rewrite IH. lia.
Qed.

Lemma line_count_join (cells : list string) :
  Forall (λ c, line_count c = 0) cells → line_count (PyStr.join "," cells) = 0.
Proof.
  induction 1 as [|c cells Hc Hcells IH]; [done|].
  destruct cells as [|d cells]; [done|].
  change (PyStr.join "," (c :: d :: cells))
    with (c +:+ "," +:+ PyStr.join "," (d :: cells)).
  rewrite !line_count_append, Hc, IH. done.
Qed.

(** A record whose cells hold no line feed is one line. *)
Lemma line_count_record (cells : list string) :
  Forall (λ c, line_count c = 0) cells → line_count (record_text cells) = 1.
Proof.
  intros Hcells. unfold record_text. by rewrite line_count_append, line_count_join.
Qed.

Lemma line_count_rows (rows : list string) :
  Forall (λ row, line_count row = 1) rows →
  line_count (concat_rows rows) = length rows.
Proof.
  induction 1 as [|row rows Hrow Hrows IH]; [done|].
  cbn [concat_rows foldr length]. fold (concat_rows rows).
  change (String.append row (concat_rows rows)) with (row +:+ concat_rows rows).
  rewrite line_count_append, Hrow, IH. done.
Qed.

(** C2: a document's scans are visited by index, from 0 to the scan count
    minus one.  A header whose guid has no entry in the index is passed
    over with nothing produced; every other header gets its row -- its
    nine cells, separated by commas and ended by a line feed --, in header
    order, and nothing else is appended: the lines added to the ledger are
    as many as the headers with indexed guids.  This is for a document
    whose headers can all be read and whose joined scans can all be
    encoded and written, with a ledger that can be opened and cells that
    hold no line feed. *)
Theorem C2_one_row_per_joined_header (file_path data : string) (out : Path)
    (cp : nat) (w : World) (e57_file : E57File Node) (idx : gmap string Node)
    (headers : list ScanHeader) :
  let coords := coords_file_path_of out in
  let joined := joined_headers idx headers in
  files w !! PyPath.of_str file_path = Some data →
  E57_parse data = Ok e57_file →
  extract_spherical_representations e57_file = Ok idx →
  length headers = scan_count e57_file →
  (∀ i h, headers !! i = Some h → read_header e57_file i = Ok h) →
  (∀ h sr, h ∈ headers → idx !! guid h = Some sr →
     is_ok (image_bytes sr) = true ∧
     is_ok (open_check w (image_path_of out (name h))) = true) →
  is_ok (open_check w coords) = true →
  ∃ w',
    process_e57_file file_path out coords cp w = (Ok (cp + 1), w') ∧
    files w' !! coords = ledger_plus (files w !! coords) (row_of out <$> joined) ∧
    (Forall (λ h, Forall (λ c, line_count c = 0) (cells_of out h)) joined →
     line_count (concat_rows (row_of out <$> joined)) = length joined) ∧
    (∀ h w0, idx !! guid h = None →
       process_scan_header idx out coords h w0 = (Ok (), w0)).
Proof.
  intros coords joined Hfile Hparse Hidx Hlen Hread Hcodec Hledger.
  destruct (headers_loop_rows idx out coords headers w)
    as (w1 & Hloop & Hd1 & Hl1).
  { apply coords_file_path_last. }
  { intros h sr Hin Hsr. destruct (Hcodec h sr Hin Hsr) as [? ?].
    split; [by eapply index_truthy | done]. }
  { done. }
  eexists. split; [|split; [|split]].
  - unfold process_e57_file. rewrite bind_run.
    unfold os_path_exists, path_exists, is_file. rewrite Hfile.
    rewrite bool_decide_eq_true_2 by done. rewrite orb_true_r. simpl.
    rewrite bind_run. unfold E57 at 1. rewrite Hfile, Hparse.
    rewrite bind_run, lift_run, Hidx. rewrite bind_run.
    rewrite <- Hlen.
    rewrite (for_each_scan_indices e57_file idx out coords headers 0 w) by done.
    rewrite Hloop. reflexivity.
  - done.
  - intros Hcells. rewrite line_count_rows; [by rewrite length_fmap|].
    apply Forall_fmap. eapply Forall_impl; [exact Hcells|].
    intros h Hh. by apply line_count_record.
  - intros h w0. apply process_scan_header_skipped.
Qed.

End ScanProcessor.

(** ** The batch orchestrator *)

Section Orchestrator.
Context {np : Numpy} {e57lib : LibE57} {pil : Pillow}.

Lemma output_path_of_cons (first : string) (rest : list string) :
  output_path_of (first :: rest) = PyPath.parent (PyPath.of_str first) ++ ["output"].
Proof. unfold output_path_of. apply PyPathFacts.joinpath_output. Qed.

Lemma coords_file_path_of_snoc (out : Path) :
  coords_file_path_of out = out ++ ["coords.csv"].
Proof. apply PyPathFacts.joinpath_name. Qed.

Lemma is_dir_set_dirs (w : World) (extra : list Path) (p : Path) :
  is_dir (set_dirs (λ d, d ∪ list_to_set extra) w) p =
    is_dir w p || bool_decide (p ∈ extra).
Proof.
  unfold is_dir. simpl. rewrite <- orb_assoc. f_equal.
  rewrite <- bool_decide_or. apply bool_decide_ext.
  by rewrite elem_of_union, elem_of_list_to_set.
Qed.

Lemma existsb_is_file_false (w : World) (l : list Path) (p : Path) :
  existsb (is_file w) l = false → p ∈ l → is_file w p = false.
Proof.
  intros Hl Hp. destruct (is_file w p) eqn:Hfile; [|done].
  assert (existsb (is_file w) l = true) as Htrue
    by (apply existsb_exists; exists p; by rewrite <- list_elem_of_In).
  congruence.
Qed.

(** What [prepare_output] leaves behind when no regular file stands where
    the output directory goes and the ledger path is no directory. *)
Lemma prepare_output_run (file_paths : list string) (out : Path) (w : World) :
  out = output_path_of file_paths → out ≠ [] →
  existsb (is_file w) (PyPath.ancestors out) = false →
  is_dir w (coords_file_path_of out) = false →
  ∃ w0,
    prepare_output file_paths w = (Ok (out, coords_file_path_of out), w0) ∧
    dirs w0 = (if path_exists w out then dirs w
               else dirs w ∪ list_to_set (PyPath.ancestors out)) ∧
    is_dir w0 out = true ∧
    files w0 = (if is_file w (coords_file_path_of out) then files w
                else <[coords_file_path_of out := coords_header]> (files w)).
Proof.
  intros Hout Hne Hclear Hcoords. unfold prepare_output. rewrite <- Hout.
  set (coords := coords_file_path_of out) in *.
  assert (is_file w out = false) as Hfile_out
    by (eapply existsb_is_file_false; [done | by apply PyPathFacts.ancestors_self]).
  assert (coords ∉ PyPath.ancestors out) as Hnot_anc.
  { intros Hin%PyPathFacts.ancestors_length. unfold coords in Hin.
    rewrite coords_file_path_of_snoc, length_app in Hin. simpl in Hin. lia. }
  assert (PyPath.parent coords = out) as Hparent
    by (unfold coords; rewrite coords_file_path_of_snoc;
        by apply PyPathFacts.parent_snoc).
  rewrite bind_run.
  (* the output directory *)
  assert (∃ w1, create_directory_if_not_exist out w = (Ok (), w1) ∧
                dirs w1 = (if path_exists w out then dirs w
                           else dirs w ∪ list_to_set (PyPath.ancestors out)) ∧
                is_dir w1 out = true ∧ files w1 = files w ∧
                is_dir w1 coords = false) as (w1 & -> & Hd1 & Hdir1 & Hf1 & Hc1).
  { unfold create_directory_if_not_exist.
    destruct (path_exists w out) eqn:Hex; simpl.
    - eexists. split; [done|]. split; [done|].
      unfold path_exists in Hex. rewrite Hfile_out, orb_false_r in Hex.
      by repeat split.
    - rewrite bind_run. simpl. unfold mkdir_parents.
      match goal with |- context [existsb ?f ?l] =>
        replace (existsb f l) with false end.
      eexists. split; [done|]. split; [done|].
      split; [|split; [done|]].
      + match goal with |- is_dir ?x out = true =>
          change x with (set_dirs (λ d, d ∪ list_to_set (PyPath.ancestors out))
                           (print ("Creating directory: " +:+ PyPath.to_str out) w).2)
        end.
        rewrite is_dir_set_dirs. apply orb_true_iff. right.
        apply bool_decide_eq_true_2. by apply PyPathFacts.ancestors_self.
      + match goal with |- is_dir ?x coords = false =>
          change x with (set_dirs (λ d, d ∪ list_to_set (PyPath.ancestors out))
                           (print ("Creating directory: " +:+ PyPath.to_str out) w).2)
        end.
        rewrite is_dir_set_dirs. apply orb_false_iff. split; [done|].
        by apply bool_decide_eq_false_2. }
  (* the ledger *)
  rewrite bind_run.
  assert (is_file w1 coords = is_file w coords) as Hfile1
    by (unfold is_file; by rewrite Hf1).
  assert (path_exists w1 coords = is_file w coords) as ->
    by (unfold path_exists; by rewrite Hc1, Hfile1).
  destruct (is_file w coords) eqn:Hledger; simpl.
  - eexists. split; [done|]. split; [exact Hd1|]. split; [|exact Hf1].
    rewrite <- Hdir1. by apply is_dir_dirs.
  - rewrite bind_run. simpl. unfold write_file, open_check.
    match goal with |- context [is_dir ?x coords] =>
      replace (is_dir x coords) with false
        by (rewrite <- Hc1; by apply is_dir_dirs) end.
    rewrite Hparent.
    match goal with |- context [is_dir ?x out] =>
      replace (is_dir x out) with true
        by (rewrite <- Hdir1; by apply is_dir_dirs) end.
    eexists. split; [done|]. split; [exact Hd1|]. split; [|simpl; by rewrite Hf1].
    rewrite <- Hdir1. by apply is_dir_dirs.
Qed.

(** A second preparation of the same output directory changes neither the
    directories nor the files. *)
Lemma prepare_output_again (file_paths : list string) (out : Path) (w : World) :
  out = output_path_of file_paths →
  is_dir w out = true → path_exists w (coords_file_path_of out) = true →
  ∃ w0,
    prepare_output file_paths w = (Ok (out, coords_file_path_of out), w0) ∧
    dirs w0 = dirs w ∧ files w0 = files w.
Proof.
  intros Hout Hdir Hcoords. unfold prepare_output. rewrite <- Hout.
  rewrite bind_run. unfold create_directory_if_not_exist, path_exists at 1.
  rewrite Hdir. simpl. rewrite bind_run.
  match goal with |- context [path_exists ?x (coords_file_path_of out)] =>
    replace (path_exists x (coords_file_path_of out)) with true
      by (symmetry; exact Hcoords) end.
  simpl. by eexists.
Qed.

Lemma extract_spherical_images_run (first : string) (rest : list string)
    (out coords : Path) (w w0 : World) :
  prepare_output (first :: rest) w = (Ok (out, coords), w0) →
  extract_spherical_images (first :: rest) w =
    process_files (first :: rest) out coords 0 w0.
Proof.
  intros Hprep. unfold extract_spherical_images. by rewrite bind_run, Hprep.
Qed.

Lemma process_e57_file_missing (file_path : string) (out coords : Path) (cp : nat)
    (w : World) :
  path_exists w (PyPath.of_str file_path) = false →
  process_e57_file file_path out coords cp w =
    (Raise (FileNotFoundError (not_found_message file_path)),
     (print (not_found_message file_path) w).2).
Proof.
  intros Hmissing. unfold process_e57_file, os_path_exists.
  rewrite bind_run, Hmissing. reflexivity.
Qed.

Lemma process_e57_file_progress (file_path : string) (out coords : Path)
    (cp cp' : nat) (w w' : World) :
  process_e57_file file_path out coords cp w = (Ok cp', w') → cp' = cp + 1.
Proof.
  unfold process_e57_file. rewrite bind_run. simpl.
  destruct (path_exists w _); simpl; [|done].
  rewrite bind_run. destruct (E57 file_path w) as [[e57_file|] w1]; [|done].
  rewrite bind_run, lift_run.
  destruct (extract_spherical_representations e57_file) as [idx|]; [|done].
  rewrite bind_run. destruct (for_each _ _ w1) as [[[]|] w2]; [|done].
  by intros [= <- _].
Qed.

(** The loop over a list that continues another one. *)
Lemma process_files_app (before rest : list string) (out coords : Path) (cp : nat)
    (w w1 : World) :
  process_files before out coords cp w = (Ok (), w1) →
  process_files (before ++ rest) out coords cp w =
    process_files rest out coords (cp + e57_count before) w1.
Proof.
  revert cp w. induction before as [|p before IH]; intros cp w Hrun.
  - simpl in *. rewrite Nat.add_0_r. by injection Hrun as <-.
  - cbn [app process_files] in *. unfold e57_count. cbn [List.filter].
    destruct (PyStr.endswith p ".e57"); simpl in *.
    + rewrite bind_run in *.
      destruct (process_e57_file p out coords cp w) as [[cp'|] w'] eqn:Hp; [|done].
      apply process_e57_file_progress in Hp as ->.
      rewrite (IH _ _ Hrun). unfold e57_count. f_equal. lia.
    + rewrite bind_run in *. simpl in *. by rewrite (IH _ _ Hrun).
Qed.

(** C8: an entry that ends in [.e57] and does not exist makes the run raise
    [FileNotFoundError] with a message that names the entry; the run ends
    there, in the world the entries before it left, with that message
    printed: nothing of the entries after it is processed. *)
Theorem C8_missing_input_aborts (before after : list string) (file_path : string)
    (out coords : Path) (w w0 w1 : World) :
  PyStr.endswith file_path ".e57" = true →
  prepare_output (before ++ file_path :: after) w = (Ok (out, coords), w0) →
  process_files before out coords 0 w0 = (Ok (), w1) →
  path_exists w1 (PyPath.of_str file_path) = false →
  extract_spherical_images (before ++ file_path :: after) w =
    (Raise (FileNotFoundError ("E57 file not found at path: " +:+ file_path)),
     (print ("E57 file not found at path: " +:+ file_path) w1).2).
Proof.
  intros Hend Hprep Hbefore Hmissing.
  assert (extract_spherical_images (before ++ file_path :: after) w =
          process_files (before ++ file_path :: after) out coords 0 w0) as ->.
  { destruct before; by apply extract_spherical_images_run. }
  rewrite (process_files_app _ _ _ _ _ _ _ Hbefore).
  cbn [process_files]. rewrite Hend. simpl. rewrite bind_run.
  by rewrite process_e57_file_missing.
Qed.

(** Entries that do not end in [.e57] are only reported. *)
Lemma process_files_skipped (file_paths : list string) (out coords : Path)
    (cp : nat) (w : World) :
  Forall (λ p, PyStr.endswith p ".e57" = false) file_paths →
  ∃ w', process_files file_paths out coords cp w = (Ok (), w') ∧
        dirs w' = dirs w ∧ files w' = files w.
Proof.
  intros Hall. revert w. induction Hall as [|p rest Hp Hrest IH]; intros w.
  - by exists w.
  - cbn [process_files]. rewrite Hp. cbn [negb]. rewrite bind_print.
    destruct (IH (print ("Skipping non-E57 file: " +:+ p) w).2) as (w' & -> & Hd & Hf).
    by exists w'.
Qed.

(** An input that ends in [.e57] is none of the directories made for the
    output directory next to it. *)
Lemma input_not_ancestor (first : string) :
  PyStr.endswith first ".e57" = true →
  PyPath.of_str first ∉
    PyPath.ancestors (PyPath.parent (PyPath.of_str first) ++ ["output"]).
Proof.
  intros Hend. set (q := PyPath.of_str first).
  pose proof (PyPathFacts.of_str_e57_last first Hend) as Hlast. fold q in Hlast.
  assert (q ≠ []) as Hq by (intros Hnil; by rewrite Hnil in Hlast).
  assert (PyPath.is_anchor (List.last q "") = false) as Hanchor.
  { unfold PyPath.is_anchor. apply orb_false_iff.
    split; apply String.eqb_neq; intros Heq; by rewrite Heq in Hlast. }
  pose proof (PyPathFacts.parent_last q Hq Hanchor) as Hsplit.
  intros Hin.
  pose proof (PyPathFacts.ancestors_length _ _ Hin) as Hlen.
  apply PyPathFacts.ancestors_prefix in Hin as [n Hn].
  rewrite length_app in Hlen. simpl in Hlen.
  assert (length q = length (PyPath.parent q) + 1) as Hlq
    by (rewrite Hsplit at 1; by rewrite length_app).
  assert (q = PyPath.parent q ++ ["output"]) as Heq.
  { rewrite Hn at 1. apply take_ge.
    assert (length (take n (PyPath.parent q ++ ["output"])) = length q) as Htake
      by (by rewrite <- Hn).
    rewrite length_take, length_app in Htake. simpl in Htake.
    rewrite length_app. simpl. lia. }
  rewrite Hsplit in Heq at 1. apply app_inv_head in Heq.
  injection Heq as Heq. by rewrite Heq in Hlast.
Qed.

(** X1: entries with another extension are reported and passed over: nothing
    is created or written for them and the loop goes on. *)
Theorem other_extensions_skipped (file_paths : list string) (out coords : Path)
    (cp : nat) (w : World) :
  Forall (λ p, PyStr.endswith p ".e57" = false) file_paths →
  ∃ w', process_files file_paths out coords cp w = (Ok (), w') ∧
        dirs w' = dirs w ∧ files w' = files w ∧
        progress_value w' = progress_value w ∧
        stdout w' = stdout w ++ ((λ p, "Skipping non-E57 file: " +:+ p) <$> file_paths).
Proof.
  intros Hall. revert w. induction Hall as [|p rest Hp Hrest IH]; intros w.
  - exists w. by rewrite app_nil_r.
  - cbn [process_files]. rewrite Hp. cbn [negb]. rewrite bind_print.
    destruct (IH (print ("Skipping non-E57 file: " +:+ p) w).2)
      as (w' & -> & Hd & Hf & Hp' & Hout).
    exists w'. repeat split; try done.
    rewrite Hout. simpl. by rewrite <- app_assoc.
Qed.

(** An empty list is answered with a message and nothing else. *)
Theorem empty_list_only_reported (w : World) :
  extract_spherical_images [] w = (Ok (), (print "No files selected." w).2).
Proof. reflexivity. Qed.

(** X4: a fully processed file counts one unit of progress and shows it. *)
Theorem processed_file_reports_progress (file_path : string) (out coords : Path)
    (cp cp' : nat) (w w' : World) :
  process_e57_file file_path out coords cp w = (Ok cp', w') →
  cp' = cp + 1 ∧ progress_value w' = cp + 1.
Proof.
  unfold process_e57_file. rewrite bind_run. simpl.
  destruct (path_exists w _); simpl; [|done].
  rewrite bind_run. destruct (E57 file_path w) as [[e57_file|] w1]; [|done].
  rewrite bind_run, lift_run.
  destruct (extract_spherical_representations e57_file) as [idx|]; [|done].
  rewrite bind_run. destruct (for_each _ _ w1) as [[[]|] w2]; [|done].
  by intros [= <- <-].
Qed.

End Orchestrator.

(** ** The ledger across the batch and across runs *)

Section Batch.
Context {np : Numpy} {e57lib : LibE57} {pil : Pillow}.

Lemma ledger_plus_some (content : string) (rows : list string) :
  ledger_plus (Some content) rows = Some (content +:+ concat_rows rows).
Proof.
  destruct rows; [|done]. simpl. by rewrite PyStrFacts.append_nil_r.
Qed.

Lemma output_path_nonempty (first : string) (rest : list string) :
  output_path_of (first :: rest) ≠ [].
Proof. rewrite output_path_of_cons. by intros [_ ?]%app_eq_nil. Qed.

Lemma path_exists_false (w : World) (p : Path) :
  path_exists w p = false → is_dir w p = false ∧ is_file w p = false.
Proof. unfold path_exists. by intros ?%orb_false_iff. Qed.

Lemma is_file_lookup (w : World) (p : Path) :
  is_file w p = true → ∃ content, files w !! p = Some content.
Proof. unfold is_file. intros [content Hc]%bool_decide_eq_true. by exists content. Qed.

(** The loop starts from the prepared world and leaves its directories as
    they are; to the ledger it only appends data rows. *)
Lemma process_files_ledger (file_paths : list string) (out : Path) (cp : nat)
    (w0 : World) :
  ∃ rows, Forall is_data_row rows ∧
    dirs (process_files file_paths out (coords_file_path_of out) cp w0).2 = dirs w0 ∧
    files (process_files file_paths out (coords_file_path_of out) cp w0).2
        !! coords_file_path_of out
      = ledger_plus (files w0 !! coords_file_path_of out) rows.
Proof.
  destruct (frames_process_files (coords_file_path_of out) (coords_file_path_last out)
              file_paths out cp w0 w0 (same_inputs_refl w0))
    as (rows & Hrows & _ & [Hd _] & _ & Hl & _).
  by exists rows.
Qed.

(** A missing first input is still missing once the output was prepared. *)
Lemma missing_input_stays_missing (first : string) (rest : list string)
    (w w0 : World) :
  let out := output_path_of (first :: rest) in
  PyStr.endswith first ".e57" = true →
  path_exists w (PyPath.of_str first) = false →
  dirs w0 = (if path_exists w out then dirs w
             else dirs w ∪ list_to_set (PyPath.ancestors out)) →
  files w0 = <[coords_file_path_of out := coords_header]> (files w) →
  path_exists w0 (PyPath.of_str first) = false.
Proof.
  intros out Hend [Hdir Hfile]%path_exists_false Hd0 Hf0.
  unfold path_exists. apply orb_false_iff. split.
  - unfold is_dir in *. apply orb_false_iff in Hdir as [Hroot Hin].
    rewrite Hroot. simpl. apply bool_decide_eq_false_2.
    apply bool_decide_eq_false_1 in Hin. rewrite Hd0.
    destruct (path_exists w out); [done|].
    rewrite elem_of_union, elem_of_list_to_set. intros [?|Hanc]; [done|].
    unfold out in Hanc. rewrite output_path_of_cons in Hanc.
    by apply (input_not_ancestor first Hend).
  - unfold is_file in *. rewrite Hf0, lookup_insert_ne; [done|].
    intros Heq.
    pose proof (PyPathFacts.of_str_e57_last first Hend) as Hlast.
    by rewrite <- Heq, coords_file_path_last in Hlast.
Qed.

(** C10: for a non-empty list, the output directory next to the first entry
    and the ledger with its header row -- the nine column names, separated
    by commas and ended by a line feed -- are made (the ledger being
    absent) before the loop over the entries starts: the loop runs from
    the prepared world, and they are there when the run ends, however it
    ends, the header followed by data rows only; in particular when every
    entry has another extension, and when the first entry ends in [.e57]
    and does not exist.  The directory must be creatable: no regular file
    stands at or above its path. *)
Theorem C10_output_prepared_first (first : string) (rest : list string) (w : World) :
  let file_paths := first :: rest in
  let out := output_path_of file_paths in
  let coords := coords_file_path_of out in
  existsb (is_file w) (PyPath.ancestors out) = false →
  path_exists w coords = false →
  out = PyPath.parent (PyPath.of_str first) ++ ["output"] ∧
  ∃ w0,
    prepare_output file_paths w = (Ok (out, coords), w0) ∧
    is_dir w0 out = true ∧ files w0 !! coords = Some header_row ∧
    extract_spherical_images file_paths w = process_files file_paths out coords 0 w0 ∧
    (is_dir (extract_spherical_images file_paths w).2 out = true ∧
     ∃ rows, Forall is_data_row rows ∧
             files (extract_spherical_images file_paths w).2 !! coords
               = Some (header_row +:+ concat_rows rows)) ∧
    (Forall (λ p, PyStr.endswith p ".e57" = false) file_paths →
     ∃ w', extract_spherical_images file_paths w = (Ok (), w') ∧
           is_dir w' out = true ∧ files w' !! coords = Some header_row) ∧
    (PyStr.endswith first ".e57" = true →
     path_exists w (PyPath.of_str first) = false →
     ∃ w', extract_spherical_images file_paths w
             = (Raise (FileNotFoundError ("E57 file not found at path: " +:+ first)), w') ∧
           is_dir w' out = true ∧ files w' !! coords = Some header_row).
Proof.
  intros file_paths out coords Hclear [Hcdir Hcfile]%path_exists_false.
  change header_row with coords_header.
  split; [apply output_path_of_cons|].
  destruct (prepare_output_run file_paths out w eq_refl
              (output_path_nonempty first rest) Hclear Hcdir)
    as (w0 & Hprep & Hd0 & Hdir0 & Hf0).
  fold coords in Hprep, Hf0. rewrite Hcfile in Hf0.
  assert (files w0 !! coords = Some coords_header) as Hheader
    by (rewrite Hf0; apply lookup_insert_eq).
  pose proof (extract_spherical_images_run first rest out coords w w0 Hprep) as Hrun.
  exists w0. split; [done|]. split; [done|]. split; [done|]. split; [done|].
  fold file_paths in Hrun. rewrite Hrun. split; [|split].
  - destruct (process_files_ledger file_paths out 0 w0) as (rows & Hrows & Hd & Hl).
    fold coords in Hd, Hl. split.
    + rewrite <- Hdir0. by apply is_dir_dirs.
    + exists rows. split; [done|]. by rewrite Hl, Hheader, ledger_plus_some.
  - intros Hall.
    destruct (process_files_skipped file_paths out coords 0 w0 Hall)
      as (w' & Hw' & Hd & Hf).
    exists w'. split; [done|]. split.
    + rewrite <- Hdir0. by apply is_dir_dirs.
    + by rewrite Hf.
  - intros Hend Hmissing.
    pose proof (missing_input_stays_missing first rest w w0 Hend Hmissing Hd0 Hf0)
      as Hmissing0.
    unfold file_paths. cbn [process_files]. rewrite Hend. cbn [negb].
    rewrite bind_run, (process_e57_file_missing _ _ _ _ _ Hmissing0).
    eexists. split; [done|]. by split.
Qed.

(** A data row is not the header row: it has a full stop, before [jpeg],
    and the header row has none. *)
Lemma data_row_not_header (row : string) : is_data_row row → row ≠ header_row.
Proof.
  intros (out & h & ->) Heq.
  assert (PyText.char_in "." (row_of out h) = true) as Hdot.
  { unfold row_of, record_text, cells_of.
    match goal with |- context [PyStr.join "," (?c :: ?d :: ?cells)] =>
      change (PyStr.join "," (c :: d :: cells))
        with (c +:+ "," +:+ PyStr.join "," (d :: cells)) end.
    rewrite !PyTextFacts.char_in_app. apply orb_true_iff. left.
    apply orb_true_iff. left. apply orb_true_iff. by right. }
  by rewrite Heq in Hdot.
Qed.

(** C4: the header row -- the nine column names, separated by commas and
    ended by a line feed -- is written exactly when the ledger does not
    exist as the batch starts.  In a second run over the same list the
    ledger exists, no header is written, and the run appends the very rows
    the first run appended, each of them a data row and none of them the
    header row: after two runs from an absent ledger the file is the
    header row followed by those rows twice, so that of its records one is
    the header row and twice as many as a single run appends are data
    rows.  The directory must be creatable and the ledger path must not be
    a directory. *)
Theorem C4_header_written_once (first : string) (rest : list string) (w : World) :
  let file_paths := first :: rest in
  let out := output_path_of file_paths in
  let coords := coords_file_path_of out in
  let w1 := (extract_spherical_images file_paths w).2 in
  let w2 := (extract_spherical_images file_paths w1).2 in
  existsb (is_file w) (PyPath.ancestors out) = false →
  is_dir w coords = false →
  (∃ w0, prepare_output file_paths w = (Ok (out, coords), w0) ∧
         files w0 !! coords =
           if is_file w coords then files w !! coords else Some header_row) ∧
  (∃ w0', prepare_output file_paths w1 = (Ok (out, coords), w0') ∧
          files w0' !! coords = files w1 !! coords) ∧
  ∃ rows, Forall is_data_row rows ∧ Forall (λ row, row ≠ header_row) rows ∧
    files w1 !! coords =
      (if is_file w coords then ledger_plus (files w !! coords) rows
       else Some (concat_rows (header_row :: rows))) ∧
    files w2 !! coords =
      (if is_file w coords then ledger_plus (files w !! coords) (rows ++ rows)
       else Some (concat_rows (header_row :: rows ++ rows))) ∧
    length (List.filter (λ r, String.eqb r header_row) (header_row :: rows ++ rows)) = 1 ∧
    length (List.filter (λ r, negb (String.eqb r header_row)) (header_row :: rows ++ rows))
      = 2 * length rows.
Proof.
  intros file_paths out coords w1 w2 Hclear Hcdir.
  destruct (prepare_output_run file_paths out w eq_refl
              (output_path_nonempty first rest) Hclear Hcdir)
    as (w0 & Hprep & Hd0 & Hdir0 & Hf0).
  fold coords in Hprep, Hf0. rewrite coords_header_text in Hf0.
  pose proof (extract_spherical_images_run first rest out coords w w0 Hprep) as Hrun.
  fold file_paths in Hrun.
  (* the ledger as the first loop finds it *)
  assert (∃ content, files w0 !! coords = Some content ∧
            Some content = (if is_file w coords then files w !! coords
                            else Some header_row)) as (content & Hc0 & Hcontent).
  { rewrite Hf0. destruct (is_file w coords) eqn:Hfile.
    - apply is_file_lookup in Hfile as [content Hc]. by exists content.
    - exists header_row. by rewrite lookup_insert_eq. }
  (* the first run *)
  destruct (frames_process_files coords (coords_file_path_last out)
              file_paths out 0 w0 w0 (same_inputs_refl w0))
    as (rows1 & _ & _ & Hsame1 & _ & Hl1 & _).
  assert (w1 = (process_files file_paths out coords 0 w0).2) as Hw1
    by (unfold w1; by rewrite Hrun).
  rewrite <- Hw1 in Hsame1, Hl1. rewrite Hc0, ledger_plus_some in Hl1.
  (* the second preparation *)
  destruct (prepare_output_again file_paths out w1 eq_refl) as (w0' & Hprep' & Hd0' & Hf0').
  { rewrite <- Hdir0. apply is_dir_dirs. by destruct Hsame1. }
  { unfold path_exists, is_file. fold coords. rewrite Hl1.
    rewrite bool_decide_eq_true_2 by done. apply orb_true_r. }
  fold coords in Hprep'.
  pose proof (extract_spherical_images_run first rest out coords w1 w0' Hprep') as Hrun'.
  fold file_paths in Hrun'.
  assert (same_inputs w0 w0') as Hsame.
  { destruct Hsame1 as [Hd Hf]. split; [congruence|].
    intros p Hp. by rewrite Hf0', Hf. }
  (* both loops append the same rows *)
  destruct (frames_process_files coords (coords_file_path_last out)
              file_paths out 0 w0 w0' Hsame)
    as (rows & Hrows & _ & _ & _ & Hl & Hl').
  rewrite <- Hw1, Hc0, ledger_plus_some in Hl.
  assert (w2 = (process_files file_paths out coords 0 w0').2) as Hw2
    by (unfold w2; by rewrite Hrun').
  rewrite <- Hw2, Hf0', Hl, ledger_plus_some in Hl'.
  assert (Forall (λ row, row ≠ header_row) rows) as Hdata
    by (eapply Forall_impl; [exact Hrows | apply data_row_not_header]).
  assert (∀ l : list string, Forall (λ row, row ≠ header_row) l →
            List.filter (λ r, String.eqb r header_row) l = [] ∧
            List.filter (λ r, negb (String.eqb r header_row)) l = l) as Hfilter.
  { induction 1 as [|r l Hr Hl0 [IH1 IH2]]; [done|].
    cbn [List.filter]. apply String.eqb_neq in Hr. rewrite Hr. cbn [negb].
    by rewrite IH1, IH2. }
  destruct (Hfilter (rows ++ rows) ltac:(by apply Forall_app)) as [Hnone Hall].
  split; [exists w0; by rewrite Hc0|].
  split; [exists w0'; by rewrite Hf0'|].
  exists rows. split; [done|]. split; [done|].
  split; [|split; [|split]].
  - destruct (is_file w coords).
    + by rewrite <- Hcontent, !ledger_plus_some, Hl.
    + injection Hcontent as ->. by rewrite Hl.
  - destruct (is_file w coords).
    + rewrite <- Hcontent, !ledger_plus_some, concat_rows_app.
      by rewrite Hl', PyStrFacts.append_assoc.
    + injection Hcontent as ->. rewrite Hl'.
      cbn [concat_rows foldr]. fold (concat_rows (rows ++ rows)).
      rewrite concat_rows_app.
      change (String.append header_row (concat_rows rows +:+ concat_rows rows))
        with (header_row +:+ (concat_rows rows +:+ concat_rows rows)).
      by rewrite PyStrFacts.append_assoc.
  - cbn [List.filter]. rewrite String.eqb_refl. cbn [length]. by rewrite Hnone.
  - cbn [List.filter]. rewrite String.eqb_refl. cbn [negb].
    rewrite Hall, length_app. lia.
Qed.

End Batch.

(** * More of the script *)

(** ** The index builder: where entries come from *)

Section IndexOrigin.
Context {np : Numpy} {e57lib : LibE57}.

Lemma index_entry_inv (image2D : Node) (g : string) (payload : Node) :
  index_entry image2D = Ok (Some (g, payload)) →
  node_getitem image2D "sphericalRepresentation" = Ok payload ∧
  node_bool payload = true ∧ g ≠ "" ∧
  associated_guid_of image2D = Ok (Some g).
Proof.
  unfold index_entry.
  destruct (node_getitem image2D "sphericalRepresentation") as [sr|[]]; try done.
  destruct (node_bool sr) eqn:Hbool; [|done].
  destruct (associated_guid_of image2D) as [[g'|]|]; simpl; try done.
  destruct (PyStr.truthy g') eqn:Htruthy; [|done].
  intros [= -> ->]. repeat split; try done.
  intros ->. done.
Qed.

Lemma fold_index_origin (l : list Node) (d idx : gmap string Node) (g : string)
    (payload : Node) :
  fold_result index_image2D d l = Ok idx → idx !! g = Some payload →
  d !! g = Some payload ∨
  ∃ image2D, image2D ∈ l ∧ index_entry image2D = Ok (Some (g, payload)).
Proof.
  revert d. induction l as [|m l IH]; intros d Hfold Hg; simpl in Hfold.
  - left. by simplify_eq.
  - rewrite index_image2D_entry in Hfold.
    destruct (index_entry m) as [[[g' payload']|]|e] eqn:Hentry; simpl in Hfold;
      [| |done].
    + destruct (IH _ Hfold Hg) as [Hd|(n & Hn & Hentry')].
      * destruct (decide (g' = g)) as [->|Hne].
        -- rewrite lookup_insert_eq in Hd. injection Hd as ->.
           right. exists m. split; [by left | done].
        -- rewrite lookup_insert_ne in Hd by done. by left.
      * right. exists n. split; [by right | done].
    + destruct (IH _ Hfold Hg) as [Hd|(n & Hn & Hentry')]; [by left|].
      right. exists n. split; [by right | done].
Qed.

(** X5: the index holds nothing the document does not: every entry is the
    [sphericalRepresentation] of one of the visited image nodes, under the
    guid that node resolves to; the payload tests true and the guid is not
    the empty string. *)
Theorem index_entries_come_from_nodes (e57_file : E57File Node)
    (idx : gmap string Node) (g : string) (payload : Node) :
  extract_spherical_representations e57_file = Ok idx →
  idx !! g = Some payload →
  ∃ nodes image2D,
    image_nodes e57_file = Ok nodes ∧ image2D ∈ nodes ∧
    node_getitem image2D "sphericalRepresentation" = Ok payload ∧
    associated_guid_of image2D = Ok (Some g) ∧
    node_bool payload = true ∧ g ≠ "".
Proof.
  rewrite extract_image_nodes.
  destruct (image_nodes e57_file) as [nodes|] eqn:Hnodes; simpl; [|done].
  intros Hfold Hg.
  destruct (fold_index_origin nodes ∅ idx g payload Hfold Hg)
    as [Hempty|(n & Hn & Hentry)]; [by rewrite lookup_empty in Hempty|].
  destruct (index_entry_inv n g payload Hentry) as (Hsr & Hbool & Hne & Hkey).
  by exists nodes, n.
Qed.

(** X6: a first key that tests true decides alone: when its value is the
    empty string the node adds no entry, whatever the fallback key holds
    (its lookup is not even made). *)
Theorem empty_guid_value_skips_node (d : gmap string Node)
    (image2D payload first : Node) :
  node_getitem image2D "sphericalRepresentation" = Ok payload →
  node_bool payload = true →
  node_getitem image2D "associatedData3DGuid" = Ok first →
  node_bool first = true →
  node_value first = Ok "" →
  index_image2D d image2D = Ok d.
Proof.
  intros Hsr Hbool Hfirst Hfb Hval. unfold index_image2D.
  rewrite Hsr, Hbool, (associated_guid_of_first image2D first Hfirst Hfb), Hval.
  done.
Qed.

(** X7: an error on one image node ends the index builder with that error;
    the entries of the nodes before it are not returned, and the nodes
    after it are not visited. *)
Theorem index_error_discards_all (e57_file : E57File Node)
    (before after : list Node) (image2D : Node) (e : PyExn) :
  image_nodes e57_file = Ok (before ++ image2D :: after) →
  Forall (λ m, is_ok (index_entry m) = true) before →
  index_entry image2D = Raise e →
  extract_spherical_representations e57_file = Raise e.
Proof.
  intros Hnodes Hbefore Hraise. rewrite extract_image_nodes, Hnodes. simpl.
  rewrite fold_result_app.
  assert (∀ d, ∃ d', fold_result index_image2D d before = Ok d') as Hok.
  { clear Hnodes. induction Hbefore as [|m l Hm Hl IH]; intros d; [by exists d|].
    simpl. rewrite index_image2D_entry.
    destruct (index_entry m) as [[[g payload]|]|]; simpl in *;
      [apply IH | apply IH | done]. }
  destruct (Hok ∅) as [d' ->]. simpl.
  by rewrite index_image2D_entry, Hraise.
Qed.

End IndexOrigin.

(** ** What the codec and the scan processor leave alone *)

Section ScanEffects.
Context {np : Numpy} {e57lib : LibE57} {pil : Pillow}.

Lemma keeps_ret (R : World → World → Prop) `{!Reflexive R} {A} (a : A) :
  keeps R (mret a : M A).
Proof. intros w. simpl. reflexivity. Qed.

Lemma keeps_lift (R : World → World → Prop) `{!Reflexive R} {A} (r : Result A) :
  keeps R (lift r).
Proof. intros w. simpl. reflexivity. Qed.

Lemma keeps_bind (R : World → World → Prop) `{!Transitive R} {A B}
    (m : M A) (k : A → M B) :
  keeps R m → (∀ a, keeps R (k a)) → keeps R (m ≫= k).
Proof.
  intros Hm Hk w. rewrite bind_run. specialize (Hm w).
  destruct (m w) as [[a|e] w1]; simpl in *; [|done].
  etrans; [exact Hm | apply Hk].
Qed.

Lemma keeps_for_each (R : World → World → Prop) `{!PreOrder R} {A}
    (body : A → M unit) (l : list A) :
  (∀ x, keeps R (body x)) → keeps R (for_each body l).
Proof.
  intros Hbody. induction l as [|x l IH]; simpl.
  - apply keeps_ret, _.
  - apply keeps_bind; [apply _ | apply Hbody | by intros _].
Qed.

Global Instance only_files_preorder : PreOrder only_files.
Proof.
  split.
  - by intros w.
  - intros w1 w2 w3 (?&?&?&?) (?&?&?&?). repeat split; congruence.
Qed.

Global Instance inputs_safe_preorder : PreOrder inputs_safe.
Proof.
  split.
  - by intros w.
  - intros w1 w2 w3 (Hd1 & Hf1 & Hi1) (Hd2 & Hf2 & Hi2).
    split; [set_solver|]. split.
    + intros p Hp. by apply Hf2, Hf1.
    + intros p Hp. by rewrite Hi2, Hi1.
Qed.

Lemma keeps_only_files_write (p : Path) (data : string) :
  keeps only_files (write_file p data).
Proof. intros w. unfold write_file. by destruct (open_check w p). Qed.

Lemma keeps_only_files_append (p : Path) (data : string) :
  keeps only_files (append_file p data).
Proof. intros w. unfold append_file. by destruct (open_check w p). Qed.

Lemma keeps_only_files_process_image (sr : Node) (name : string) (out : Path) :
  keeps only_files (process_image sr name out).
Proof.
  intros w. by destruct (process_image_world sr name out w) as [->|[data ->]].
Qed.

Lemma keeps_only_files_process_scan_header (idx : gmap string Node)
    (out coords : Path) (h : ScanHeader) :
  keeps only_files (process_scan_header idx out coords h).
Proof.
  unfold process_scan_header.
  destruct (idx !! guid h) as [sr|]; [|apply keeps_ret, _].
  destruct (node_bool sr); [|apply keeps_ret, _].
  apply keeps_bind; [apply _ | apply keeps_only_files_process_image|].
  intros [fn fp]. apply keeps_only_files_append.
Qed.

Lemma keeps_only_files_process_scan (e57_file : E57File Node)
    (idx : gmap string Node) (out coords : Path) (i : nat) :
  keeps only_files (process_scan e57_file idx out coords i).
Proof.
  unfold process_scan. apply keeps_bind; [apply _ | apply keeps_lift, _|].
  intros h. apply keeps_only_files_process_scan_header.
Qed.

(** X8: the codec touches at most one file, the image's: directories,
    standard output and the progress bar are as before, every other file
    is as before, and no file is removed.  A call that fails before the
    save (payload not selected, read, decoded or resized) or whose save
    cannot open the file leaves the world as it was. *)
Theorem process_image_touches_one_file (sr : Node) (name : string) (out : Path)
    (w : World) :
  let image_full_path := PyPath.joinpath out (PyPath.of_str (name +:+ ".jpeg")) in
  only_files w (process_image sr name out w).2 ∧
  (∀ p, p ≠ image_full_path →
        files (process_image sr name out w).2 !! p = files w !! p) ∧
  (∀ p, is_Some (files w !! p) →
        is_Some (files (process_image sr name out w).2 !! p)) ∧
  (is_ok (resized_panorama sr) && is_ok (open_check w image_full_path) = false →
   (process_image sr name out w).2 = w).
Proof.
  intros image_full_path.
  split; [apply keeps_only_files_process_image|].
  split; [intros p Hp; by apply files_outside_image_path|].
  split.
  { intros p Hp. destruct (process_image_world sr name out w) as [->|[data ->]];
      [done|].
    simpl. destruct (decide (image_path_of out name = p)) as [->|Hne].
    - by rewrite lookup_insert_eq.
    - by rewrite lookup_insert_ne. }
  rewrite process_image_run. fold (image_path_of out name) in image_full_path.
  destruct (resized_panorama sr) as [resized|]; [|done].
  unfold Image_save. unfold image_full_path.
  by destruct (open_check w (image_path_of out name)).
Qed.

(** X9: a file whose processing raises reports no progress: the progress
    bar (value and maximum) and the directories are as they were. *)
Theorem failed_file_reports_no_progress (file_path : string) (out coords : Path)
    (cp : nat) (w w' : World) (e : PyExn) :
  process_e57_file file_path out coords cp w = (Raise e, w') →
  progress_value w' = progress_value w ∧
  progress_maximum w' = progress_maximum w ∧
  dirs w' = dirs w.
Proof.
  unfold process_e57_file. rewrite bind_run. simpl.
  destruct (path_exists w _); simpl; [|by intros [= _ <-]].
  rewrite bind_run. unfold E57 at 1.
  destruct (files w !! _) as [data|]; [|by intros [= _ <-]].
  destruct (E57_parse data) as [e57_file|]; [|by intros [= _ <-]].
  rewrite bind_run, lift_run.
  destruct (extract_spherical_representations e57_file) as [idx|];
    [|by intros [= _ <-]].
  rewrite bind_run.
  pose proof (keeps_for_each only_files
                (process_scan e57_file idx out coords)
                (seq 0 (scan_count e57_file))
                (keeps_only_files_process_scan e57_file idx out coords) w)
    as (Hd & _ & Hmax & Hval).
  destruct (for_each _ _ w) as [[[]|] w1]; simpl in *; [done|].
  by intros [= _ <-].
Qed.

(** X10: a container whose headers can all be read and none of whose
    scans has a panorama is processed to the end with nothing written: the
    only change is the progress unit. *)
Theorem container_without_panoramas (file_path data : string) (out coords : Path)
    (cp : nat) (w : World) (e57_file : E57File Node) (idx : gmap string Node) :
  files w !! PyPath.of_str file_path = Some data →
  E57_parse data = Ok e57_file →
  extract_spherical_representations e57_file = Ok idx →
  (∀ i, i < scan_count e57_file →
        ∃ h, read_header e57_file i = Ok h ∧ idx !! guid h = None) →
  process_e57_file file_path out coords cp w =
    (Ok (cp + 1), (set_progress_value (cp + 1) w).2).
Proof.
  intros Hfile Hparse Hidx Hnone.
  assert (∀ n start, start + n ≤ scan_count e57_file →
            for_each (process_scan e57_file idx out coords) (seq start n) w
              = (Ok (), w)) as Hloop.
  { induction n as [|n IH]; intros start Hle; [done|].
    cbn [seq for_each]. rewrite bind_run.
    destruct (Hnone start ltac:(lia)) as (h & Hh & Hg).
    unfold process_scan at 1. rewrite bind_run, lift_run, Hh.
    rewrite process_scan_header_skipped by done.
    apply IH. lia. }
  unfold process_e57_file. rewrite bind_run.
  unfold os_path_exists, path_exists, is_file. rewrite Hfile.
  rewrite bool_decide_eq_true_2 by done. rewrite orb_true_r. simpl.
  rewrite bind_run. unfold E57 at 1. rewrite Hfile, Hparse.
  rewrite bind_run, lift_run, Hidx. rewrite bind_run.
  rewrite Hloop by lia. reflexivity.
Qed.

(** X11: an entry that exists but is no readable container -- a directory,
    a file the reader refuses, or a container whose images cannot be
    indexed -- ends the file with the library's error before anything is
    written, printed or counted. *)
Theorem unreadable_container_is_fatal (file_path : string) (out coords : Path)
    (cp : nat) (w : World) (e : PyExn) :
  path_exists w (PyPath.of_str file_path) = true →
  (files w !! PyPath.of_str file_path = None ∧
   e = LibraryError "cannot open the container") ∨
  (∃ data, files w !! PyPath.of_str file_path = Some data ∧
           E57_parse data = Raise e) ∨
  (∃ data e57_file, files w !! PyPath.of_str file_path = Some data ∧
                    E57_parse data = Ok e57_file ∧
                    extract_spherical_representations e57_file = Raise e) →
  process_e57_file file_path out coords cp w = (Raise e, w).
Proof.
  intros Hex Hcases. unfold process_e57_file. rewrite bind_run.
  unfold os_path_exists. rewrite Hex. simpl. rewrite bind_run. unfold E57 at 1.
  destruct Hcases as [[-> ->]|[(data & -> & ->)|(data & e57_file & -> & -> & Hidx)]];
    try done.
  by rewrite bind_run, lift_run, Hidx.
Qed.


Lemma anchor_of_absolute (s : string) :
  ∃ a, PyPath.anchor_of (String "/" s) = [a] ∧ PyPath.is_anchor a = true.
Proof.
  destruct s as [|c s].
  - by exists "/".
  - destruct (Ascii.eqb_spec c "/") as [->|Hc].
    + destruct s as [|d s]; [by exists "//"|].
      destruct (Ascii.eqb_spec d "/") as [->|Hd]; [by exists "/"|].
      exists "//". split; [|done].
      destruct d as [[] [] [] [] [] [] [] []]; done.
    + exists "/". split; [|done].
      destruct c as [[] [] [] [] [] [] [] []]; done.
Qed.

(** X24: a scan name that begins with a slash decides alone where the
    image goes: the path of the image is absolute and [process_image] does
    the same whatever the output directory is. *)
Theorem absolute_scan_name_ignores_output (sr : Node) (rest : string)
    (out out' : Path) (w : World) :
  (∃ a tl, PyPath.joinpath out (PyPath.of_str (("/" +:+ rest) +:+ ".jpeg")) = a :: tl
           ∧ PyPath.is_anchor a = true) ∧
  process_image sr ("/" +:+ rest) out w = process_image sr ("/" +:+ rest) out' w.
Proof.
  assert (∀ o, ∃ a tl,
            image_path_of o ("/" +:+ rest) = a :: tl ∧ PyPath.is_anchor a = true ∧
            image_path_of o ("/" +:+ rest) = image_path_of [] ("/" +:+ rest)) as Hpath.
  { intros o. unfold image_path_of, PyPath.of_str.
    change (("/" +:+ rest) +:+ ".jpeg") with (String "/" (rest +:+ ".jpeg")).
    destruct (anchor_of_absolute (rest +:+ ".jpeg")) as (a & -> & Ha).
    exists a, (List.filter PyPath.is_part (PyStr.split_slash (String "/" (rest +:+ ".jpeg")))).
    unfold PyPath.joinpath. cbn [app]. by rewrite Ha. }
  split.
  - destruct (Hpath out) as (a & tl & Heq & Ha & _). by exists a, tl.
  - rewrite !process_image_run.
    destruct (Hpath out) as (_ & _ & _ & _ & ->).
    destruct (Hpath out') as (_ & _ & _ & _ & ->). done.
Qed.

End ScanEffects.

(** ** The output directory *)

Section Directory.
Context {np : Numpy} {e57lib : LibE57} {pil : Pillow}.

Lemma path_exists_same (w v : World) (p : Path) :
  dirs w = dirs v → files w = files v → path_exists w p = path_exists v p.
Proof. intros Hd Hf. unfold path_exists, is_dir, is_file. by rewrite Hd, Hf. Qed.

(** X13: for a path that does not exist and has no regular file above it,
    [create_directory_if_not_exist] reports the creation and makes the
    directory with every directory above it; files are as before and no
    directory is lost. *)
Theorem create_directory_makes_all_parents (p : Path) (w : World) :
  path_exists w p = false →
  existsb (is_file w) (PyPath.ancestors p) = false →
  ∃ w', create_directory_if_not_exist p w = (Ok (), w') ∧
        Forall (λ a, is_dir w' a = true) (PyPath.ancestors p) ∧
        is_dir w' p = true ∧
        files w' = files w ∧ dirs w ⊆ dirs w' ∧
        stdout w' = stdout w ++ ["Creating directory: " +:+ PyPath.to_str p].
Proof.
  intros Hex Hclear. unfold create_directory_if_not_exist. rewrite Hex. simpl.
  rewrite bind_print. unfold mkdir_parents.
  match goal with |- context [existsb ?f ?l] =>
    replace (existsb f l) with false end.
  eexists. split; [done|].
  assert (∀ a, a ∈ PyPath.ancestors p →
            is_dir (set_dirs (λ d, d ∪ list_to_set (PyPath.ancestors p))
                      (print ("Creating directory: " +:+ PyPath.to_str p) w).2) a
            = true) as Hanc.
  { intros a Ha. rewrite is_dir_set_dirs. apply orb_true_iff. right.
    by apply bool_decide_eq_true_2. }
  split; [by apply Forall_forall|]. split.
  - destruct p as [|x p']; [done|]. by apply Hanc, PyPathFacts.ancestors_self.
  - split; [done|]. split; [simpl; set_solver | done].
Qed.

(** X14: a regular file above the path stops the creation: the call has
    announced it, raises [NotADirectoryError] and creates nothing. *)
Theorem create_directory_blocked_by_file (p : Path) (w : World) :
  path_exists w p = false →
  existsb (is_file w) (PyPath.ancestors p) = true →
  create_directory_if_not_exist p w =
    (Raise (NotADirectoryError (PyPath.to_str p)),
     (print ("Creating directory: " +:+ PyPath.to_str p) w).2).
Proof.
  intros Hex Hblocked. unfold create_directory_if_not_exist. rewrite Hex. simpl.
  rewrite bind_print. unfold mkdir_parents.
  match goal with |- context [existsb ?f ?l] =>
    replace (existsb f l) with true end.
  apply path_exists_false in Hex as [_ Hfile].
  match goal with |- context [is_file ?x p] =>
    replace (is_file x p) with false end.
  done.
Qed.

(** X15: calling [create_directory_if_not_exist] again after it succeeded
    creates nothing: the second call only reports that the directory
    exists. *)
Theorem create_directory_idempotent (p : Path) (w w1 : World) :
  create_directory_if_not_exist p w = (Ok (), w1) →
  create_directory_if_not_exist p w1 =
    (Ok (), (print ("Directory already exists: " +:+ PyPath.to_str p) w1).2).
Proof.
  unfold create_directory_if_not_exist.
  destruct (path_exists w p) eqn:Hex; simpl.
  - intros [= <-].
    match goal with |- context [path_exists ?x p] =>
      rewrite (path_exists_same x w p) by done end.
    by rewrite Hex.
  - rewrite bind_print. unfold mkdir_parents.
    destruct (existsb _ _); [done|]. intros [= <-].
    assert (p ≠ []) as Hp by (intros ->; done).
    match goal with |- context [path_exists ?x p] =>
      replace (path_exists x p) with true; [done|] end.
    symmetry. unfold path_exists. apply orb_true_iff. left.
    rewrite is_dir_set_dirs. apply orb_true_iff. right.
    by apply bool_decide_eq_true_2, PyPathFacts.ancestors_self.
Qed.

(** X16: a regular file where the output directory should be is taken for
    the directory: the run reports that the directory exists, fails with
    [NotADirectoryError] when it creates the ledger, and processes no
    entry. *)
Theorem output_path_is_a_regular_file (first : string) (rest : list string)
    (w : World) :
  let out := output_path_of (first :: rest) in
  let coords := coords_file_path_of out in
  is_file w out = true → is_dir w out = false →
  path_exists w coords = false →
  extract_spherical_images (first :: rest) w =
    (Raise (NotADirectoryError (PyPath.to_str coords)),
     (print ("Creating coords file: " +:+ PyPath.to_str coords)
        (print ("Directory already exists: " +:+ PyPath.to_str out) w).2).2).
Proof.
  intros out coords Hfile Hdir Hcoords.
  set (w1 := (print ("Directory already exists: " +:+ PyPath.to_str out) w).2).
  assert (create_directory_if_not_exist out w = (Ok (), w1)) as Hcreate.
  { unfold create_directory_if_not_exist, path_exists.
    by rewrite Hfile, orb_true_r. }
  assert (PyPath.parent coords = out) as Hparent
    by (unfold coords; rewrite coords_file_path_of_snoc;
        by apply PyPathFacts.parent_snoc).
  assert (write_file coords coords_header
            (print ("Creating coords file: " +:+ PyPath.to_str coords) w1).2
          = (Raise (NotADirectoryError (PyPath.to_str coords)),
             (print ("Creating coords file: " +:+ PyPath.to_str coords) w1).2))
    as Hwrite.
  { unfold write_file, open_check. rewrite Hparent.
    apply path_exists_false in Hcoords as [Hcd _].
    rewrite (is_dir_dirs _ w coords), Hcd by done.
    rewrite (is_dir_dirs _ w out), Hdir by done.
    assert (is_file (print ("Creating coords file: " +:+ PyPath.to_str coords) w1).2 out
            = is_file w out) as -> by done.
    by rewrite Hfile. }
  unfold extract_spherical_images. rewrite bind_run.
  unfold prepare_output. fold out. fold coords.
  rewrite bind_run, Hcreate. rewrite bind_run.
  rewrite (path_exists_same w1 w coords) by done. rewrite Hcoords.
  cbn [negb]. rewrite bind_print, Hwrite. done.
Qed.

End Directory.

(** ** The whole run *)

Section WholeRun.
Context {np : Numpy} {e57lib : LibE57} {pil : Pillow}.

Lemma keeps_inputs_safe_same {A} (m : M A) :
  (∀ w, dirs (m w).2 = dirs w ∧ files (m w).2 = files w) →
  keeps inputs_safe m.
Proof.
  intros Hsame w. destruct (Hsame w) as [Hd Hf].
  split; [by rewrite Hd|]. split; intros p; by rewrite Hf.
Qed.

Lemma keeps_inputs_safe_write (p : Path) (data : string) :
  ¬ is_input_path p → keeps inputs_safe (write_file p data).
Proof.
  intros Hp w. unfold write_file. destruct (open_check w p); [|done].
  split; [done|]. split; simpl.
  - intros q Hq. destruct (decide (p = q)) as [->|Hne].
    + by rewrite lookup_insert_eq.
    + by rewrite lookup_insert_ne.
  - intros q Hq. rewrite lookup_insert_ne; [done | by intros ->].
Qed.

Lemma keeps_inputs_safe_append (p : Path) (data : string) :
  ¬ is_input_path p → keeps inputs_safe (append_file p data).
Proof.
  intros Hp w. unfold append_file. destruct (open_check w p); [|done].
  split; [done|]. split; simpl.
  - intros q Hq. destruct (decide (p = q)) as [->|Hne].
    + by rewrite lookup_insert_eq.
    + by rewrite lookup_insert_ne.
  - intros q Hq. rewrite lookup_insert_ne; [done | by intros ->].
Qed.

Lemma keeps_inputs_safe_mkdir (p : Path) : keeps inputs_safe (mkdir_parents p).
Proof.
  intros w. unfold mkdir_parents. destruct (existsb _ _); [done|].
  split; [simpl; set_solver | done].
Qed.

Lemma keeps_inputs_safe_create (p : Path) :
  keeps inputs_safe (create_directory_if_not_exist p).
Proof.
  intros w. unfold create_directory_if_not_exist.
  destruct (path_exists w p); simpl; [done|].
  rewrite bind_print.
  etrans; [|apply keeps_inputs_safe_mkdir]. done.
Qed.

Section Loop.
Variable coords : Path.
Hypothesis coords_name : List.last coords "" = "coords.csv".

Lemma keeps_inputs_safe_process_image (sr : Node) (name : string) (out : Path) :
  keeps inputs_safe (process_image sr name out).
Proof.
  intros w. destruct (process_image_world sr name out w) as [->|[data ->]]; [done|].
  split; [done|]. split; simpl.
  - intros q Hq. destruct (decide (image_path_of out name = q)) as [->|Hne].
    + by rewrite lookup_insert_eq.
    + by rewrite lookup_insert_ne.
  - intros q Hq. rewrite lookup_insert_ne; [done|].
    intros <-. by apply (image_path_not_input out name).
Qed.

Lemma keeps_inputs_safe_process_scan (e57_file : E57File Node)
    (idx : gmap string Node) (out : Path) (i : nat) :
  keeps inputs_safe (process_scan e57_file idx out coords i).
Proof.
  unfold process_scan. apply keeps_bind; [apply _ | apply keeps_lift, _|].
  intros h. unfold process_scan_header.
  destruct (idx !! guid h) as [sr|]; [|apply keeps_ret, _].
  destruct (node_bool sr); [|apply keeps_ret, _].
  apply keeps_bind; [apply _ | apply keeps_inputs_safe_process_image|].
  intros [fn fp]. apply keeps_inputs_safe_append.
  by apply coords_not_input.
Qed.

Lemma keeps_inputs_safe_process_e57_file (file_path : string) (out : Path)
    (cp : nat) :
  keeps inputs_safe (process_e57_file file_path out coords cp).
Proof.
  unfold process_e57_file.
  apply keeps_bind; [apply _ | by apply keeps_inputs_safe_same|].
  intros [|]; simpl.
  - apply keeps_bind; [apply _ | |].
    { apply keeps_inputs_safe_same. intros w. unfold E57.
      by destruct (files w !! _). }
    intros e57_file. apply keeps_bind; [apply _ | apply keeps_lift, _|].
    intros idx. apply keeps_bind; [apply _ | |].
    { apply keeps_for_each; [apply _|]. intros i.
      apply keeps_inputs_safe_process_scan. }
    intros _. apply keeps_bind; [apply _ | by apply keeps_inputs_safe_same|].
    intros _. apply keeps_ret, _.
  - apply keeps_bind; [apply _ | by apply keeps_inputs_safe_same|].
    intros _. by apply keeps_inputs_safe_same.
Qed.

Lemma keeps_inputs_safe_process_files (file_paths : list string) (out : Path)
    (cp : nat) :
  keeps inputs_safe (process_files file_paths out coords cp).
Proof.
  revert cp. induction file_paths as [|file_path rest IH]; intros cp; simpl.
  - apply keeps_ret, _.
  - destruct (PyStr.endswith file_path ".e57"); simpl.
    + apply keeps_bind; [apply _ | apply keeps_inputs_safe_process_e57_file|].
      intros cp'. apply IH.
    + apply keeps_bind; [apply _ | by apply keeps_inputs_safe_same|].
      intros _. apply IH.
Qed.

End Loop.

Lemma keeps_inputs_safe_prepare_output (file_paths : list string) :
  keeps inputs_safe (prepare_output file_paths).
Proof.
  unfold prepare_output.
  apply keeps_bind; [apply _ | apply keeps_inputs_safe_create|]. intros _.
  apply keeps_bind; [apply _ | |].
  { intros w0. destruct (path_exists w0 _); simpl; [done|].
    rewrite bind_print.
    etrans; [|apply keeps_inputs_safe_write]; [done|].
    apply coords_not_input, coords_file_path_last. }
  intros _. apply keeps_bind; [apply _ | by apply keeps_inputs_safe_same|].
  intros _. apply keeps_ret, _.
Qed.

(** What a successful preparation returns and shows. *)
Lemma prepare_output_result (file_paths : list string) (out coords : Path)
    (w w0 : World) :
  prepare_output file_paths w = (Ok (out, coords), w0) →
  out = output_path_of file_paths ∧ coords = coords_file_path_of out ∧
  progress_maximum w0 = length file_paths ∧
  progress_value w0 = progress_value w.
Proof.
  unfold prepare_output. rewrite bind_run.
  assert (∀ v, progress_value (create_directory_if_not_exist
                                 (output_path_of file_paths) v).2
               = progress_value v) as Hcreate.
  { intros v. unfold create_directory_if_not_exist.
    destruct (path_exists v _); simpl; [done|].
    rewrite bind_print. unfold mkdir_parents. by destruct (existsb _ _). }
  specialize (Hcreate w).
  destruct (create_directory_if_not_exist _ w) as [[[]|] w1]; [|done].
  simpl in Hcreate. rewrite bind_run.
  destruct (path_exists w1 _); simpl.
  - intros [= <- <- <-]. by repeat split.
  - rewrite bind_print. unfold write_file.
    destruct (open_check _ _); [|done].
    intros [= <- <- <-]. by repeat split.
Qed.

(** X17: a run never harms what it reads or what was there: whatever the
    list and however the run ends, every directory and every file of the
    world before is still there, and every file whose name ends in [.e57]
    holds what it held. *)
Theorem run_keeps_inputs (file_paths : list string) (w : World) :
  dirs w ⊆ dirs (extract_spherical_images file_paths w).2 ∧
  (∀ p, is_Some (files w !! p) →
        is_Some (files (extract_spherical_images file_paths w).2 !! p)) ∧
  (∀ p, PyStr.endswith (List.last p "") ".e57" = true →
        files (extract_spherical_images file_paths w).2 !! p = files w !! p).
Proof.
  change (inputs_safe w (extract_spherical_images file_paths w).2).
  unfold extract_spherical_images. destruct file_paths as [|first rest]; [done|].
  set (file_paths := first :: rest). rewrite bind_run.
  pose proof (keeps_inputs_safe_prepare_output file_paths w) as Hprep.
  destruct (prepare_output file_paths w) as [[[out coords]|e] w0] eqn:Hrun;
    [|exact Hprep].
  destruct (prepare_output_result _ _ _ _ _ Hrun) as (-> & -> & _).
  etrans; [exact Hprep|].
  apply keeps_inputs_safe_process_files, coords_file_path_last.
Qed.

Lemma process_e57_file_ok_progress (file_path : string) (out coords : Path)
    (cp cp' : nat) (w w' : World) :
  process_e57_file file_path out coords cp w = (Ok cp', w') →
  cp' = cp + 1 ∧ progress_value w' = cp + 1 ∧
  progress_maximum w' = progress_maximum w.
Proof.
  unfold process_e57_file. rewrite bind_run. simpl.
  destruct (path_exists w _); simpl; [|done].
  rewrite bind_run. unfold E57 at 1.
  destruct (files w !! _) as [data|]; [|done].
  destruct (E57_parse data) as [e57_file|]; [|done].
  rewrite bind_run, lift_run.
  destruct (extract_spherical_representations e57_file) as [idx|]; [|done].
  rewrite bind_run.
  pose proof (keeps_for_each only_files
                (process_scan e57_file idx out coords)
                (seq 0 (scan_count e57_file))
                (keeps_only_files_process_scan e57_file idx out coords) w)
    as (_ & _ & Hmax & _).
  destruct (for_each _ _ w) as [[[]|] w1]; simpl in *; [|done].
  by intros [= <- <-].
Qed.

Lemma process_files_ok_progress (file_paths : list string) (out coords : Path)
    (cp : nat) (w w' : World) :
  process_files file_paths out coords cp w = (Ok (), w') →
  progress_maximum w' = progress_maximum w ∧
  progress_value w' =
    match e57_count file_paths with
    | 0 => progress_value w
    | S _ => cp + e57_count file_paths
    end.
Proof.
  revert cp w. induction file_paths as [|p rest IH]; intros cp w Hrun.
  - simpl in Hrun. by injection Hrun as <-.
  - cbn [process_files] in Hrun. unfold e57_count. cbn [List.filter].
    destruct (PyStr.endswith p ".e57"); simpl in Hrun.
    + rewrite bind_run in Hrun.
      destruct (process_e57_file p out coords cp w) as [[cp'|] w1] eqn:Hp; [|done].
      apply process_e57_file_ok_progress in Hp as (-> & Hval & Hmax).
      destruct (IH _ _ Hrun) as [Hmax' Hval'].
      split; [congruence|]. rewrite Hval'. simpl.
      change (length (List.filter (λ p0, PyStr.endswith p0 ".e57") rest))
        with (e57_count rest).
      destruct (e57_count rest); lia.
    + rewrite bind_print in Hrun. by destruct (IH _ _ Hrun).
Qed.

Lemma e57_count_full (l : list string) :
  e57_count l ≤ length l ∧
  (e57_count l = length l ↔ Forall (λ p, PyStr.endswith p ".e57" = true) l).
Proof.
  unfold e57_count. induction l as [|p l [IHle IH]]; [by split|].
  cbn [List.filter]. destruct (PyStr.endswith p ".e57") eqn:Hp; cbn [length].
  - split; [lia|]. rewrite Forall_cons. split.
    + intros Heq. split; [done|]. apply IH. lia.
    + intros [_ Hall]. apply IH in Hall. lia.
  - split; [lia|]. rewrite Forall_cons. split; [lia|].
    intros [Hp' _]. congruence.
Qed.

(** X18: after a run that completes, the progress bar's maximum is the
    length of the list, skipped entries included, and its value is the
    number of entries that end in [.e57]; a list without such entries
    leaves the value where it was.  When at least one entry ends in
    [.e57], the bar is full at the end exactly when no entry was skipped. *)
Theorem progress_after_complete_run (first : string) (rest : list string)
    (w w' : World) :
  extract_spherical_images (first :: rest) w = (Ok (), w') →
  progress_maximum w' = length (first :: rest) ∧
  progress_value w' =
    match e57_count (first :: rest) with
    | 0 => progress_value w
    | S n => S n
    end ∧
  (0 < e57_count (first :: rest) →
   progress_value w' ≤ progress_maximum w' ∧
   (progress_value w' = progress_maximum w' ↔
    Forall (λ p, PyStr.endswith p ".e57" = true) (first :: rest))).
Proof.
  unfold extract_spherical_images. rewrite bind_run.
  destruct (prepare_output (first :: rest) w) as [[[out coords]|e] w0] eqn:Hprep;
    [|done].
  destruct (prepare_output_result _ _ _ _ _ Hprep) as (_ & _ & Hmax & Hval).
  intros Hrun. destruct (process_files_ok_progress _ _ _ _ _ _ Hrun) as [Hmax' Hval'].
  destruct (e57_count_full (first :: rest)) as [Hle Hfull].
  assert (progress_maximum w' = length (first :: rest)) as Hmaximum by congruence.
  split; [done|]. split.
  - rewrite Hval', Hval. by destruct (e57_count (first :: rest)).
  - intros Hpos. rewrite Hmaximum, Hval', <- Hfull.
    destruct (e57_count (first :: rest)); [lia|].
    change (0 + S n) with (S n). split; [exact Hle | done].
Qed.

(** X19: the loop over a list in two parts is the loop over the first part
    followed, when that part completes, by the loop over the second part
    with the counter advanced by the [.e57] entries of the first; an error
    in the first part is the result, and the second part is not looked
    at. *)
Theorem process_files_in_two_parts (before rest : list string) (out coords : Path)
    (cp : nat) (w : World) :
  process_files (before ++ rest) out coords cp w =
    match process_files before out coords cp w with
    | (Ok _, w1) => process_files rest out coords (cp + e57_count before) w1
    | (Raise e, w1) => (Raise e, w1)
    end.
Proof.
  destruct (process_files before out coords cp w) as [[[]|e] w1] eqn:Hbefore.
  - by apply process_files_app.
  - revert cp w Hbefore. induction before as [|p before IH]; intros cp w Hrun.
    + done.
    + cbn [app process_files] in *.
      destruct (PyStr.endswith p ".e57"); simpl in *.
      * rewrite bind_run in *.
        destruct (process_e57_file p out coords cp w) as [[cp'|] w'] eqn:Hp;
          [by apply IH | done].
      * rewrite bind_print in *. by apply IH.
Qed.

End WholeRun.

(** ** The window *)


Section WindowFacts.
Context {np : Numpy} {e57lib : LibE57} {pil : Pillow}.
Import PyText PyTextFacts.

Lemma parse_paths_clean (paths_str : string) :
  parse_paths paths_str = clean <$> split "," (strip "[]" paths_str).
Proof. reflexivity. Qed.

Lemma edge_sets (c : ascii) :
  char_in c " '()" = false →
  char_in c " '" = false ∧ char_in c "('" = false ∧ char_in c "')" = false.
Proof.
  rewrite !char_in_cons.
  destruct (Ascii.eqb c " "), (Ascii.eqb c "'"), (Ascii.eqb c "("),
    (Ascii.eqb c ")"); simpl; try done.
Qed.

Lemma strip_core (chars b : string) :
  core b →
  (∀ c, char_in c " '()" = false → char_in c chars = false) →
  strip chars b = b.
Proof.
  intros (Hne & Hfinal & c & b' & -> & Hc) Hsub. unfold strip.
  rewrite lstrip_stop by by apply Hsub.
  apply rstrip_stop; [done | by apply Hsub].
Qed.

Lemma clean_core (b : string) : core b → clean b = b.
Proof.
  intros Hb. unfold clean.
  rewrite !(strip_core _ b Hb); [done|..]; intros c Hc;
    by destruct (edge_sets c Hc) as (? & ? & ?).
Qed.

Lemma core_final (b : string) (chars : string) :
  core b → (∀ c, char_in c " '()" = false → char_in c chars = false) →
  char_in (PyStr.final b) chars = false.
Proof. intros (_ & Hfinal & _) Hsub. by apply Hsub. Qed.

(** The pieces a tuple's text falls into, around a core. *)
Lemma clean_first (b : string) : core b → clean ("(" +:+ b) = b.
Proof.
  intros Hb. pose proof Hb as (Hne & Hfinal & c & b' & Heq & Hc).
  destruct (edge_sets _ Hc) as (Hc1 & Hc2 & Hc3).
  destruct (edge_sets _ Hfinal) as (Hf1 & Hf2 & Hf3).
  rewrite <- (clean_core b Hb) at 2. unfold clean. f_equal.
  assert (strip " '" ("(" +:+ b) = "(" +:+ b) as ->.
  { unfold strip. rewrite PyStrFacts.append_cons, PyStrFacts.append_nil_l.
    rewrite lstrip_stop by done. apply rstrip_stop; [done|].
    change (String "(" b) with ("(" +:+ b).
    by rewrite PyStrFacts.final_append. }
  rewrite (strip_core " '" b Hb) by (intros d Hd; by destruct (edge_sets d Hd) as (?&?&?)).
  unfold strip. rewrite PyStrFacts.append_cons, PyStrFacts.append_nil_l.
  by rewrite lstrip_skip by done.
Qed.

Lemma clean_middle (b : string) : core b → clean (" " +:+ b) = b.
Proof.
  intros Hb. rewrite <- (clean_core b Hb) at 2. reflexivity.
Qed.

Lemma clean_last (b : string) : core b → clean (" " +:+ b +:+ ")") = b.
Proof.
  intros Hb. pose proof Hb as (Hne & Hfinal & c & b' & Heq & Hc).
  destruct (edge_sets _ Hc) as (Hc1 & Hc2 & Hc3).
  destruct (edge_sets _ Hfinal) as (Hf1 & Hf2 & Hf3).
  unfold clean.
  assert (strip " '" (" " +:+ b +:+ ")") = b +:+ ")") as ->.
  { unfold strip. rewrite PyStrFacts.append_cons, PyStrFacts.append_nil_l.
    rewrite lstrip_skip by done. rewrite Heq at 1.
    rewrite PyStrFacts.append_cons, lstrip_stop by done.
    rewrite <- PyStrFacts.append_cons, <- Heq.
    apply rstrip_stop; [apply snoc_nonempty | by rewrite final_snoc]. }
  assert (strip "('" (b +:+ ")") = b +:+ ")") as ->.
  { unfold strip. rewrite Heq at 1.
    rewrite PyStrFacts.append_cons, lstrip_stop by done.
    rewrite <- PyStrFacts.append_cons, <- Heq.
    apply rstrip_stop; [apply snoc_nonempty | by rewrite final_snoc]. }
  unfold strip. rewrite Heq at 1.
  rewrite PyStrFacts.append_cons, lstrip_stop by done.
  rewrite <- PyStrFacts.append_cons, <- Heq.
  rewrite rstrip_snoc_in by done. by apply rstrip_stop.
Qed.

Lemma ordinary_char_facts (c : ascii) :
  ordinary_char c = true →
  Ascii.eqb c "," = false ∧ Ascii.eqb c backslash = false ∧
  Ascii.eqb c dquote = false ∧ 32 ≤ Ascii.nat_of_ascii c ∧
  Ascii.nat_of_ascii c ≠ 127.
Proof.
  unfold ordinary_char.
  intros ((((H1 & H2)%andb_true_iff & H3)%andb_true_iff
           & H4)%andb_true_iff & H5)%andb_true_iff.
  apply negb_true_iff in H1, H2, H3, H4.
  apply Nat.ltb_ge in H4. apply Nat.ltb_lt in H5. repeat split; try done. lia.
Qed.

Lemma ordinary_cons (c : ascii) (p : string) :
  ordinary (String c p) = ordinary_char c && ordinary p.
Proof. reflexivity. Qed.

Lemma ordinary_char_in (p : string) :
  ordinary p = true →
  char_in "," p = false ∧ char_in dquote p = false ∧ char_in backslash p = false.
Proof.
  induction p as [|c p IH]; [done|]. rewrite ordinary_cons.
  intros [Hc Hp]%andb_true_iff.
  destruct (ordinary_char_facts c Hc) as (H1 & H2 & H3 & _).
  destruct (IH Hp) as (I1 & I2 & I3).
  rewrite !char_in_cons, I1, I2, I3.
  rewrite (Ascii.eqb_sym "," c), (Ascii.eqb_sym dquote c),
    (Ascii.eqb_sym backslash c). by rewrite H1, H2, H3.
Qed.

Lemma repr_char_ordinary (quote c : ascii) :
  ordinary_char c = true → Ascii.eqb c quote = false →
  repr_char quote c = String c "".
Proof.
  intros Hc Hq. destruct (ordinary_char_facts c Hc) as (_ & H2 & _ & H4 & H5).
  unfold repr_char. rewrite Hq, H2. simpl.
  destruct (Nat.eqb_spec (Ascii.nat_of_ascii c) 9); [lia|].
  destruct (Nat.eqb_spec (Ascii.nat_of_ascii c) 10); [lia|].
  destruct (Nat.eqb_spec (Ascii.nat_of_ascii c) 13); [lia|].
  destruct (Nat.ltb_spec (Ascii.nat_of_ascii c) 32); [lia|].
  destruct (Nat.eqb_spec (Ascii.nat_of_ascii c) 127); [lia|]. done.
Qed.

Lemma repr_body_ordinary (quote : ascii) (p : string) :
  ordinary p = true → char_in quote p = false → repr_body quote p = p.
Proof.
  induction p as [|c p IH]; [done|]. rewrite ordinary_cons, char_in_cons.
  intros [Hc Hp]%andb_true_iff [Hq Hin]%orb_false_iff.
  cbn [repr_body]. rewrite repr_char_ordinary, IH; try done.
  by rewrite Ascii.eqb_sym.
Qed.

(** The text of an ordinary path: the path between two quotes, double
    ones when it has an apostrophe. *)
Lemma repr_ordinary (p : string) :
  ordinary p = true →
  repr p = if char_in squote p then String dquote (p +:+ String dquote "")
           else String squote (p +:+ String squote "").
Proof.
  intros Hp. destruct (ordinary_char_in p Hp) as (_ & Hd & _).
  unfold repr. rewrite Hd. simpl.
  destruct (char_in squote p) eqn:Hs; simpl; by rewrite repr_body_ordinary.
Qed.

Lemma repr_no_comma (p : string) :
  ordinary p = true → char_in "," (repr p) = false.
Proof.
  intros Hp. destruct (ordinary_char_in p Hp) as (Hc & _ & _).
  rewrite (repr_ordinary p Hp).
  destruct (char_in squote p); rewrite char_in_cons, char_in_app, Hc; done.
Qed.

Lemma core_quoted (p : string) :
  core (String dquote (p +:+ String dquote "")).
Proof.
  split; [done|]. split.
  - change (String dquote (p +:+ String dquote ""))
      with (String dquote "" +:+ (p +:+ String dquote "")).
    rewrite PyStrFacts.final_append by apply snoc_nonempty.
    by rewrite final_snoc.
  - by eexists _, _.
Qed.

Lemma core_plain (c : ascii) (p : string) :
  edge_char c = true → edge_char (PyStr.final (String c p)) = true →
  core (String c p).
Proof.
  unfold edge_char. intros Hc%negb_true_iff Hf%negb_true_iff.
  split; [done|]. split; [done|]. by eexists _, _.
Qed.

Lemma clean_quoted_first (b : string) : core b → clean ("('" +:+ b +:+ "'") = b.
Proof.
  intros Hb. pose proof Hb as (Hne & Hfinal & c & b' & Heq & Hc).
  destruct (edge_sets _ Hc) as (Hc1 & Hc2 & Hc3).
  destruct (edge_sets _ Hfinal) as (Hf1 & Hf2 & Hf3).
  rewrite <- (clean_core b Hb) at 2. unfold clean. f_equal.
  rewrite (strip_core " '" b Hb) by (intros d Hd; by destruct (edge_sets d Hd) as (?&?&?)).
  assert (strip " '" ("('" +:+ b +:+ "'") = "('" +:+ b) as ->.
  { unfold strip.
    change ("('" +:+ b +:+ "'") with (String "(" (String "'" (b +:+ "'"))).
    rewrite lstrip_stop by done.
    change (String "(" (String "'" (b +:+ "'")))
      with (("('" +:+ b) +:+ String "'" "").
    rewrite rstrip_snoc_in by done.
    apply rstrip_stop; [done|]. by rewrite PyStrFacts.final_append. }
  unfold strip.
  change ("('" +:+ b) with (String "(" (String "'" b)).
  by rewrite !lstrip_skip by done.
Qed.

Lemma clean_quoted_middle (b : string) : core b → clean (" '" +:+ b +:+ "'") = b.
Proof.
  intros Hb. pose proof Hb as (Hne & Hfinal & c & b' & Heq & Hc).
  destruct (edge_sets _ Hc) as (Hc1 & Hc2 & Hc3).
  destruct (edge_sets _ Hfinal) as (Hf1 & Hf2 & Hf3).
  rewrite <- (clean_core b Hb) at 2. unfold clean. do 2 f_equal.
  rewrite (strip_core " '" b Hb) by (intros d Hd; by destruct (edge_sets d Hd) as (?&?&?)).
  unfold strip.
  change (" '" +:+ b +:+ "'") with (String " " (String "'" (b +:+ "'"))).
  rewrite !lstrip_skip by done.
  rewrite Heq at 1. rewrite PyStrFacts.append_cons, lstrip_stop by done.
  rewrite <- PyStrFacts.append_cons, <- Heq.
  change (b +:+ "'") with (b +:+ String "'" "").
  rewrite rstrip_snoc_in by done. by apply rstrip_stop.
Qed.

Lemma clean_quoted_last (b : string) : core b → clean (" '" +:+ b +:+ "')") = b.
Proof.
  intros Hb. pose proof Hb as (Hne & Hfinal & c & b' & Heq & Hc).
  destruct (edge_sets _ Hc) as (Hc1 & Hc2 & Hc3).
  destruct (edge_sets _ Hfinal) as (Hf1 & Hf2 & Hf3).
  unfold clean.
  assert (strip " '" (" '" +:+ b +:+ "')") = b +:+ "')") as ->.
  { unfold strip.
    change (" '" +:+ b +:+ "')") with (String " " (String "'" (b +:+ "')"))).
    rewrite !lstrip_skip by done.
    rewrite Heq at 1. rewrite PyStrFacts.append_cons, lstrip_stop by done.
    rewrite <- PyStrFacts.append_cons, <- Heq.
    apply rstrip_stop; [by destruct b|].
    by rewrite PyStrFacts.final_append. }
  assert (strip "('" (b +:+ "')") = b +:+ "')") as ->.
  { unfold strip. rewrite Heq at 1.
    rewrite PyStrFacts.append_cons, lstrip_stop by done.
    rewrite <- PyStrFacts.append_cons, <- Heq.
    apply rstrip_stop; [by destruct b|].
    by rewrite PyStrFacts.final_append. }
  unfold strip. rewrite Heq at 1.
  rewrite PyStrFacts.append_cons, lstrip_stop by done.
  rewrite <- PyStrFacts.append_cons, <- Heq.
  replace (b +:+ "')") with ((b +:+ String "'" "") +:+ String ")" "")
    by (by rewrite PyStrFacts.append_assoc).
  rewrite !rstrip_snoc_in by done. by apply rstrip_stop.
Qed.

(** The three places a path's text can stand in a tuple's text. *)
Lemma piece_clean (p : string) :
  selectable p = true →
  clean ("(" +:+ repr p) = came_back p ∧
  clean (" " +:+ repr p) = came_back p ∧
  clean (" " +:+ repr p +:+ ")") = came_back p.
Proof.
  unfold selectable, came_back. intros [Hord Hcases]%andb_true_iff.
  rewrite (repr_ordinary p Hord).
  destruct (char_in squote p) eqn:Hs.
  - pose proof (core_quoted p) as Hcore.
    by rewrite clean_first, clean_middle, clean_last.
  - simpl in Hcases. destruct p as [|c p]; [done|].
    apply andb_true_iff in Hcases as [Hc Hf].
    pose proof (core_plain c p Hc Hf) as Hcore.
    split; [|split].
    + rewrite <- (clean_quoted_first _ Hcore) at 2. reflexivity.
    + rewrite <- (clean_quoted_middle _ Hcore) at 2. reflexivity.
    + rewrite <- (clean_quoted_last _ Hcore) at 2. f_equal.
      change (" '" +:+ String c p +:+ "')")
        with (" " +:+ String squote (String c p +:+ "')")).
      f_equal. rewrite (PyStrFacts.append_cons squote). f_equal.
      by rewrite PyStrFacts.append_assoc.
Qed.

Lemma selectable_ordinary (p : string) : selectable p = true → ordinary p = true.
Proof. unfold selectable. by intros [? _]%andb_true_iff. Qed.

Lemma came_back_plain (p : string) : char_in squote p = false → came_back p = p.
Proof. unfold came_back. by intros ->. Qed.

(** [strip("[]")] finds nothing to take off a tuple's text. *)
Lemma strip_brackets (s : string) :
  PyStr.final (String "(" s) = ")"%char → strip "[]" (String "(" s) = String "(" s.
Proof.
  intros Hfinal. unfold strip. rewrite lstrip_stop by done.
  apply rstrip_stop; [done | by rewrite Hfinal].
Qed.

(** The pieces after the first comma of the text of a tuple of two or more
    paths. *)
Lemma split_tail (q : string) (rest : list string) :
  Forall (λ p, selectable p = true) (q :: rest) →
  clean <$> split "," (" " +:+ PyStr.join ", " (repr <$> q :: rest) +:+ ")")
  = came_back <$> q :: rest.
Proof.
  revert q. induction rest as [|r rest IH]; intros q Hall.
  - apply Forall_cons in Hall as [Hq _].
    rewrite !fmap_cons, !fmap_nil. cbn [PyStr.join].
    rewrite split_one.
    + rewrite fmap_cons, fmap_nil. by rewrite (proj2 (proj2 (piece_clean q Hq))).
    + rewrite !char_in_app, repr_no_comma by by apply selectable_ordinary. done.
  - apply Forall_cons in Hall as [Hq Hall].
    rewrite (fmap_cons repr), (fmap_cons came_back).
    assert (" " +:+ PyStr.join ", " (repr q :: (repr <$> r :: rest)) +:+ ")"
            = (" " +:+ repr q) +:+ String ","
                (" " +:+ PyStr.join ", " (repr <$> r :: rest) +:+ ")")) as ->.
    { rewrite (fmap_cons repr). cbn [PyStr.join].
      rewrite !PyStrFacts.append_assoc. reflexivity. }
    rewrite split_app.
    + rewrite fmap_cons, (IH r Hall).
      by rewrite (proj1 (proj2 (piece_clean q Hq))).
    + rewrite !char_in_app, repr_no_comma by by apply selectable_ordinary. done.
Qed.

(** The list [start_processing] reads back from the text of a tuple of two
    or more selectable paths. *)
Lemma parse_paths_tuple_str (l : list string) :
  2 ≤ length l → Forall (λ p, selectable p = true) l →
  parse_paths (tuple_str l) = came_back <$> l.
Proof.
  destruct l as [|p [|q rest]]; [simpl; lia | simpl; lia |]. intros _ Hall.
  apply Forall_cons in Hall as [Hp Hall].
  rewrite parse_paths_clean.
  assert (tuple_str (p :: q :: rest)
          = String "(" (repr p +:+ String ","
              (" " +:+ PyStr.join ", " (repr <$> q :: rest) +:+ ")"))) as ->.
  { change (tuple_str (p :: q :: rest))
      with (String "(" ((repr p +:+ ", " +:+ PyStr.join ", " (repr <$> q :: rest))
                          +:+ ")")).
    rewrite !PyStrFacts.append_assoc. reflexivity. }
  rewrite strip_brackets.
  - change (String "(" (repr p +:+ String ","
              (" " +:+ PyStr.join ", " (repr <$> q :: rest) +:+ ")")))
      with (("(" +:+ repr p) +:+ String ","
              (" " +:+ PyStr.join ", " (repr <$> q :: rest) +:+ ")")).
    rewrite split_app.
    + rewrite (fmap_cons clean), (fmap_cons came_back p), (proj1 (piece_clean p Hp)).
      by rewrite (split_tail q rest Hall).
    + rewrite !char_in_app, repr_no_comma by by apply selectable_ordinary. done.
  - change (String "(" (repr p +:+ String ","
              (" " +:+ PyStr.join ", " (repr <$> q :: rest) +:+ ")")))
      with (("(" +:+ repr p) +:+ String ","
              (" " +:+ PyStr.join ", " (repr <$> q :: rest) +:+ ")")).
    rewrite PyStrFacts.final_append by done.
    change (String "," (" " +:+ PyStr.join ", " (repr <$> q :: rest) +:+ ")"))
      with ((", " +:+ PyStr.join ", " (repr <$> q :: rest)) +:+ ")").
    by rewrite PyStrFacts.final_append.
Qed.

(** The text of a tuple of one path ends in a comma, after which [split]
    finds one more piece. *)
Lemma parse_paths_tuple_str_one (p : string) :
  selectable p = true → parse_paths (tuple_str [p]) = [came_back p; ""].
Proof.
  intros Hp. rewrite parse_paths_clean.
  change (tuple_str [p]) with (String "(" (repr p +:+ ",)")).
  rewrite strip_brackets.
  - change (String "(" (repr p +:+ ",)"))
      with (("(" +:+ repr p) +:+ String "," ")").
    rewrite split_app.
    + rewrite fmap_cons, (proj1 (piece_clean p Hp)). reflexivity.
    + rewrite !char_in_app, repr_no_comma by by apply selectable_ordinary. done.
  - change (String "(" (repr p +:+ ",)")) with (("(" +:+ repr p) +:+ ",)").
    by rewrite PyStrFacts.final_append.
Qed.

Lemma tuple_str_truthy (l : list string) : PyStr.truthy (tuple_str l) = true.
Proof. by destruct l as [|? [|? ?]]. Qed.

(** X20: two or more selected paths reach the batch as they were chosen,
    in the order of the selection, when each of them is selectable and has
    no apostrophe. *)
Theorem selection_round_trip (l : list string) :
  2 ≤ length l →
  Forall (λ p, selectable p = true ∧ char_in squote p = false) l →
  parse_paths (tuple_str l) = l.
Proof.
  intros Hlen Hall. rewrite parse_paths_tuple_str; [|done|].
  - clear Hlen. induction Hall as [|p l [_ Hp] _ IH]; [done|].
    by rewrite fmap_cons, IH, (came_back_plain p Hp).
  - eapply Forall_impl; [exact Hall|]. by intros p [? _].
Qed.

(** [split] never gives an empty list, and it splits a text that has a
    separator in two parts whose pieces it puts together. *)
Lemma split_nonempty (sep : ascii) (s : string) : split sep s ≠ [].
Proof.
  induction s as [|c s IH]; [done|]. cbn [split].
  destruct (Ascii.eqb c sep); [done|]. by destruct (split sep s).
Qed.

Lemma split_separator (sep : ascii) (a b : string) :
  split sep (a +:+ String sep b) = split sep a ++ split sep b.
Proof.
  induction a as [|c a IH].
  - rewrite PyStrFacts.append_nil_l. cbn [split]. by rewrite Ascii.eqb_refl.
  - rewrite PyStrFacts.append_cons. cbn [split]. rewrite IH.
    destruct (Ascii.eqb c sep); [done|].
    pose proof (split_nonempty sep a) as Hne.
    by destruct (split sep a).
Qed.

(** X21: among selected paths that are all selectable (printable ASCII
    without comma, backslash or double quote, and either with an
    apostrophe or with neither a space, an apostrophe nor a parenthesis at
    either end), a path with an apostrophe is read back between double
    quotes, so that it does not end in [.e57] and the loop over the files
    passes it over. *)
Theorem apostrophe_path_is_passed_over (l : list string) (i : nat) (p : string) :
  Forall (λ p, selectable p = true) l →
  l !! i = Some p → char_in squote p = true →
  ∃ read, parse_paths (tuple_str l) !! i = Some read ∧
    read = String dquote (p +:+ String dquote "") ∧
    PyStr.endswith read ".e57" = false.
Proof.
  intros Hall Hi Hp. eexists. split; [|split; [reflexivity|]].
  - destruct l as [|q [|q' l']]; [done| |].
    + destruct i; [|done]. injection Hi as ->.
      apply Forall_cons in Hall as [Hq _].
      rewrite parse_paths_tuple_str_one by done.
      simpl. unfold came_back. by rewrite Hp.
    + rewrite parse_paths_tuple_str by (simpl; lia || done).
      rewrite list_lookup_fmap, Hi. simpl. unfold came_back. by rewrite Hp.
  - destruct (PyStr.endswith _ ".e57") eqn:Hends; [|done].
    apply PyStrFacts.endswith_final in Hends; [|done].
    change (String dquote (p +:+ String dquote ""))
      with (String dquote "" +:+ (p +:+ String dquote "")) in Hends.
    rewrite PyStrFacts.final_append in Hends by apply snoc_nonempty.
    by rewrite final_snoc in Hends.
Qed.

(** X22: after a selection of one file, whatever its path, the list the
    batch is given ends with an empty path that was not selected; for a
    path without apostrophe that is selectable the list is the path
    followed by the empty path. *)
Theorem single_selection_adds_empty_path (p : string) :
  (∃ front, front ≠ [] ∧ parse_paths (tuple_str [p]) = front ++ [""]) ∧
  (selectable p = true → char_in squote p = false →
   parse_paths (tuple_str [p]) = [p; ""]).
Proof.
  split.
  - rewrite parse_paths_clean.
    change (tuple_str [p]) with (String "(" (repr p +:+ ",)")).
    rewrite strip_brackets.
    + change (String "(" (repr p +:+ ",)"))
        with (("(" +:+ repr p) +:+ String "," ")").
      rewrite split_separator, fmap_app.
      exists (clean <$> split "," ("(" +:+ repr p)). split; [|done].
      intros Hnil%fmap_nil_inv. by apply split_nonempty in Hnil.
    + change (String "(" (repr p +:+ ",)")) with (("(" +:+ repr p) +:+ ",)").
      by rewrite PyStrFacts.final_append.
  - intros Hsel Hp. by rewrite parse_paths_tuple_str_one, came_back_plain.
Qed.

(** X23: with two or more such paths selected, [start_processing] does to
    the file system what the batch does on the selected paths; the success
    message is shown and the label put back only when the batch returned,
    and after an exception the progress bar is left in the label's place
    and no message is shown. *)
Theorem window_runs_the_selection (l : list string) (g : Gui) (w : World) :
  2 ≤ length l →
  Forall (λ p, selectable p = true ∧ char_in squote p = false) l →
  let batch := extract_spherical_images l w in
  let '(r, g', w') := start_processing (select_files l g) w in
  w' = batch.2 ∧
  (is_ok r = is_ok batch.1) ∧
  selected_paths g' = tuple_str l ∧
  (if is_ok batch.1
   then dialogs g' = dialogs g ++ [ShowInfo "Success" "Processing complete!"]
        ∧ entry_packed g' = true ∧ progress_bar_packed g' = false
   else r = batch.1 ∧ dialogs g' = dialogs g
        ∧ entry_packed g' = false ∧ progress_bar_packed g' = true).
Proof.
  intros Hlen Hall.
  assert (parse_paths (tuple_str l) = l) as Hparse.
  { rewrite parse_paths_tuple_str; [|done|].
    - clear Hlen. induction Hall as [|p l' [_ Hp] _ IH]; [done|].
      by rewrite fmap_cons, IH, (came_back_plain p Hp).
    - eapply Forall_impl; [exact Hall|]. by intros p [? _]. }
  destruct l as [|p l']; [simpl in Hlen; lia|].
  unfold start_processing, select_files.
  cbn [selected_paths input_path entry_packed progress_bar_packed dialogs].
  rewrite tuple_str_truthy. cbn [negb]. rewrite Hparse.
  destruct (extract_spherical_images (p :: l') w) as [[u|e] w'']; simpl; done.
Qed.

End WindowFacts.

(** * Concrete runs

    The theorems above hold for every implementation of the three library
    interfaces; here they are applied to the sample instances. *)

Import Sample.


Lemma C3_last_write_wins_witness :
  extract_spherical_representations doc_duplicate
    = Ok ({[ "guid-A" := sample_payload_later ]} : gmap string DNode) ∧
  ({[ "guid-A" := sample_payload_later ]} : gmap string DNode) !! "guid-A"
    = Some sample_payload_later.
Proof.
  assert (extract_spherical_representations doc_duplicate
            = Ok ({[ "guid-A" := sample_payload_later ]} : gmap string DNode)) as Hidx
    by (vm_compute; reflexivity).
  split; [exact Hidx|].
  apply (C3_last_write_wins (e57lib:=libe57) doc_duplicate _
           [panorama [("jpegImage", jpeg_100x50)]
              [("associatedData3DGuid", StringNode "guid-A")]]
           []
           (panorama [("jpegImage", BlobNode "J22 later")]
              [("associatedData3DGuid", StructureNode []);
               ("rlms:scanposGuid", StringNode "guid-A")])
           "guid-A" sample_payload_later);
    [reflexivity | reflexivity | constructor | exact Hidx].
Defined.

Lemma C7_no_row_on_codec_failure_witness :
  let coords := coords_file_path_of sample_output_path in
  let w1 := (process_image (e57lib:=libe57) sample_payload_alpha "A"
               sample_output_path sample_rerun).2 in
  (process_scan (e57lib:=libe57) doc_alpha sample_index_alpha sample_output_path
      coords 0 sample_rerun
    = (Raise (OSError "cannot write mode RGBA as JPEG"), w1) ∧
   files w1 !! coords = files sample_rerun !! coords ∧
   for_each (process_scan (e57lib:=libe57) doc_alpha sample_index_alpha
               sample_output_path coords) [0; 1; 2] sample_rerun
     = (Raise (OSError "cannot write mode RGBA as JPEG"), w1)) ∧
  files sample_rerun !! ["scans"; "output"; "A.jpeg"] = Some "an earlier image" ∧
  files w1 !! ["scans"; "output"; "A.jpeg"] = Some "" ∧
  files w1 !! coords = Some header_row.
Proof.
  intros coords w1. split; [|repeat split; vm_compute; reflexivity].
  apply (C7_no_row_on_codec_failure (e57lib:=libe57) doc_alpha sample_index_alpha
           sample_output_path 0 [1; 2] header_A
           sample_payload_alpha sample_rerun w1
           (OSError "cannot write mode RGBA as JPEG"));
    [reflexivity | reflexivity | reflexivity | vm_compute; reflexivity].
Defined.

Lemma joined_scan_image_witness :
  ∃ resized data,
    Image_size (Pillow:=pillow) resized = (8192%N, 4096%N) ∧
    Image_encode resized "JPEG" 50 = Encoded data ∧
    files (process_scan_header (e57lib:=libe57) sample_index sample_output_path
             sample_coords_path header_A sample_prepared).2
        !! ["scans"; "output"; "A.jpeg"]
      = Some data.
Proof.
  destruct (joined_scan_image (e57lib:=libe57) sample_index sample_output_path header_A
              sample_payload_A sample_prepared
              (process_scan_header (e57lib:=libe57) sample_index sample_output_path
                 sample_coords_path header_A sample_prepared).2)
    as (ref & buf & img & resized & data & _ & _ & _ & _ & Hsize & Henc & Hfile & _);
    [reflexivity | reflexivity | vm_compute; reflexivity|].
  exists resized, data. repeat split; assumption.
Defined.

Lemma C2_one_row_per_joined_header_witness :
  ∃ w',
    process_e57_file (e57lib:=libe57) "scans/site.e57" sample_output_path
        sample_coords_path 0 sample_prepared = (Ok 1, w') ∧
    files w' !! sample_coords_path = Some (header_row +:+ sample_row_A) ∧
    line_count sample_row_A = 1.
Proof.
  destruct (C2_one_row_per_joined_header (e57lib:=libe57) "scans/site.e57" "two scans"
              sample_output_path 0 sample_prepared doc_two_scans sample_index
              [header_A; header_B])
    as (w' & Hrun & Hledger & Hlines & _);
    [vm_compute; reflexivity | reflexivity | vm_compute; reflexivity | reflexivity | |
     | vm_compute; reflexivity |].
  - intros [|[|i]] h Hh; vm_compute in Hh; [| |discriminate Hh];
      injection Hh as <-; reflexivity.
  - intros h sr Hin Hidx.
    apply list_elem_of_In in Hin. simpl in Hin.
    destruct Hin as [<-|[<-|[]]].
    + vm_compute in Hidx. injection Hidx as <-. split; vm_compute; reflexivity.
    + vm_compute in Hidx. discriminate Hidx.
  - exists w'. split; [exact Hrun|]. split.
    + change (coords_file_path_of sample_output_path) with sample_coords_path in Hledger.
      rewrite Hledger. vm_compute. reflexivity.
    + vm_compute. reflexivity.
Defined.

Lemma C4_header_written_once_witness :
  let file_paths := ["scans/site.e57"; "scans/notes.txt"] in
  let w1 := (extract_spherical_images file_paths world0).2 in
  let w2 := (extract_spherical_images file_paths w1).2 in
  (∃ rows,
     files w1 !! sample_coords_path = Some (concat_rows (header_row :: rows)) ∧
     files w2 !! sample_coords_path = Some (concat_rows (header_row :: rows ++ rows))) ∧
  files world0 !! sample_coords_path = None ∧
  files w1 !! sample_coords_path = Some (header_row +:+ sample_row_A) ∧
  files w2 !! sample_coords_path
    = Some (header_row +:+ sample_row_A +:+ sample_row_A).
Proof.
  intros file_paths w1 w2. split.
  - destruct (C4_header_written_once (e57lib:=libe57) "scans/site.e57"
                ["scans/notes.txt"] world0)
      as (_ & _ & rows & _ & _ & H1 & H2 & _);
      [vm_compute; reflexivity | vm_compute; reflexivity |].
    exists rows. split; [exact H1 | exact H2].
  - repeat split; vm_compute; reflexivity.
Defined.

Lemma C8_missing_input_aborts_witness :
  extract_spherical_images (e57lib:=libe57) sample_batch world0 =
    (Raise (FileNotFoundError "E57 file not found at path: scans/missing.e57"),
     (print "E57 file not found at path: scans/missing.e57" sample_batch_reached).2).
Proof.
  apply (C8_missing_input_aborts (e57lib:=libe57) sample_batch_before ["scans/png.e57"]
           "scans/missing.e57" sample_output_path sample_coords_path
           world0 sample_batch_prepared sample_batch_reached);
    vm_compute; reflexivity.
Defined.

Lemma C10_output_prepared_first_witness :
  ∃ w',
    extract_spherical_images (e57lib:=libe57)
        ["scans/missing.e57"; "scans/site.e57"] world0
      = (Raise (FileNotFoundError "E57 file not found at path: scans/missing.e57"), w') ∧
    is_dir w' sample_output_path = true ∧
    files w' !! sample_coords_path = Some header_row.
Proof.
  destruct (C10_output_prepared_first (e57lib:=libe57) "scans/missing.e57"
              ["scans/site.e57"] world0)
    as (_ & w0 & _ & _ & _ & _ & _ & _ & Hmissing);
    [vm_compute; reflexivity | vm_compute; reflexivity |].
  apply Hmissing; vm_compute; reflexivity.
Defined.

(** ** Optional children looked up without a guard *)

(** C5: a panorama stored as PNG only is not decoded: the lookup of
    [jpegImage] raises before [pngImage] is looked at, the codec ends with
    the library's exception for an undefined child, and the batch ends
    with it after the header row.  The PNG payload itself is a valid
    image. *)
Theorem C5_png_only_payload_raises :
  select_image_ref (e57lib:=libe57) sample_payload_png
    = Raise (LibraryError "E57_ERROR_PATH_UNDEFINED") ∧
  is_ok (load_image_data (e57lib:=libe57) png_20x10 ≫= Image_open (Pillow:=pillow)) = true ∧
  process_image (e57lib:=libe57) sample_payload_png "A" sample_output_path sample_prepared
    = (Raise (LibraryError "E57_ERROR_PATH_UNDEFINED"), sample_prepared) ∧
  (extract_spherical_images (e57lib:=libe57) ["scans/png.e57"] world0).1
    = Raise (LibraryError "E57_ERROR_PATH_UNDEFINED") ∧
  files (extract_spherical_images (e57lib:=libe57) ["scans/png.e57"] world0).2
    !! ["scans"; "output"; "A.jpeg"] = None ∧
  files (extract_spherical_images (e57lib:=libe57) ["scans/png.e57"] world0).2
    !! sample_coords_path = Some header_row.
Proof. repeat split; vm_compute; reflexivity. Qed.

(** C6: an image node with a spherical payload that names its scan by the
    fallback key only, or by no key at all, ends the index builder with the
    library's exception for the undefined [associatedData3DGuid] child:
    the fallback key is not consulted, the node is not skipped, and the
    batch ends with that error. *)
Theorem C6_missing_join_key_raises :
  node_getitem (LibE57:=libe57)
      (panorama [("jpegImage", jpeg_100x50)] [("rlms:scanposGuid", StringNode "guid-A")])
      "associatedData3DGuid"
    = Raise (LibraryError "E57_ERROR_PATH_UNDEFINED") ∧
  extract_spherical_representations (e57lib:=libe57) doc_fallback_only
    = Raise (LibraryError "E57_ERROR_PATH_UNDEFINED") ∧
  extract_spherical_representations (e57lib:=libe57) doc_no_key
    = Raise (LibraryError "E57_ERROR_PATH_UNDEFINED") ∧
  (extract_spherical_images (e57lib:=libe57) ["scans/fallback.e57"; "scans/site.e57"] world0).1
    = Raise (LibraryError "E57_ERROR_PATH_UNDEFINED") ∧
  (extract_spherical_images (e57lib:=libe57) ["scans/nokey.e57"; "scans/site.e57"] world0).1
    = Raise (LibraryError "E57_ERROR_PATH_UNDEFINED").
Proof. repeat split; vm_compute; reflexivity. Qed.

(** ** A scan name that is an absolute path *)

(** C9: the image of a scan whose name begins with a slash is not written
    to the output directory.  For the scan named [/tmp/A] the batch
    completes, the image -- resized and encoded as for any other scan --
    is at [/tmp/A.jpeg], the ledger records that path, and the output
    directory holds the ledger and no image. *)
Theorem C9_absolute_name_leaves_output_dir :
  let run := extract_spherical_images (e57lib:=libe57) ["scans/abs.e57"] world0 in
  read_header (e57lib:=libe57) doc_absolute_name 0 = Ok header_abs ∧
  name header_abs = "/tmp/A" ∧
  PyPath.joinpath sample_output_path (PyPath.of_str (name header_abs +:+ ".jpeg"))
    = ["/"; "tmp"; "A.jpeg"] ∧
  run.1 = Ok () ∧
  files run.2 !! ["/"; "tmp"; "A.jpeg"] = Some "JPEG q50 8192x4096 of Jd2 pixels of A" ∧
  files run.2 !! ["scans"; "output"; "tmp"; "A.jpeg"] = None ∧
  files_under sample_output_path run.2 = [sample_coords_path] ∧
  files run.2 !! sample_coords_path = Some (header_row +:+ sample_row_abs).
Proof. repeat split; vm_compute; reflexivity. Qed.

(** A scan whose name has a directory part that does not exist: the image
    cannot be written, and the scan adds nothing to the ledger. *)
Example image_write_failure_leaves_ledger :
  let h := mkScanHeader _ "guid-A" "left/A" [# "0.0"; "0.0"; "0.0"]
             [# "1.0"; "0.0"; "0.0"; "0.0"] in
  process_scan_header (e57lib:=libe57) sample_index sample_output_path
      sample_coords_path h sample_prepared
    = (Raise (FileNotFoundError "scans/output/left/A.jpeg"), sample_prepared).
Proof. vm_compute. reflexivity. Qed.

Lemma decoded_buffer_has_declared_length_witness :
  String.length "Jd2 pixels of A" = 15.
Proof.
  apply (decoded_buffer_has_declared_length (e57lib:=libe57) jpeg_100x50
           "Jd2 pixels of A" 15); reflexivity.
Defined.

Lemma other_extensions_skipped_witness :
  ∃ w', process_files (e57lib:=libe57) ["scans/notes.txt"; "readme.md"]
          sample_output_path sample_coords_path 0 sample_prepared = (Ok (), w') ∧
        files w' = files sample_prepared.
Proof.
  destruct (other_extensions_skipped (e57lib:=libe57) ["scans/notes.txt"; "readme.md"]
              sample_output_path sample_coords_path 0 sample_prepared)
    as (w' & Hrun & _ & Hfiles & _);
    [repeat constructor|].
  exists w'. split; assumption.
Defined.

Lemma processed_file_reports_progress_witness :
  progress_value
    (process_e57_file (e57lib:=libe57) "scans/site.e57" sample_output_path
       sample_coords_path 0 sample_prepared).2 = 1.
Proof.
  apply (processed_file_reports_progress (e57lib:=libe57) "scans/site.e57"
           sample_output_path sample_coords_path 0 1 sample_prepared).
  vm_compute. reflexivity.
Defined.

Lemma index_entries_come_from_nodes_witness :
  ∃ nodes image2D,
    image_nodes (e57lib:=libe57) doc_two_scans = Ok nodes ∧ image2D ∈ nodes ∧
    node_getitem (LibE57:=libe57) image2D "sphericalRepresentation" = Ok sample_payload_A ∧
    associated_guid_of (e57lib:=libe57) image2D = Ok (Some "guid-A").
Proof.
  destruct (index_entries_come_from_nodes (e57lib:=libe57) doc_two_scans
              sample_index "guid-A" sample_payload_A)
    as (nodes & image2D & Hnodes & Hin & Hsr & Hguid & _);
    [vm_compute; reflexivity | vm_compute; reflexivity |].
  exists nodes, image2D. repeat split; assumption.
Defined.

Lemma empty_guid_value_skips_node_witness :
  index_image2D (e57lib:=libe57) sample_index sample_empty_guid = Ok sample_index.
Proof.
  apply (empty_guid_value_skips_node (e57lib:=libe57) sample_index sample_empty_guid
           sample_payload_A (StringNode "")); reflexivity.
Defined.

Lemma index_error_discards_all_witness :
  extract_spherical_representations (e57lib:=libe57) doc_late_error
    = Raise (LibraryError "E57_ERROR_PATH_UNDEFINED").
Proof.
  apply (index_error_discards_all (e57lib:=libe57) doc_late_error
           [panorama [("jpegImage", jpeg_100x50)]
              [("associatedData3DGuid", StringNode "guid-A")]]
           [photo] sample_keyless).
  - reflexivity.
  - repeat constructor.
  - reflexivity.
Defined.

Lemma failed_file_reports_no_progress_witness :
  let run := process_e57_file (e57lib:=libe57) "scans/nameless.e57" sample_output_path
               sample_coords_path 0 sample_prepared in
  run.1 = Raise (LibraryError "E57_ERROR_PATH_UNDEFINED") ∧
  progress_value run.2 = 0 ∧
  files run.2 !! sample_coords_path = Some (header_row +:+ sample_row_A).
Proof.
  intros run.
  destruct (failed_file_reports_no_progress (e57lib:=libe57) "scans/nameless.e57"
              sample_output_path sample_coords_path 0 sample_prepared run.2
              (LibraryError "E57_ERROR_PATH_UNDEFINED")) as (Hval & _);
    [vm_compute; reflexivity|].
  split; [vm_compute; reflexivity|]. split; [|vm_compute; reflexivity].
  rewrite Hval. reflexivity.
Defined.

Lemma container_without_panoramas_witness :
  process_e57_file (e57lib:=libe57) "scans/plain.e57" sample_output_path
      sample_coords_path 0 sample_prepared
    = (Ok 1, (set_progress_value 1 sample_prepared).2).
Proof.
  apply (container_without_panoramas (e57lib:=libe57) "scans/plain.e57"
           "no panorama" sample_output_path sample_coords_path 0 sample_prepared
           doc_no_panorama {[ "guid-C" := sample_payload_A ]}).
  - vm_compute. reflexivity.
  - reflexivity.
  - vm_compute. reflexivity.
  - intros i Hi. vm_compute in Hi.
    destruct i as [|[|i]]; [exists header_A | exists header_B | lia];
      split; vm_compute; reflexivity.
Defined.

Lemma unreadable_container_is_fatal_witness :
  process_e57_file (e57lib:=libe57) "scans/nokey.e57" sample_output_path
      sample_coords_path 0 sample_prepared
    = (Raise (LibraryError "E57_ERROR_PATH_UNDEFINED"), sample_prepared).
Proof.
  apply (unreadable_container_is_fatal (e57lib:=libe57) "scans/nokey.e57"
           sample_output_path sample_coords_path 0 sample_prepared).
  - vm_compute. reflexivity.
  - right. right. exists "no key", doc_no_key.
    repeat split; vm_compute; reflexivity.
Defined.


Lemma create_directory_makes_all_parents_witness :
  ∃ w', create_directory_if_not_exist ["scans"; "output"; "deep"] world0 = (Ok (), w') ∧
        is_dir w' ["scans"; "output"] = true ∧
        is_dir w' ["scans"; "output"; "deep"] = true.
Proof.
  destruct (create_directory_makes_all_parents ["scans"; "output"; "deep"] world0)
    as (w' & Hrun & Hall & Hdir & _);
    [vm_compute; reflexivity | vm_compute; reflexivity |].
  exists w'. split; [assumption|]. split; [|assumption].
  apply (proj1 (Forall_forall _ _) Hall). vm_compute. right. left.
Defined.

Lemma create_directory_blocked_by_file_witness :
  (create_directory_if_not_exist ["scans"; "notes.txt"; "output"] world0).1
    = Raise (NotADirectoryError "scans/notes.txt/output").
Proof.
  rewrite (create_directory_blocked_by_file ["scans"; "notes.txt"; "output"] world0);
    vm_compute; reflexivity.
Defined.

Lemma create_directory_idempotent_witness :
  (create_directory_if_not_exist ["scans"; "output"]
     (create_directory_if_not_exist ["scans"; "output"] world0).2).1 = Ok ().
Proof.
  rewrite (create_directory_idempotent ["scans"; "output"] world0
             (create_directory_if_not_exist ["scans"; "output"] world0).2);
    [reflexivity | vm_compute; reflexivity].
Defined.

Lemma output_path_is_a_regular_file_witness :
  (extract_spherical_images (e57lib:=libe57) ["scans/site.e57"] world_output_taken).1
    = Raise (NotADirectoryError "scans/output/coords.csv").
Proof.
  rewrite (output_path_is_a_regular_file (e57lib:=libe57) "scans/site.e57" []
             world_output_taken); vm_compute; reflexivity.
Defined.

Lemma progress_after_complete_run_witness :
  let w' := (extract_spherical_images (e57lib:=libe57)
               ["scans/notes.txt"; "scans/site.e57"] world0).2 in
  progress_maximum w' = 2 ∧ progress_value w' = 1 ∧
  progress_value w' ≠ progress_maximum w'.
Proof.
  intros w'.
  destruct (progress_after_complete_run (e57lib:=libe57) "scans/notes.txt"
              ["scans/site.e57"] world0 w')
    as (Hmax & Hval & Hfull); [vm_compute; reflexivity|].
  split; [exact Hmax|]. split; [exact Hval|].
  destruct Hfull as [_ Hiff]; [vm_compute; lia|].
  intros Heq. apply Hiff in Heq. apply Forall_cons in Heq as [Hnotes _].
  vm_compute in Hnotes. discriminate Hnotes.
Defined.

Lemma selection_round_trip_witness :
  parse_paths "('scans/site.e57', 'scans/dup.e57')"
    = ["scans/site.e57"; "scans/dup.e57"].
Proof.
  apply (selection_round_trip ["scans/site.e57"; "scans/dup.e57"]);
    [simpl; lia | repeat constructor].
Defined.

Lemma apostrophe_path_is_passed_over_witness :
  ∃ read,
    parse_paths (PyText.tuple_str ["scans/site.e57"; "scans/O'Brien.e57"]) !! 1
      = Some read ∧
    PyStr.endswith read ".e57" = false.
Proof.
  destruct (apostrophe_path_is_passed_over ["scans/site.e57"; "scans/O'Brien.e57"] 1
              "scans/O'Brien.e57") as (read & Hread & _ & Hends);
    [repeat constructor | reflexivity | reflexivity |].
  exists read. split; assumption.
Defined.

Lemma single_selection_adds_empty_path_witness :
  parse_paths "('scans/site.e57',)" = ["scans/site.e57"; ""].
Proof.
  apply (proj2 (single_selection_adds_empty_path "scans/site.e57")); reflexivity.
Defined.

Lemma window_runs_the_selection_witness :
  (start_processing (e57lib:=libe57)
     (select_files ["scans/notes.txt"; "scans/site.e57"] gui0) world0).2
    = (extract_spherical_images (e57lib:=libe57)
         ["scans/notes.txt"; "scans/site.e57"] world0).2.
Proof.
  assert (2 ≤ length ["scans/notes.txt"; "scans/site.e57"]) as Hlen
    by (simpl; lia).
  assert (Forall (λ p, selectable p = true ∧ PyText.char_in PyText.squote p = false)
            ["scans/notes.txt"; "scans/site.e57"]) as Hall
    by (repeat constructor).
  pose proof (window_runs_the_selection (e57lib:=libe57)
                ["scans/notes.txt"; "scans/site.e57"] gui0 world0 Hlen Hall) as Hrun.
  cbv zeta in Hrun.
  destruct (start_processing (e57lib:=libe57)
              (select_files ["scans/notes.txt"; "scans/site.e57"] gui0) world0)
    as [[r g'] w'].
  exact (proj1 Hrun).
Defined.
